(** * amplify-classifier-dojo: training driver and ensemble evaluation

    A shallow embedding of [src/train.py] and
    [src/heterogenous_ensembles/eval.py].

    The two scripts are glue around PyTorch, Lightning, torchmetrics and Aim.
    Library calls are modelled by what the scripts rely on:
    - tensors are a shape together with row-major data, and [torch.mean],
      [torch.argmax], [torch.mode], [torch.squeeze], [torch.stack] and
      [torch.equal] act on them;
    - floating-point arithmetic is kept abstract (class [FloatOps]), so that
      nothing proved here depends on rounding;
    - Python exceptions are a result type, and everything a script does to
      the outside world (loggers created, metrics computed, values tracked,
      figures logged, trainer calls) is recorded in a trace of events. *)

From Stdlib Require Import ZArith QArith Ascii.
From stdpp Require Import base strings list gmap sorting.

Local Open Scope string_scope.
Local Open Scope nat_scope.
Local Open Scope list_scope.
Set Warnings "-register-all".

(** ** Python exceptions *)

Inductive exn :=
| AssertionError (msg : string)
| KeyError (key : string)
| TypeError (msg : string)
| RuntimeError (msg : string)
| AttributeError (msg : string)
| IndexError (msg : string).

Inductive result (A : Type) :=
| Ok (a : A)
| Raise (e : exn).
Arguments Ok {A} a.
Arguments Raise {A} e.

#[global] Instance result_ret : MRet result := λ A a, Ok a.
#[global] Instance result_bind : MBind result := λ A B k r,
  match r with
  | Ok a => k a
  | Raise e => Raise e
  end.

(** ** Floating-point numbers

    The arithmetic the scripts perform on floats: a sum and a division for
    [torch.mean] and for the normalised class weights, an exponential for
    [softmax], a comparison for [torch.argmax], and a test against zero for
    [bool(tensor)]. No law is assumed of them: what is proved holds for any
    rounding. NaN scores, which [torch.argmax] treats as maximal, are outside
    the model. *)

Class FloatOps (F : Type) := {
  fzero : F;
  fone : F;
  fadd : F → F → F;
  fdiv : F → F → F;
  fofnat : nat → F;
  fexp : F → F;
  flt : F → F → bool;
  fis_zero : F → bool
}.

(** ** Tensors *)

Record tensor (A : Type) := Tensor { shape : list nat; data : list A }.
Arguments Tensor {A} shape data.
Arguments shape {A} t.
Arguments data {A} t.

Definition numel (sh : list nat) : nat := foldr Nat.mul 1 sh.

(** A tensor holds as many elements as its shape says. *)
Definition well_formed {A} (t : tensor A) : Prop :=
  length (data t) = numel (shape t).

(** [t[i0, i1, ...]]: row-major offset, [None] when an index is out of range
    or the number of indices is not the number of dimensions. *)
Fixpoint offset (sh idx : list nat) (acc : nat) : option nat :=
  match sh, idx with
  | [], [] => Some acc
  | d :: sh', i :: idx' =>
      if i <? d then offset sh' idx' (acc * d + i) else None
  | _, _ => None
  end.

Definition tensor_get {A} (t : tensor A) (idx : list nat) : option A :=
  match offset (shape t) idx 0 with
  | Some off => data t !! off
  | None => None
  end.

(** The elements [t[..o.., k, ..i..]] for [k] along the reduced dimension,
    where [o] numbers the positions before that dimension and [i] the
    positions after it. *)
Definition lane {A} (t : tensor A) (len inner o i : nat) : list A :=
  omap (λ k, data t !! ((o * len + k) * inner + i)) (seq 0 len).

(** A reduction [f] along dimension [dim]; the reduced dimension is kept with
    size one when [keepdim] is set and dropped otherwise. *)
Definition reduce_dim {A B} (f : list A → B) (dim : nat) (keepdim : bool)
    (t : tensor A) : tensor B :=
  let outer := numel (take dim (shape t)) in
  let len := default 1 (shape t !! dim) in
  let inner := numel (drop (S dim) (shape t)) in
  Tensor (take dim (shape t) ++ (if keepdim then [1] else []) ++
          drop (S dim) (shape t))
         (concat (map (λ o, map (λ i, f (lane t len inner o i)) (seq 0 inner))
                      (seq 0 outer))).

Section reductions.
Context {F : Type} `{FloatOps F}.

Definition fsum (l : list F) : F := foldl fadd fzero l.

Definition mean (l : list F) : F := fdiv (fsum l) (fofnat (length l)).

(** Index of the first maximal element. *)
Fixpoint argmax_from (best_i : nat) (best : F) (i : nat) (l : list F) : nat :=
  match l with
  | [] => best_i
  | x :: l' =>
      if flt best x then argmax_from i x (S i) l'
      else argmax_from best_i best (S i) l'
  end.

Definition argmax (l : list F) : nat :=
  match l with
  | [] => 0
  | x :: l' => argmax_from 0 x 1 l'
  end.

(** [torch.mean(t, dim=dim, keepdim=keepdim)] *)
Definition torch_mean (dim : nat) (keepdim : bool) (t : tensor F)
    : result (tensor F) :=
  match shape t !! dim with
  | None => Raise (IndexError "Dimension out of range")
  | Some _ => Ok (reduce_dim mean dim keepdim t)
  end.

(** [torch.nn.functional.softmax(t, dim=dim)] *)
Definition softmax (dim : nat) (t : tensor F) : result (tensor F) :=
  match shape t !! dim with
  | None => Raise (IndexError "Dimension out of range")
  | Some len =>
      let inner := numel (drop (S dim) (shape t)) in
      Ok (Tensor (shape t)
            (imap (λ j x,
               let o := j / (len * inner) in
               let i := j mod inner in
               fdiv (fexp x) (fsum (map fexp (lane t len inner o i))))
               (data t)))
  end.

(** [torch.argmax(t, dim=dim, keepdim=keepdim)]; the indices are int64. *)
Definition torch_argmax (dim : nat) (keepdim : bool) (t : tensor F)
    : result (tensor Z) :=
  match shape t !! dim with
  | None => Raise (IndexError "Dimension out of range")
  | Some 0 =>
      Raise (IndexError "argmax(): Expected reduction dim to have non-zero size")
  | Some _ => Ok (reduce_dim (λ l, Z.of_nat (argmax l)) dim keepdim t)
  end.
End reductions.

(** Number of occurrences of [z] in [l]. *)
Definition occurrences (z : Z) (l : list Z) : nat :=
  length (filter (λ y, y = z) l).

(** Scan of the candidate values: a candidate replaces the current mode only
    when it occurs strictly more often. *)
Fixpoint mode_scan (cands votes : list Z) (mode_v : Z) (max_freq : nat) : Z :=
  match cands with
  | [] => mode_v
  | c :: cands' =>
      if max_freq <? occurrences c votes
      then mode_scan cands' votes c (occurrences c votes)
      else mode_scan cands' votes mode_v max_freq
  end.

(** The mode of a list as [torch.mode] computes it on the CPU: the values are
    scanned in increasing order, so among the most frequent values the
    smallest is returned. *)
Definition mode_of (votes : list Z) : Z :=
  mode_scan (merge_sort Z.le votes) votes 0%Z 0.

(** [torch.mode(t, dim=dim, keepdim=keepdim)], the values only. *)
Definition torch_mode (dim : nat) (keepdim : bool) (t : tensor Z)
    : result (tensor Z) :=
  match shape t !! dim with
  | None => Raise (IndexError "Dimension out of range")
  | Some 0 =>
      Raise (IndexError "mode(): Expected reduction dim to have non-zero size")
  | Some _ => Ok (reduce_dim mode_of dim keepdim t)
  end.

(** [torch.squeeze(t)]: every dimension of size one is removed. *)
Definition torch_squeeze {A} (t : tensor A) : tensor A :=
  Tensor (filter (λ d, d ≠ 1) (shape t)) (data t).

(** [torch.stack(ts)] along a new leading dimension. *)
Definition torch_stack {A} (ts : list (tensor A)) : result (tensor A) :=
  match ts with
  | [] => Raise (RuntimeError "stack expects a non-empty TensorList")
  | t0 :: _ =>
      if forallb (λ t, bool_decide (shape t = shape t0)) ts
      then Ok (Tensor (length ts :: shape t0) (concat (map data ts)))
      else Raise (RuntimeError "stack expects each tensor to be equal size")
  end.

(** [torch.equal(a, b)] on integer tensors: same size and same elements. *)
Definition torch_equal (a b : tensor Z) : bool :=
  bool_decide (shape a = shape b) && bool_decide (data a = data b).

(** [torch.concat(ts)] along dimension 0. *)
Definition torch_concat {A} (ts : list (tensor A)) : result (tensor A) :=
  match ts with
  | [] => Raise (RuntimeError "torch.cat(): expected a non-empty list of Tensors")
  | t0 :: _ =>
      match shape t0 with
      | [] => Raise (RuntimeError "zero-dimensional tensor cannot be concatenated")
      | _ :: rest =>
          if forallb (λ t, bool_decide (drop 1 (shape t) = rest) &&
                           bool_decide (shape t ≠ [])) ts
          then Ok (Tensor (sum_list (map (λ t, default 0 (shape t !! 0)) ts) :: rest)
                          (concat (map data ts)))
          else Raise (RuntimeError "Sizes of tensors must match except in dimension 0")
      end
  end.

(** ** Python values *)

Inductive pyval (F : Type) :=
| PyNone
| PyBool (b : bool)
| PyInt (z : Z)
| PyFloat (x : F)
| PyStr (s : string)
| PyTensor (t : tensor F)
| PyDict (d : list (string * pyval F)).
Arguments PyNone {F}.
Arguments PyBool {F} b.
Arguments PyInt {F} z.
Arguments PyFloat {F} x.
Arguments PyStr {F} s.
Arguments PyTensor {F} t.
Arguments PyDict {F} d.

Definition str_truthy (s : string) : bool := negb (String.eqb s "").

(** Truth value of an optional string: [None] and [''] are false. *)
Definition opt_truthy (o : option string) : bool :=
  match o with
  | None => false
  | Some s => str_truthy s
  end.

Definition int_truthy (z : Z) : bool := negb (z =? 0)%Z.

Section python.
Context {F : Type} `{FloatOps F}.

(** [bool(v)], as an [if v:] evaluates it. *)
Definition py_bool (v : pyval F) : result bool :=
  match v with
  | PyNone => Ok false
  | PyBool b => Ok b
  | PyInt z => Ok (int_truthy z)
  | PyFloat x => Ok (negb (fis_zero x))
  | PyStr s => Ok (str_truthy s)
  | PyTensor t =>
      match data t with
      | [x] => Ok (negb (fis_zero x))
      | [] => Raise (RuntimeError "Boolean value of Tensor with no values is ambiguous")
      | _ => Raise (RuntimeError "Boolean value of Tensor with more than one value is ambiguous")
      end
  | PyDict d => Ok (negb (bool_decide (d = [])))
  end.

(** The builtin [any(v)]. *)
Definition py_any (v : pyval F) : result bool :=
  match v with
  | PyNone => Raise (TypeError "'NoneType' object is not iterable")
  | PyBool _ => Raise (TypeError "'bool' object is not iterable")
  | PyInt _ => Raise (TypeError "'int' object is not iterable")
  | PyFloat _ => Raise (TypeError "'float' object is not iterable")
  | PyStr s => Ok (str_truthy s)
  | PyTensor t =>
      match shape t with
      | [] => Raise (TypeError "iteration over a 0-d tensor")
      | d :: rest =>
          if d =? 0 then Ok false
          else if numel rest =? 1 then Ok (existsb (λ x, negb (fis_zero x)) (data t))
          else Raise (RuntimeError "Boolean value of Tensor with more than one value is ambiguous")
      end
  | PyDict d => Ok (existsb (λ kv, str_truthy kv.1) d)
  end.
End python.

(** ** Objects of the frameworks *)

Inductive transform (F : Type) :=
| Resize (h w : nat)
| ToImage
| ToDtype (dtype : string) (scale : bool)
| RandomVerticalFlip (p : F)
| RandomHorizontalFlip (p : F)
| BaseTransform (name : string).
Arguments Resize {F} h w.
Arguments ToImage {F}.
Arguments ToDtype {F} dtype scale.
Arguments RandomVerticalFlip {F} p.
Arguments RandomHorizontalFlip {F} p.
Arguments BaseTransform {F} name.

(** A [MulticlassClassifier] lightning module: the hyperparameters it was
    built from, whether [eval()] was called, and the state dict loaded. *)
Record classifier (F : Type) := Classifier {
  hparams : gmap string (pyval F);
  in_eval : bool;
  loaded_state : option (list (string * tensor F))
}.
Arguments Classifier {F} hparams in_eval loaded_state.
Arguments hparams {F} c.
Arguments in_eval {F} c.
Arguments loaded_state {F} c.

(** A checkpoint file as [torch.load] returns it. *)
Record checkpoint (F : Type) := Checkpoint {
  hyper_parameters : gmap string (pyval F);
  state_dict : list (string * tensor F)
}.
Arguments Checkpoint {F} hyper_parameters state_dict.
Arguments hyper_parameters {F} c.
Arguments state_dict {F} c.

(** What a torchvision model returns: a tensor, or a named tuple with a
    [logits] field ([InceptionOutputs], [GoogLeNetOutputs]). *)
Inductive model_output (F : Type) :=
| PlainOutput (t : tensor F)
| AuxOutputs (logits : tensor F).
Arguments PlainOutput {F} t.
Arguments AuxOutputs {F} logits.

(** An [ImageListsWithLabelIndex] datamodule. *)
Record datamodule (F : Type) := Datamodule {
  train_src : option string;
  val_src : string;
  dm_classlist : string;
  base_transforms : list (transform F);
  training_transforms : list (transform F);
  dm_batch_size : Z;
  dm_num_workers : option Z
}.
Arguments Datamodule {F} train_src val_src dm_classlist base_transforms
  training_transforms dm_batch_size dm_num_workers.
Arguments train_src {F} d.
Arguments val_src {F} d.
Arguments dm_classlist {F} d.
Arguments base_transforms {F} d.
Arguments training_transforms {F} d.
Arguments dm_batch_size {F} d.
Arguments dm_num_workers {F} d.

(** An [AimLogger] and the properties set on its run. *)
Record aimlogger := AimLogger {
  al_repo : string;
  al_experiment : option string;
  al_run_name : option string;
  al_context_postfixes : option (list (string * list (string * string)));
  al_context_prefixes : option (list (string * list (string * string)));
  al_artifacts_uri : option string;
  al_description : option string
}.

(** What [setup_aimlogger] hands back when it is not [None]. *)
Inductive loggers :=
| OneLogger (l : aimlogger)
| TwoLoggers (args_logger env_logger : aimlogger).

(** A torchmetrics metric object: its class, its constructor arguments and
    the updates it has received. *)
Inductive metric_input (F : Type) :=
| Scores (t : tensor F)
| Classes (t : tensor Z).
Arguments Scores {F} t.
Arguments Classes {F} t.

Record metric (F : Type) := Metric {
  mt_class : string;
  mt_task : string;
  mt_num_classes : nat;
  mt_average : option string;
  mt_updates : list (metric_input F * tensor Z)
}.
Arguments Metric {F} mt_class mt_task mt_num_classes mt_average mt_updates.
Arguments mt_class {F} m.
Arguments mt_task {F} m.
Arguments mt_num_classes {F} m.
Arguments mt_average {F} m.
Arguments mt_updates {F} m.

Definition metric_update {F} (preds : metric_input F) (target : tensor Z)
    (m : metric F) : metric F :=
  Metric (mt_class m) (mt_task m) (mt_num_classes m) (mt_average m)
         (mt_updates m ++ [(preds, target)]).

(** A figure, as the call that plots it. *)
Inductive figure (F : Type) :=
| BarPlot (values : tensor F) (classes : list string) (counts : list nat)
    (title xaxis_title : string)
| ConfusionPlot (matrix : tensor Z) (classes : list string) (counts : list nat)
    (normalize : bool) (title : string) (metrics : gmap string (metric F)).
Arguments BarPlot {F} values classes counts title xaxis_title.
Arguments ConfusionPlot {F} matrix classes counts normalize title metrics.

Inductive callback (F : Type) :=
| LogNormalizedLoss
| BarPlotMetricAim (metric_name order_by : string)
| PlotConfusionMetricAim (order_by : string) (normalize : bool)
| PlotPerclassDropdownAim
| EarlyStopping (monitor mode : string) (patience : Z)
| ModelSummaryWithGradCallback (max_depth : Z)
| ModelCheckpoint (dirpath filename monitor mode save_last : string)
    (save_top_k : Z) (auto_insert_metric_name : bool)
| StochasticWeightAveraging (swa_lrs : F) (swa_epoch_start annealing_epochs : Z).
Arguments LogNormalizedLoss {F}.
Arguments BarPlotMetricAim {F} metric_name order_by.
Arguments PlotConfusionMetricAim {F} order_by normalize.
Arguments PlotPerclassDropdownAim {F}.
Arguments EarlyStopping {F} monitor mode patience.
Arguments ModelSummaryWithGradCallback {F} max_depth.
Arguments ModelCheckpoint {F} dirpath filename monitor mode save_last
  save_top_k auto_insert_metric_name.
Arguments StochasticWeightAveraging {F} swa_lrs swa_epoch_start annealing_epochs.

(** A [pl.Trainer]. *)
Record trainer (F : Type) := Trainer {
  tr_logger : loggers;
  tr_callbacks : list (callback F);
  tr_max_epochs : Z;
  tr_min_epochs : Z;
  tr_fast_dev_run : bool
}.
Arguments Trainer {F} tr_logger tr_callbacks tr_max_epochs tr_min_epochs
  tr_fast_dev_run.
Arguments tr_logger {F} t.
Arguments tr_callbacks {F} t.

(** ** Events: what a script does to the outside world *)

Inductive event (F : Type) :=
| EvWarn (msg : string)
| EvS3ClientConfig (endpoint_url access_key secret_key : string)
| EvAimLogger (repo : string)
| EvDatamodule (d : datamodule F)
| EvDatamoduleSetup (stage : string)
| EvClassifier (hp : gmap string (pyval F))
| EvLoadStateDict
| EvTrainer (t : trainer F)
| EvScaleBatchSize (mode : string)
| EvSaveHyperparameters (hp : list (string * pyval F))
| EvLogArtifact (path name : string)
| EvFit (model : classifier F) (d : datamodule F)
| EvTest (model : classifier F) (d : datamodule F)
| EvMetricCompute (key : string) (m : metric F)
| EvTrack (value : tensor F) (name : string) (epoch : Z)
    (context : list (string * option string))
| EvFigure (fig : figure F) (name : string) (to : list loggers)
    (context : list (string * string)).
Arguments EvWarn {F} msg.
Arguments EvS3ClientConfig {F} endpoint_url access_key secret_key.
Arguments EvAimLogger {F} repo.
Arguments EvDatamodule {F} d.
Arguments EvDatamoduleSetup {F} stage.
Arguments EvClassifier {F} hp.
Arguments EvLoadStateDict {F}.
Arguments EvTrainer {F} t.
Arguments EvScaleBatchSize {F} mode.
Arguments EvSaveHyperparameters {F} hp.
Arguments EvLogArtifact {F} path name.
Arguments EvFit {F} model d.
Arguments EvTest {F} model d.
Arguments EvMetricCompute {F} key m.
Arguments EvTrack {F} value name epoch context.
Arguments EvFigure {F} fig name to context.

(** A computation: its outcome and the events it emitted, oldest first. The
    events emitted before an exception are kept. *)
Definition M (F A : Type) : Type := result A * list (event F).

Definition ret {F A} (a : A) : M F A := (Ok a, []).

Definition raise {F A} (e : exn) : M F A := (Raise e, []).

Definition bind {F A B} (c : M F A) (k : A → M F B) : M F B :=
  match c.1 with
  | Ok a => ((k a).1, c.2 ++ (k a).2)
  | Raise e => (Raise e, c.2)
  end.

Definition emit {F} (e : event F) : M F unit := (Ok tt, [e]).

Definition lift {F A} (r : result A) : M F A := (r, []).

#[global] Instance M_ret {F} : MRet (M F) := λ A a, ret a.
#[global] Instance M_bind {F} : MBind (M F) := λ A B k c, bind c k.

(** [if cond: body] *)
Definition when {F} (cond : bool) (body : M F unit) : M F unit :=
  if cond then body else ret tt.

(** [for x in xs: acc = body(acc, x)] *)
Fixpoint for_each {F A S} (xs : list A) (acc : S) (body : S → A → M F S)
    : M F S :=
  match xs with
  | [] => ret acc
  | x :: xs' => acc' ← body acc x; for_each xs' acc' body
  end.

(** [d[key]] *)
Definition getitem {F V} (d : gmap string V) (key : string) : M F V :=
  match d !! key with
  | Some v => ret v
  | None => raise (KeyError key)
  end.

(** [d.pop(key)]: the value and the dictionary without the key. *)
Definition dict_pop {F V} (key : string) (d : gmap string V)
    : M F (V * gmap string V) :=
  match d !! key with
  | Some v => ret (v, delete key d)
  | None => raise (KeyError key)
  end.

(** ** What the scripts take from their surroundings

    The file system, and the functions of the frameworks and of the modules
    [src/multiclass/models.py], [src/multiclass/datasets.py] and
    [src/multiclass/callbacks.py] that the two scripts call. Nothing is
    assumed about them. *)

Class World (F : Type) := {
  os_path_isfile : string → bool;
  (** [os.path.isfile(False)] looks at file descriptor 0 *)
  stdin_isfile : bool;
  os_path_basename : string → string;
  os_path_join3 : string → string → string → string;
  check_model_name : string → string;
  get_model_base_transforms : string → list (transform F);
  get_model_resize : pyval F → nat;
  (** the class labels of a class-list file *)
  classes_of : string → list string;
  (** the class index of every sample of a list file *)
  targets_of : string → list nat;
  (** samples per class of a list file *)
  count_perclass : string → string → list nat;
  load_from_checkpoint : string → result (classifier F);
  torch_load : string → result (checkpoint F);
  (** the constructor [MulticlassClassifier], called with the
      hyper_parameters of a checkpoint file as keyword arguments: whether
      it takes them *)
  classifier_init : gmap string (pyval F) → result unit;
  (** [module.load_state_dict(state_dict)] *)
  load_state_dict : classifier F → list (string * tensor F) → result unit;
  (** the batches (samples, labels) of the validation dataloader *)
  val_dataloader : datamodule F → list (tensor F * tensor Z);
  forward : classifier F → tensor F → model_output F;
  metric_compute : metric F → tensor F;
  confusion_compute : metric F → tensor Z;
  scale_batch_size : classifier F → datamodule F → string → Z → Z;
  best_model_path : trainer F → string
}.

(** The [AimLogger] argument group, which both scripts declare. *)
Record aim_group := AimGroup {
  run : option string;
  experiment : option string;
  note : option string;
  repo : option string;
  artifacts_location : option string
}.

Definition pyopt {F A} (f : A → pyval F) (o : option A) : pyval F :=
  match o with
  | Some a => f a
  | None => PyNone
  end.

(** * src/train.py *)

Module Train.

(** The namespace [main] receives. [loss_weights] and [autobatch] default to
    [False], which is [None] here. *)
Record args (F : Type) := Args {
  classlist : string;
  trainlist : string;
  vallist : string;
  testlist : option string;
  flip : option string;
  aim : aim_group;
  model : string;
  weights : option string;
  seed : Z;
  batch_size : Z;
  num_classes : option Z;
  freeze : pyval F;
  loss_function : string;
  loss_weights : option string;
  loss_weights_tensor : pyval F;
  loss_smoothing : F;
  loss_gamma : F;
  optimizer : string;
  lr : F;
  swa : option Z;
  swa_lr : F;
  swa_annealing : Z;
  epoch_max : Z;
  epoch_min : Z;
  epoch_stop : Z;
  checkpoints_path : string;
  autobatch : option string;
  autobatch_max : option Z;
  num_workers : option Z;
  fast_dev_run : bool;
  batch_size_init : option Z
}.
Arguments Args {F}.
Arguments classlist {F} a.
Arguments trainlist {F} a.
Arguments vallist {F} a.
Arguments testlist {F} a.
Arguments flip {F} a.
Arguments aim {F} a.
Arguments model {F} a.
Arguments weights {F} a.
Arguments seed {F} a.
Arguments batch_size {F} a.
Arguments num_classes {F} a.
Arguments freeze {F} a.
Arguments loss_function {F} a.
Arguments loss_weights {F} a.
Arguments loss_weights_tensor {F} a.
Arguments loss_smoothing {F} a.
Arguments loss_gamma {F} a.
Arguments optimizer {F} a.
Arguments lr {F} a.
Arguments swa {F} a.
Arguments swa_lr {F} a.
Arguments swa_annealing {F} a.
Arguments epoch_max {F} a.
Arguments epoch_min {F} a.
Arguments epoch_stop {F} a.
Arguments checkpoints_path {F} a.
Arguments autobatch {F} a.
Arguments autobatch_max {F} a.
Arguments num_workers {F} a.
Arguments fast_dev_run {F} a.
Arguments batch_size_init {F} a.

(** [args.model = m; args.num_classes = n; args.loss_weights_tensor = w] *)
Definition set_model_setup {F} (a : args F) (m : string) (n : option Z)
    (w : pyval F) : args F :=
  Args (classlist a) (trainlist a) (vallist a) (testlist a) (flip a) (aim a)
    m (weights a) (seed a) (batch_size a) n (freeze a)
    (loss_function a) (loss_weights a) w (loss_smoothing a)
    (loss_gamma a) (optimizer a) (lr a) (swa a) (swa_lr a) (swa_annealing a)
    (epoch_max a) (epoch_min a) (epoch_stop a) (checkpoints_path a)
    (autobatch a) (autobatch_max a) (num_workers a) (fast_dev_run a)
    (batch_size_init a).

(** [args.batch_size_init, args.batch_size = init, b] *)
Definition set_batch_sizes {F} (a : args F) (init b : Z) : args F :=
  Args (classlist a) (trainlist a) (vallist a) (testlist a) (flip a) (aim a)
    (model a) (weights a) (seed a) b (num_classes a) (freeze a)
    (loss_function a) (loss_weights a) (loss_weights_tensor a)
    (loss_smoothing a) (loss_gamma a) (optimizer a) (lr a) (swa a) (swa_lr a)
    (swa_annealing a) (epoch_max a) (epoch_min a) (epoch_stop a)
    (checkpoints_path a) (autobatch a) (autobatch_max a) (num_workers a)
    (fast_dev_run a) (Some init).

Section train.
Context {F : Type} `{FloatOps F} `{World F}.

(** ['c' in s] for a one-character string *)
Definition contains_char (c : Ascii.ascii) (s : string) : bool :=
  existsb (Ascii.eqb c) (String.list_ascii_of_string s).

Definition one_half : F := fdiv fone (fofnat 2).

Definition parse_training_transforms (a : args F) : list (transform F) :=
  if opt_truthy (flip a) then
    let s := default "" (flip a) in
    let flip_tforms := [] in
    let flip_tforms :=
      if contains_char "x"%char s then flip_tforms ++ [RandomVerticalFlip one_half]
      else flip_tforms in
    let flip_tforms :=
      if contains_char "y"%char s then flip_tforms ++ [RandomHorizontalFlip one_half]
      else flip_tforms in
    [] ++ flip_tforms
  else [].

(** [torch.bincount] of non-negative integers *)
Definition bincount (l : list nat) : list nat :=
  match l with
  | [] => []
  | _ => map (λ c, length (filter (λ x, x = c) l)) (seq 0 (S (foldr Nat.max 0 l)))
  end.

(** Lines 181-184: class weights inversely proportional to class counts,
    normalised to sum one. *)
Definition normalized_class_weights (targets : list nat) : tensor F :=
  let class_counts := bincount targets in
  let class_weights := map (λ n, fdiv fone (fofnat n)) class_counts in
  let total := fsum class_weights in
  Tensor [length class_counts] (map (λ w, fdiv w total) class_weights).

Definition setup_model_and_datamodule (a : args F)
    : M F (classifier F * datamodule F * args F) :=
  let training_transforms := parse_training_transforms a in
  let model_name := check_model_name (model a) in
  let model_base_transforms := get_model_base_transforms model_name in
  let dm := Datamodule (Some (trainlist a)) (vallist a) (classlist a)
              model_base_transforms training_transforms (batch_size a)
              (num_workers a) in
  emit (EvDatamodule dm);;
  let n_classes := Z.of_nat (length (classes_of (classlist a))) in
  (** ['loss_weights' in args] holds: argparse always sets the attribute *)
  loss_weights_tensor ←
    (if bool_decide (loss_weights a = Some "normalize") then
       emit (EvDatamoduleSetup "fit");;
       mret (PyTensor (normalized_class_weights
               (targets_of (trainlist a) ++ targets_of (vallist a))))
     else if match loss_weights a with
             | Some path => os_path_isfile path
             | None => stdin_isfile
             end
     then raise (AttributeError "'Namespace' object has no attribute 'loss_weight'")
     else mret (loss_weights_tensor a));
  let loss_kwargs := [] in
  loss_kwargs ←
    (if String.eqb (loss_function a) "CrossEntropyLoss" then
       let loss_kwargs := loss_kwargs ++ [("label_smoothing", PyFloat (loss_smoothing a))] in
       b ← lift (py_bool loss_weights_tensor);
       mret (if b : bool then loss_kwargs ++ [("weights", loss_weights_tensor)]
             else loss_kwargs)
     else if String.eqb (loss_function a) "FocalLoss" then
       let loss_kwargs := loss_kwargs ++ [("gamma", PyFloat (loss_gamma a))] in
       b ← lift (py_any loss_weights_tensor);
       mret (if b : bool then loss_kwargs ++ [("alpha", loss_weights_tensor)]
             else loss_kwargs)
     else mret loss_kwargs);
  let optimizer_kwargs := [("lr", PyFloat (lr a))] in
  let hp : gmap string (pyval F) :=
    list_to_map [
      ("model_name", PyStr model_name);
      ("num_classes", PyInt n_classes);
      ("model_weights", pyopt PyStr (weights a));
      ("model_freeze", freeze a);
      ("loss_function", PyStr (loss_function a));
      ("loss_kwargs", PyDict loss_kwargs);
      ("optimizer", PyStr (optimizer a));
      ("optimizer_kwargs", PyDict optimizer_kwargs)] in
  emit (EvClassifier hp);;
  mret (Classifier hp false None, dm,
        set_model_setup a model_name (Some n_classes) loss_weights_tensor).

Definition env_truthy (environ : gmap string string) (key : string) : bool :=
  match environ !! key with
  | Some v => str_truthy v
  | None => false
  end.

Definition set_artifacts_uri (l : aimlogger) (uri : string) : aimlogger :=
  AimLogger (al_repo l) (al_experiment l) (al_run_name l)
    (al_context_postfixes l) (al_context_prefixes l) (Some uri)
    (al_description l).

Definition set_description (l : aimlogger) (d : option string) : aimlogger :=
  AimLogger (al_repo l) (al_experiment l) (al_run_name l)
    (al_context_postfixes l) (al_context_prefixes l) (al_artifacts_uri l) d.

Definition setup_aimlogger (environ : gmap string string) (a : aim_group)
    (context_postfixes context_prefixes :
       option (list (string * list (string * string))))
    : M F (option loggers) :=
  let new_logger r :=
    AimLogger r (experiment a) (run a) context_postfixes context_prefixes
      None None in
  (if env_truthy environ "AIM_ARTIFACTS_S3_ENDPOINT" then
     endpoint ← getitem environ "AIM_ARTIFACTS_S3_ENDPOINT";
     access ← getitem environ "AIM_ARTIFACTS_S3_ACCESSKEY";
     secret ← getitem environ "AIM_ARTIFACTS_S3_SECRETKEY";
     emit (EvS3ClientConfig endpoint access secret)
   else mret tt);;
  env_logger ←
    (if env_truthy environ "AIM_REPO" then
       r ← getitem environ "AIM_REPO";
       emit (EvAimLogger r);;
       let l := new_logger r in
       l ← (if env_truthy environ "AIM_ARTIFACTS_URI" then
              uri ← getitem environ "AIM_ARTIFACTS_URI";
              mret (set_artifacts_uri l uri)
            else mret l);
       mret (Some (if opt_truthy (note a) then set_description l (note a) else l))
     else mret None);
  args_logger ←
    (if opt_truthy (repo a) then
       let r := default "" (repo a) in
       emit (EvAimLogger r);;
       let l := new_logger r in
       let l := if opt_truthy (artifacts_location a)
                then set_artifacts_uri l (default "" (artifacts_location a))
                else l in
       mret (Some (if opt_truthy (note a) then set_description l (note a) else l))
     else mret None);
  let loggers :=
    match args_logger, env_logger with
    | Some al, Some el => Some (TwoLoggers al el)
    | Some al, None => Some (OneLogger al)
    | None, Some el => Some (OneLogger el)
    | None, None => None
    end in
  match loggers with
  | None => emit (EvWarn "NO AIM LOGGERS CREATED");; mret None
  | Some l => mret (Some l)
  end.

(** [assert logger is not None, msg] *)
Definition assert_logger (l : option loggers) : M F loggers :=
  match l with
  | Some l => mret l
  | None => raise (AssertionError
      "Aim logger is None. Did you forget to set --repo, --env, or AIM_REPO env variable?")
  end.

(** [trainer.logger]: the first logger when several were given *)
Definition trainer_logger (l : loggers) : aimlogger :=
  match l with
  | OneLogger l => l
  | TwoLoggers al _ => al
  end.

(** [just_hparams(args)]: the arguments of the groups 'Model Parameters' and
    'Epoch Parameters' *)
Definition just_hparams (a : args F) : list (string * pyval F) :=
  [ ("model", PyStr (model a));
    ("weights", pyopt PyStr (weights a));
    ("seed", PyInt (seed a));
    ("batch_size", PyInt (batch_size a));
    ("num_classes", pyopt PyInt (num_classes a));
    ("freeze", freeze a);
    ("loss_function", PyStr (loss_function a));
    ("loss_weights", match loss_weights a with
                     | Some s => PyStr s
                     | None => PyBool false
                     end);
    ("loss_weights_tensor", loss_weights_tensor a);
    ("loss_smoothing", PyFloat (loss_smoothing a));
    ("loss_gamma", PyFloat (loss_gamma a));
    ("optimizer", PyStr (optimizer a));
    ("lr", PyFloat (lr a));
    ("swa", pyopt PyInt (swa a));
    ("swa_lr", PyFloat (swa_lr a));
    ("swa_annealing", PyInt (swa_annealing a));
    ("epoch_max", PyInt (epoch_max a));
    ("epoch_min", PyInt (epoch_min a));
    ("epoch_stop", PyInt (epoch_stop a)) ].

Definition contexts_train : list (string * list (string * string)) :=
  [ ("averaging", [("macro", "_macro"); ("micro", "_micro");
                   ("weighted", "_weighted"); ("none", "_perclass")]);
    ("normalized", [("no", "_summed"); ("yes", "_normalized")]);
    ("rebalanced", [("yes", "_rebalanced"); ("no", "_unbalanced")]) ].

Definition main (environ : gmap string string) (a : args F) : M F unit :=
  (** Setup Model & Data Module *)
  '(model, datamodule, a) ← setup_model_and_datamodule a;
  (** Setup Epoch Logger *)
  logger ← setup_aimlogger environ (aim a) (Some contexts_train) None;
  logger ← assert_logger logger;
  (** Setup Callbacks *)
  let callbacks := [] in
  let validation_results_callbacks := [LogNormalizedLoss] in
  let callbacks := callbacks ++ validation_results_callbacks in
  let plotting_callbacks :=
    [ BarPlotMetricAim "f1_perclass" "f1_perclass";
      PlotConfusionMetricAim "classes" true;
      PlotConfusionMetricAim "f1_perclass" true;
      PlotPerclassDropdownAim ] in
  let callbacks := callbacks ++ plotting_callbacks in
  let callbacks :=
    if int_truthy (epoch_stop a)
    then callbacks ++ [EarlyStopping "val_loss" "min" (epoch_stop a)]
    else callbacks in
  frozen ← lift (py_bool (freeze a));
  let callbacks :=
    if frozen : bool then callbacks ++ [ModelSummaryWithGradCallback 2]
    else callbacks in
  (** Checkpointing *)
  chkpt_path ←
    match experiment (aim a), run (aim a) with
    | Some e, Some r => mret (os_path_join3 (checkpoints_path a) e r)
    | _, _ => raise (TypeError "expected str, bytes or os.PathLike object, not NoneType")
    end;
  let ckpt_callback :=
    ModelCheckpoint chkpt_path "loss-{val_normloss:3.3f}_ep-{epoch:03.0f}"
      "val_loss" "min" "link" 3 false in
  let callbacks := callbacks ++ [ckpt_callback] in
  let callbacks :=
    match swa a with
    | Some start =>
        if int_truthy start
        then callbacks ++ [StochasticWeightAveraging (swa_lr a) start (swa_annealing a)]
        else callbacks
    | None => callbacks
    end in
  (** Setup Trainer *)
  let trainer := Trainer logger callbacks (epoch_max a) (epoch_min a)
                   (fast_dev_run a) in
  emit (EvTrainer trainer);;
  (** auto-tune batch-size *)
  '(model, a) ←
    (if opt_truthy (autobatch a) then
       let mode := default "" (autobatch a) in
       emit (EvScaleBatchSize mode);;
       let found_batch_size := scale_batch_size model datamodule mode (batch_size a) in
       let limit :=
         match autobatch_max a with
         | Some m => if int_truthy m then Z.min found_batch_size m else found_batch_size
         | None => found_batch_size
         end in
       let a := set_batch_sizes a (batch_size a) limit in
       emit (EvSaveHyperparameters (just_hparams a));;
       mret (Classifier (list_to_map (just_hparams a) ∪ hparams model)
               (in_eval model) (loaded_state model), a)
     else mret (model, a));
  (** save training artifacts *)
  when (opt_truthy (al_artifacts_uri (trainer_logger (tr_logger trainer))))
    (when (os_path_isfile (classlist a))
       (emit (EvLogArtifact (classlist a) (os_path_basename (classlist a))));;
     when (os_path_isfile (vallist a))
       (emit (EvLogArtifact (trainlist a) (os_path_basename (vallist a))));;
     when (os_path_isfile (trainlist a))
       (emit (EvLogArtifact (trainlist a) (os_path_basename (trainlist a)))));;
  (** Do Training *)
  emit (EvFit model datamodule);;
  (** Do Testing *)
  when (opt_truthy (testlist a)) (emit (EvTest model datamodule));;
  (** Copy best model *)
  when (opt_truthy (al_artifacts_uri (trainer_logger (tr_logger trainer))))
    (let model_path := best_model_path trainer in
     emit (EvLogArtifact model_path (os_path_basename model_path))).
End train.

End Train.

(** * src/heterogenous_ensembles/eval.py *)

Module Evaluation.

Record args := Args {
  classlist : string;
  vallist : string;
  testlist : option string;
  aim : aim_group;
  models : list string;
  seed : Z;
  checkpoints_path : string;
  num_workers : option Z;
  fast_dev_run : bool
}.

(** The local variables of [main] when it returns. *)
Record outcome (F : Type) := Outcome {
  scores_per_model : tensor F;
  true_labels : tensor Z;
  averaged_scores : tensor F;
  softvoting_classes : tensor Z;
  hardvoting_classes : tensor Z;
  metrics : gmap string (metric F)
}.
Arguments Outcome {F}.
Arguments scores_per_model {F} o.
Arguments true_labels {F} o.
Arguments averaged_scores {F} o.
Arguments softvoting_classes {F} o.
Arguments hardvoting_classes {F} o.
Arguments metrics {F} o.

Section eval.
Context {F : Type} `{FloatOps F} `{World F}.

(** [s.endswith(suffix)] *)
Definition endswith (s suffix : string) : bool :=
  let n := String.length s in
  let m := String.length suffix in
  (m <=? n) && String.eqb (String.substring (n - m) m s) suffix.

Definition expected_hparams : list string :=
  [ "model_name"; "num_classes"; "model_weights"; "model_freeze";
    "loss_function"; "loss_kwargs"; "optimizer"; "optimizer_kwargs" ].

(** Lines 120-125: hyperparameters saved under the old names are renamed,
    and then every other key is dropped. *)
Definition legacy_hyper_parameters (hp : gmap string (pyval F))
    : M F (gmap string (pyval F)) :=
  match hp !! "model_name" with
  | None =>
      '(m, hp) ← dict_pop "model" hp;
      let hp := <["model_name" := m]> hp in
      '(w, hp) ← dict_pop "weights" hp;
      let hp := <["model_weights" := w]> hp in
      mret (foldl (λ hp key,
              if bool_decide (key ∈ expected_hparams) then hp
              else delete key hp)
            hp (map_to_list hp).*1)
  | Some _ => mret hp
  end.

Definition load_model (model_designator : string)
    : M F (classifier F * list (transform F)) :=
  (** get checkpoint file; the other branch leaves [ckpt_path = ...], the
      Ellipsis object, on which both loaders below raise *)
  let ckpt_path :=
    if os_path_isfile model_designator && endswith model_designator ".ckpt"
    then Some model_designator else None in
  let not_a_path {A} : result A :=
    Raise (AttributeError "'ellipsis' object has no attribute 'tell'. You can only torch.load from a file that is seekable. Please pre-load the data into a buffer like io.BytesIO and try to load from it instead.") in
  (** load checkpoint file *)
  checkpoint_module ←
    match from_option load_from_checkpoint not_a_path ckpt_path with
    | Ok checkpoint_module => mret checkpoint_module
    | Raise _ =>
        checkpoint ← lift (from_option torch_load not_a_path ckpt_path);
        hp ← legacy_hyper_parameters (hyper_parameters checkpoint);
        emit (EvClassifier hp);;
        lift (classifier_init hp);;
        let checkpoint_module := Classifier hp false None in
        let checkpoint_module :=
          Classifier (hparams checkpoint_module) true
            (loaded_state checkpoint_module) in
        emit EvLoadStateDict;;
        lift (load_state_dict checkpoint_module (state_dict checkpoint));;
        mret (Classifier (hparams checkpoint_module)
                (in_eval checkpoint_module) (Some (state_dict checkpoint)))
    end;
  let model := checkpoint_module in
  (** determine base-transforms *)
  model_name ← getitem (hparams checkpoint_module) "model_name";
  let resize := get_model_resize model_name in
  let tf_key := ((resize, resize), "torch.float32") in
  let transforms :=
    [Resize tf_key.1.1 tf_key.1.2; ToImage; ToDtype tf_key.2 true] in
  mret (model, transforms).

(** Lines 184-188 *)
Definition softvoting (scores_per_model : tensor F)
    : result (tensor F * tensor Z) :=
  averaged_scores ← torch_mean 0 true scores_per_model;
  softvoting_classes ← torch_argmax 2 true averaged_scores;
  let softvoting_classes := torch_squeeze softvoting_classes in
  mret (averaged_scores, softvoting_classes).

(** Lines 192-196 *)
Definition hardvoting (scores_per_model : tensor F) : result (tensor Z) :=
  argmaxed_scores ← torch_argmax 2 true scores_per_model;
  hardvoting_classes ← torch_mode 0 true argmaxed_scores;
  let hardvoting_classes := torch_squeeze hardvoting_classes in
  mret hardvoting_classes.

(** Line 177: [assert torch.equal(labels[0], labels[-1])], then line 178 *)
Definition check_labels (labels_per_model : list (tensor Z))
    : result (tensor Z) :=
  match head labels_per_model, last labels_per_model with
  | Some first, Some final =>
      if torch_equal first final then Ok first
      else Raise (AssertionError "labels_are_different")
  | _, _ => Raise (IndexError "list index out of range")
  end.

Definition contexts_eval : list (string * list (string * string)) :=
  [ ("averaging", [("macro", "_macro"); ("micro", "_micro");
                   ("weighted", "_weighted"); ("none", "_perclass")]);
    ("normalized", [("no", "_summed"); ("yes", "_normalized")]) ].

(** [logger.experiment]: a list of loggers has no such attribute *)
Definition experiment_of (logger : loggers) : M F aimlogger :=
  match logger with
  | OneLogger l => mret l
  | TwoLoggers _ _ =>
      raise (AttributeError "'list' object has no attribute 'experiment'")
  end.

Definition averaging_modes : list (option string) :=
  [Some "weighted"; Some "micro"; Some "macro"; None].

Definition stat_classes : list (string * string) :=
  zip ["f1"; "recall"; "accuracy"; "precision"]
      ["F1Score"; "Recall"; "Accuracy"; "Precision"].

(** Lines 152-175: every model is loaded and run over the validation
    set; its softmax scores and the labels are concatenated over the
    batches. *)
Definition main_inference (a : args)
    : M F (list (tensor F) * list (tensor Z) * datamodule F) :=
  let scores_per_model := [] in
  let labels_per_model := [] in
  let datamodule :=
    Datamodule None (vallist a) (classlist a) [] [] 100 (num_workers a) in
  emit (EvDatamodule datamodule);;
  for_each (models a) (scores_per_model, labels_per_model, datamodule)
    (λ '(scores_per_model, labels_per_model, datamodule) model_designator,
       '(model, transforms) ← load_model model_designator;
       let datamodule :=
         Datamodule (train_src datamodule) (val_src datamodule)
           (dm_classlist datamodule) transforms
           (training_transforms datamodule) (dm_batch_size datamodule)
           (dm_num_workers datamodule) in
       emit (EvDatamoduleSetup "validation");;
       let model_preds := [] in
       let true_labels := [] in
       '(model_preds, true_labels) ←
         for_each (val_dataloader datamodule) (model_preds, true_labels)
           (λ '(model_preds, true_labels) batch,
              let samples := batch.1 in
              let labels := batch.2 in
              let outputs :=
                match forward model samples with
                | PlainOutput t => t
                | AuxOutputs logits => logits
                end in
              preds ← lift (softmax 1 outputs);
              mret (model_preds ++ [preds], true_labels ++ [labels]));
       model_preds ← lift (torch_concat model_preds);
       true_labels ← lift (torch_concat true_labels);
       mret (scores_per_model ++ [model_preds],
             labels_per_model ++ [true_labels], datamodule)).

(** Lines 199-237: the metrics of the ensemble are computed and sent to
    the logger. The lines that did the same for hard voting are commented
    out in the source and have no counterpart here. *)
Definition main_metrics (logger : loggers) (classes : list string)
    (perclass_count : list nat) (averaged_scores : tensor F)
    (softvoting_classes true_labels : tensor Z)
    : M F (gmap string (metric F)) :=
  let metrics : gmap string (metric F) := ∅ in
  let num_classes := length classes in
  metrics ←
    for_each averaging_modes metrics (λ metrics mode,
      for_each stat_classes metrics (λ metrics '(stat, MetricClass),
        let key_hard := (stat +:+ "_" +:+ default "perclass" mode +:+ "_HARD")%string in
        let key_soft := (stat +:+ "_" +:+ default "perclass" mode +:+ "_SOFT")%string in
        let metrics :=
          <[key_hard := Metric MetricClass "multiclass" num_classes mode []]> metrics in
        let metrics :=
          <[key_soft := Metric MetricClass "multiclass" num_classes mode []]> metrics in
        m ← getitem metrics key_soft;
        let metrics :=
          <[key_soft := metric_update (Scores (torch_squeeze averaged_scores))
                          true_labels m]> metrics in
        m ← getitem metrics key_soft;
        emit (EvMetricCompute key_soft m);;
        let soft := metric_compute m in
        (if opt_truthy mode then
           experiment_of logger;;
           emit (EvTrack soft stat 0
                   [("subset", Some "val"); ("averaging", mode);
                    ("voting_ensemble", Some "soft")])
         else if String.eqb stat "f1" then
           let f1perclass_fig_soft :=
             BarPlot soft classes perclass_count "F1 Perclass (SOFT)" stat in
           emit (EvFigure f1perclass_fig_soft "f1_perclass" [logger]
                   [("figure_order", "classes"); ("subset", "val");
                    ("voting_ensemble", "soft")])
         else mret tt);;
        mret metrics));
  let metrics :=
    <["confusion_matrix_SOFT" :=
        Metric "ConfusionMatrix" "multiclass" num_classes None []]> metrics in
  m ← getitem metrics "confusion_matrix_SOFT";
  let metrics :=
    <["confusion_matrix_SOFT" :=
        metric_update (Classes softvoting_classes) true_labels m]> metrics in
  m ← getitem metrics "confusion_matrix_SOFT";
  emit (EvMetricCompute "confusion_matrix_SOFT" m);;
  let matrix_counts_soft := confusion_compute m in
  let matrix_fig_soft :=
    ConfusionPlot matrix_counts_soft classes perclass_count true
      "Normalized Ensemble Confusion Matrix (HARD)" metrics in
  emit (EvFigure matrix_fig_soft "confusion_matrix" [logger]
          [("figure_order", "classes"); ("subset", "val");
           ("voting_ensemble", "soft"); ("normalize", "true")]);;
  mret metrics.

Definition main (environ : gmap string string) (a : args)
    : M F (outcome F) :=
  (** Setup Epoch Logger *)
  logger ← Train.setup_aimlogger environ (aim a) (Some contexts_eval) None;
  logger ← Train.assert_logger logger;
  '(scores_per_model, labels_per_model, datamodule) ← main_inference a;
  scores_per_model ← lift (torch_stack scores_per_model);
  true_labels ← lift (check_labels labels_per_model);
  let classes := classes_of (dm_classlist datamodule) in
  let perclass_count :=
    count_perclass (val_src datamodule) (dm_classlist datamodule) in
  (** SOFTVOTING *)
  '(averaged_scores, softvoting_classes) ← lift (softvoting scores_per_model);
  (** HARDVOTING *)
  hardvoting_classes ← lift (hardvoting scores_per_model);
  (** METRICS *)
  metrics ← main_metrics logger classes perclass_count averaged_scores
              softvoting_classes true_labels;
  mret (Outcome scores_per_model true_labels averaged_scores
          softvoting_classes hardvoting_classes metrics).
End eval.

End Evaluation.

(** * Reading the scripts' results *)

(** ** A stacked score tensor, sample by sample *)

Section per_sample.
Context {F : Type} `{FloatOps F}.

(** [scores[n, m, :]]: the class probabilities of model [n] for sample [m] *)
Definition class_probs (scores : tensor F) (n m : nat) : list F :=
  omap (λ c, tensor_get scores [n; m; c])
       (seq 0 (default 0 (shape scores !! 2))).

(** The element-wise mean of vectors of [C] entries. *)
Definition mean_vectors (C : nat) (vs : list (list F)) : list F :=
  map (λ c, mean (omap (λ v : list F, v !! c) vs)) (seq 0 C).

(** The mean over the models of their class probabilities for sample [m]. *)
Definition mean_probs (scores : tensor F) (m : nat) : list F :=
  mean_vectors (default 0 (shape scores !! 2))
    (map (λ n, class_probs scores n m)
         (seq 0 (default 0 (shape scores !! 0)))).

(** The class each model predicts for sample [m] on its own. *)
Definition votes (scores : tensor F) (m : nat) : list Z :=
  map (λ n, Z.of_nat (argmax (class_probs scores n m)))
      (seq 0 (default 0 (shape scores !! 0))).
End per_sample.

(** Row [m] of a tensor whose data is read as rows of [C] entries. *)
Definition sample_row {A} (t : tensor A) (C m : nat) : list A :=
  take C (drop (m * C) (data t)).

(** ** Traces *)

(** [ctx.get(key)] on a keyword dictionary *)
Fixpoint context_get {V} (key : string) (ctx : list (string * V)) : option V :=
  match ctx with
  | [] => None
  | (k, v) :: ctx' => if String.eqb k key then Some v else context_get key ctx'
  end.

(** The metrics whose [compute()] was called, with their key. *)
Definition computed {F} (tr : list (event F)) : list (string * metric F) :=
  omap (λ e, match e with
             | EvMetricCompute key m => Some (key, m)
             | _ => None
             end) tr.

(** The values tracked: name, averaging and voting ensemble of the context. *)
Definition tracked {F} (tr : list (event F))
    : list (string * option string * option string) :=
  omap (λ e, match e with
             | EvTrack _ name _ ctx =>
                 Some (name, mjoin (context_get "averaging" ctx),
                       mjoin (context_get "voting_ensemble" ctx))
             | _ => None
             end) tr.

(** The figures logged: name and voting ensemble of the context. *)
Definition figures {F} (tr : list (event F)) : list (string * option string) :=
  omap (λ e, match e with
             | EvFigure _ name _ ctx =>
                 Some (name, context_get "voting_ensemble" ctx)
             | _ => None
             end) tr.

(** The voting ensemble an event reports on, if it reports on one. *)
Definition voting_of {F} (e : event F) : option string :=
  match e with
  | EvTrack _ _ _ ctx => mjoin (context_get "voting_ensemble" ctx)
  | EvFigure _ _ _ ctx => context_get "voting_ensemble" ctx
  | _ => None
  end.

(** The calls of [trainer.fit] and of [trainer.test]. *)
Definition fits {F} (tr : list (event F)) : list (classifier F * datamodule F) :=
  omap (λ e, match e with
             | EvFit m d => Some (m, d)
             | _ => None
             end) tr.

Definition tests {F} (tr : list (event F)) : list (classifier F * datamodule F) :=
  omap (λ e, match e with
             | EvTest m d => Some (m, d)
             | _ => None
             end) tr.

(** The hyperparameters [MulticlassClassifier] was called with. *)
Definition classifiers {F} (tr : list (event F)) : list (gmap string (pyval F)) :=
  omap (λ e, match e with
             | EvClassifier hp => Some hp
             | _ => None
             end) tr.

(** Events that report on the ensemble. *)
Definition is_report {F} (e : event F) : bool :=
  match e with
  | EvMetricCompute _ _ | EvTrack _ _ _ _ | EvFigure _ _ _ _ => true
  | _ => false
  end.

(** Calls of [trainer.fit] and [trainer.test]. *)
Definition is_fit_or_test {F} (e : event F) : bool :=
  match e with
  | EvFit _ _ | EvTest _ _ => true
  | _ => false
  end.

(** The event reports on soft voting or on no voting ensemble at all. *)
Definition names_soft_or_nothing {F} (e : event F) : bool :=
  match voting_of e with
  | None => true
  | Some v => String.eqb v "soft"
  end.

(** The optional S3 client configuration finds its credentials. *)
Definition s3_config_ok (environ : gmap string string) : bool :=
  if Train.env_truthy environ "AIM_ARTIFACTS_S3_ENDPOINT"
  then bool_decide (is_Some (environ !! "AIM_ARTIFACTS_S3_ACCESSKEY")) &&
       bool_decide (is_Some (environ !! "AIM_ARTIFACTS_S3_SECRETKEY"))
  else true.

(** The event of the S3 client configuration, when it is configured. *)
Definition s3_configured {F} (environ : gmap string string) : list (event F) :=
  match environ !! "AIM_ARTIFACTS_S3_ENDPOINT",
        environ !! "AIM_ARTIFACTS_S3_ACCESSKEY",
        environ !! "AIM_ARTIFACTS_S3_SECRETKEY" with
  | Some endpoint, Some access, Some secret =>
      if str_truthy endpoint then [EvS3ClientConfig endpoint access secret]
      else []
  | _, _, _ => []
  end.

(** Neither [--repo] nor a non-empty [AIM_REPO]. *)
Definition no_logger (environ : gmap string string) (a : aim_group) : bool :=
  negb (opt_truthy (repo a)) && negb (Train.env_truthy environ "AIM_REPO").

Definition logger_missing : string :=
  "Aim logger is None. Did you forget to set --repo, --env, or AIM_REPO env variable?".

Definition is_ok {A} (r : result A) : bool :=
  match r with
  | Ok _ => true
  | Raise _ => false
  end.

(** * src/train.py, lines 362-373: subsets of the parsed arguments *)

(** [args_subsetter_factory(parser)] returns the function [args_subset]. The
    parser is read through the title and the dests of its argument groups
    ([parser._action_groups]), and [vars(args)] is the dictionary of the
    namespace, in its order; [arg_names] may be [None]. The result is the
    dictionary the new namespace is built from. *)
Definition args_subsetter_factory {V} (parser : list (string * list string))
    (args : list (string * V)) (arg_names : option (list string))
    (group_titles : list string) (exclude : list string) : list (string * V) :=
  let arguments := [] in
  let arguments :=
    match arg_names with
    | Some arg_names => arg_names
    | None => arguments
    end in
  let groups := filter (λ group, group.1 ∈ group_titles) parser in
  let group_args := mjoin (map snd groups) in
  let arguments := arguments ++ group_args in
  filter (λ kv, kv.1 ∈ arguments ∧ kv.1 ∉ exclude) args.

(** The argument groups that [argparse_init] of [src/train.py] declares
    (lines 36-97), with the dests of their arguments. *)
Definition train_groups : list (string * list string) :=
  [ ("Dataset", ["classlist"; "trainlist"; "vallist"; "testlist"]);
    ("Base Augmentation", []);
    ("Training Augmentation", ["flip"]);
    ("AimLogger", ["run"; "experiment"; "note"; "repo"; "artifacts_location"]);
    ("Model Parameters",
     ["model"; "weights"; "seed"; "batch_size"; "num_classes"; "freeze";
      "loss_function"; "loss_weights"; "loss_weights_tensor"; "loss_smoothing";
      "loss_gamma"; "optimizer"; "lr"; "swa"; "swa_lr"; "swa_annealing"]);
    ("Epoch Parameters", ["epoch_max"; "epoch_min"; "epoch_stop"]) ].

(** ** More readings of a trace *)

(** The trainers created. *)
Definition trainers {F} (tr : list (event F)) : list (trainer F) :=
  omap (λ e, match e with
             | EvTrainer t => Some t
             | _ => None
             end) tr.

(** The artifacts logged: path and name. *)
Definition artifacts {F} (tr : list (event F)) : list (string * string) :=
  omap (λ e, match e with
             | EvLogArtifact path name => Some (path, name)
             | _ => None
             end) tr.

(** The hyperparameters saved again on the model. *)
Definition saved_hyperparameters {F} (tr : list (event F))
    : list (list (string * pyval F)) :=
  omap (λ e, match e with
             | EvSaveHyperparameters hp => Some hp
             | _ => None
             end) tr.

(** What happens from the creation of the trainer on. *)
Definition is_trainer_step {F} (e : event F) : bool :=
  match e with
  | EvTrainer _ | EvScaleBatchSize _ | EvSaveHyperparameters _
  | EvLogArtifact _ _ | EvFit _ _ | EvTest _ _ => true
  | _ => false
  end.

(** The loggers constructed, by their repo. *)
Definition loggers_created {F} (tr : list (event F)) : list string :=
  omap (λ e, match e with
             | EvAimLogger r => Some r
             | _ => None
             end) tr.

(** The values tracked: name, averaging of the context, and the value. *)
Definition tracked_values {F} (tr : list (event F))
    : list (string * option string * tensor F) :=
  omap (λ e, match e with
             | EvTrack value name _ ctx =>
                 Some (name, mjoin (context_get "averaging" ctx), value)
             | _ => None
             end) tr.

(** The figures logged, with what they plot. *)
Definition plotted {F} (tr : list (event F)) : list (string * figure F) :=
  omap (λ e, match e with
             | EvFigure fig name _ _ => Some (name, fig)
             | _ => None
             end) tr.

(** The confusion matrices plotted: the counts, the title of the plot and
    the voting ensemble of the context it is logged with. *)
Definition confusion_plots {F} (tr : list (event F))
    : list (tensor Z * string * option string) :=
  omap (λ e, match e with
             | EvFigure (ConfusionPlot matrix _ _ _ title _) _ _ ctx =>
                 Some (matrix, title, context_get "voting_ensemble" ctx)
             | _ => None
             end) tr.

(** A run of the evaluation [main] that got as far as the metrics block:
    what it went through before, the events [post] of the block, and how
    the outcome [r] of the run follows from the block. *)
Definition reaches_metrics {F} `{FloatOps F} `{World F}
    (environ : gmap string string) (a : Evaluation.args)
    (r : result (Evaluation.outcome F)) (post : list (event F)) : Prop :=
  ∃ logger scores labels dm t stacked lab avg soft hard,
    (Train.setup_aimlogger (F:=F) environ (Evaluation.aim a)
       (Some Evaluation.contexts_eval) None).1 = Ok (Some logger) ∧
    Evaluation.main_inference a = (Ok (scores, labels, dm), t) ∧
    torch_stack scores = Ok stacked ∧
    Evaluation.check_labels labels = Ok lab ∧
    Evaluation.softvoting stacked = Ok (avg, soft) ∧
    Evaluation.hardvoting stacked = Ok hard ∧
    post = (Evaluation.main_metrics logger (classes_of (dm_classlist dm))
              (count_perclass (val_src dm) (dm_classlist dm)) avg soft lab).2 ∧
    r = match (Evaluation.main_metrics logger (classes_of (dm_classlist dm))
                 (count_perclass (val_src dm) (dm_classlist dm)) avg soft lab).1 with
        | Ok ms => Ok (Evaluation.Outcome stacked lab avg soft hard ms)
        | Raise e => Raise e
        end.

(** * A concrete instance

    Rationals stand in for floating-point numbers and a small fixed world for
    the file system and the frameworks, so that the scripts can be run. *)

Module Demo.

#[global] Instance Q_float : FloatOps Q := {
  fzero := 0%Q;
  fone := 1%Q;
  fadd x y := Qred (x + y);
  fdiv x y := Qred (x / y);
  fofnat n := inject_Z (Z.of_nat n);
  fexp x := Qred (Qpower 2 (Qnum x / Zpos (Qden x)));
  flt x y := negb (Qle_bool y x);
  fis_zero x := Qeq_bool x 0
}.

(** Two samples, three classes; the logits depend on the checkpoint. *)
Definition demo_logits (name : string) : tensor Q :=
  if String.eqb name "a.ckpt" then Tensor [2; 3] [0; 2; 1; 3; 0; 0]%Q
  else if String.eqb name "b.ckpt" then Tensor [2; 3] [0; 1; 3; 2; 0; 1]%Q
  else Tensor [2; 3] [1; 0; 0; 0; 0; 4]%Q.

Definition demo_name (c : classifier Q) : string :=
  match hparams c !! "model_name" with
  | Some (PyStr s) => s
  | _ => ""
  end.

#[global] Instance demo_world : World Q := {
  os_path_isfile s := negb (String.eqb s "");
  stdin_isfile := false;
  os_path_basename s := s;
  os_path_join3 a b c := (a +:+ "/" +:+ b +:+ "/" +:+ c)%string;
  check_model_name s := s;
  get_model_base_transforms s := [Resize 224 224; ToImage; ToDtype "torch.float32" true];
  get_model_resize v := 224;
  classes_of s := ["alpha"; "beta"; "gamma"];
  targets_of s := [0; 1; 1; 2];
  count_perclass v c := [1; 0; 1];
  load_from_checkpoint p :=
    if String.eqb p "old.ckpt" || String.eqb p "odd.ckpt"
    then Raise (TypeError "unexpected keyword argument")
    else Ok (Classifier {[ "model_name" := PyStr p ]} false None);
  torch_load p :=
    if String.eqb p "odd.ckpt"
    then Ok (Checkpoint (list_to_map [("model_name", PyStr p);
                                      ("batch_size", PyInt 256)]) [])
    else Ok (Checkpoint (list_to_map [("model", PyStr p); ("weights", PyNone);
                                      ("num_classes", PyInt 3);
                                      ("batch_size", PyInt 256)]) []);
  classifier_init hp :=
    if forallb (λ k, bool_decide (k ∈ Evaluation.expected_hparams))
         (map_to_list hp).*1
    then Ok tt
    else Raise (TypeError "__init__() got an unexpected keyword argument");
  load_state_dict c sd := Ok tt;
  val_dataloader d := [(Tensor [2; 1] [0; 0]%Q, Tensor [2] [1; 0]%Z)];
  forward c samples := PlainOutput (demo_logits (demo_name c));
  metric_compute m := Tensor [] [0%Q];
  confusion_compute m := Tensor [3; 3] [0; 0; 0; 0; 0; 0; 0; 0; 0]%Z;
  scale_batch_size c d mode init := (2 * init)%Z;
  best_model_path t := "best.ckpt"
}.

(** The scores of three models for two samples and three classes. *)
Definition demo_scores : tensor Q :=
  Tensor [3; 2; 3]
    [ 1 # 7; 4 # 7; 2 # 7;   4 # 5; 1 # 10; 1 # 10;
      1 # 11; 2 # 11; 8 # 11;   4 # 7; 1 # 7; 2 # 7;
      1 # 2; 1 # 4; 1 # 4;   1 # 18; 1 # 18; 8 # 9 ]%Q.

Definition demo_aim : aim_group :=
  AimGroup (Some "run") (Some "exp") None (Some "/aim") None.

Definition eval_args : Evaluation.args :=
  Evaluation.Args "classes.txt" "val.txt" None demo_aim
    ["a.ckpt"; "b.ckpt"; "old.ckpt"] 0 "./experiments" None false.

(** Neither [--repo] nor [AIM_REPO]. *)
Definition demo_aim_no_repo : aim_group :=
  AimGroup (Some "run") (Some "exp") None None None.

Definition eval_args_no_repo : Evaluation.args :=
  Evaluation.Args "classes.txt" "val.txt" None demo_aim_no_repo
    ["a.ckpt"; "b.ckpt"; "old.ckpt"] 0 "./experiments" None false.

Definition train_args_with (testlist : option string) (aim : aim_group)
    (loss_function : string) : Train.args Q :=
  Train.Args "classes.txt" "train.txt" "val.txt" testlist None aim
    "resnet18" (Some "DEFAULT") 0 256 None PyNone
    loss_function None PyNone 0%Q 1%Q "Adam" (1 # 1000)%Q
    None (1 # 50)%Q 10 100 10 10 "./experiments" None None None false None.

Definition train_args : Train.args Q :=
  train_args_with (Some "test.txt") demo_aim "CrossEntropyLoss".

(** [--testlist ''] *)
Definition train_args_blank_testlist : Train.args Q :=
  train_args_with (Some "") demo_aim "CrossEntropyLoss".

Definition train_args_no_repo : Train.args Q :=
  train_args_with None demo_aim_no_repo "CrossEntropyLoss".

(** [--loss-function FocalLoss] and no loss weights *)
Definition train_args_focal : Train.args Q :=
  train_args_with None demo_aim "FocalLoss".

End Demo.

(** ** Further concrete inputs *)

Module Cases.

(** Two models that agree on the one sample. *)
Definition unanimous_scores : tensor Q :=
  Tensor [2; 1; 2] [ 3 # 4; 1 # 4;   2 # 3; 1 # 3 ]%Q.

(** [AIM_REPO] set in the environment. *)
Definition environ_repo : gmap string string :=
  <["AIM_REPO" := "/env"]> (<["AIM_ARTIFACTS_URI" := "file:///env"]> ∅).

(** An S3 endpoint and no credentials. *)
Definition environ_s3 : gmap string string :=
  <["AIM_ARTIFACTS_S3_ENDPOINT" := "http://s3.local"]> ∅.

Definition eval_args_no_model : Evaluation.args :=
  Evaluation.Args "classes.txt" "val.txt" None Demo.demo_aim
    [] 0 "./experiments" None false.

(** [--repo /aim] and no [--experiment]. *)
Definition aim_no_experiment : aim_group :=
  AimGroup (Some "run") None None (Some "/aim") None.

(** [--repo /aim --artifacts-location s3://bucket/artifacts] *)
Definition aim_with_artifacts : aim_group :=
  AimGroup (Some "run") (Some "exp") (Some "a note") (Some "/aim")
    (Some "s3://bucket/artifacts").

Definition train_args_custom (aim : aim_group) (loss_function : string)
    (loss_weights : option string) (autobatch : option string)
    (autobatch_max : option Z) : Train.args Q :=
  Train.Args "classes.txt" "train.txt" "val.txt" None (Some "xy") aim
    "resnet18" (Some "DEFAULT") 0 256 None (PyInt 2)
    loss_function loss_weights PyNone 0%Q 1%Q "Adam" (1 # 1000)%Q
    (Some 5%Z) (1 # 50)%Q 10 100 10 10 "./experiments" autobatch autobatch_max
    None false None.

Definition train_args_no_experiment : Train.args Q :=
  train_args_custom aim_no_experiment "CrossEntropyLoss" None None None.

(** [--autobatch power --autobatch-max 300], with artifacts *)
Definition train_args_autobatch : Train.args Q :=
  train_args_custom aim_with_artifacts "CrossEntropyLoss" None
    (Some "power") (Some 300%Z).

(** [--loss-weights weights.txt] *)
Definition train_args_weights_file : Train.args Q :=
  train_args_custom Demo.demo_aim "CrossEntropyLoss" (Some "weights.txt")
    None None.

(** [--loss-weights normalize] *)
Definition train_args_normalize (loss_function : string) : Train.args Q :=
  train_args_custom Demo.demo_aim loss_function (Some "normalize") None None.

(** A world in which one checkpoint cannot be read at all and another one
    carries no hyperparameters. *)
Definition unreadable_world : World Q := {|
  os_path_isfile := os_path_isfile (World:=Demo.demo_world);
  stdin_isfile := stdin_isfile (World:=Demo.demo_world);
  os_path_basename := os_path_basename (World:=Demo.demo_world);
  os_path_join3 := os_path_join3 (World:=Demo.demo_world);
  check_model_name := check_model_name (World:=Demo.demo_world);
  get_model_base_transforms := get_model_base_transforms (World:=Demo.demo_world);
  get_model_resize := get_model_resize (World:=Demo.demo_world);
  classes_of := classes_of (World:=Demo.demo_world);
  targets_of := targets_of (World:=Demo.demo_world);
  count_perclass := count_perclass (World:=Demo.demo_world);
  load_from_checkpoint p := Raise (RuntimeError "not a lightning checkpoint");
  torch_load p :=
    if String.eqb p "bare.ckpt" then Ok (Checkpoint ∅ [])
    else Raise (RuntimeError "invalid magic number");
  classifier_init := classifier_init (World:=Demo.demo_world);
  load_state_dict := load_state_dict (World:=Demo.demo_world);
  val_dataloader := val_dataloader (World:=Demo.demo_world);
  forward := forward (World:=Demo.demo_world);
  metric_compute := metric_compute (World:=Demo.demo_world);
  confusion_compute := confusion_compute (World:=Demo.demo_world);
  scale_batch_size := scale_batch_size (World:=Demo.demo_world);
  best_model_path := best_model_path (World:=Demo.demo_world)
|}.


(** Old hyper_parameters, as a checkpoint of an earlier version has them. *)
Definition old_hyper_parameters : gmap string (pyval Q) :=
  list_to_map [("model", PyStr "resnet18"); ("weights", PyNone);
               ("num_classes", PyInt 3); ("batch_size", PyInt 256)].

(** A namespace of the training script, entry by entry, around the model
    and epoch arguments of [Demo.train_args]. *)
Definition namespace_before : list (string * pyval Q) :=
  [ ("classlist", PyStr "classes.txt"); ("trainlist", PyStr "train.txt");
    ("vallist", PyStr "val.txt"); ("testlist", PyStr "test.txt");
    ("flip", PyNone); ("run", PyStr "run"); ("experiment", PyStr "exp");
    ("note", PyNone); ("repo", PyStr "/aim"); ("artifacts_location", PyNone) ].

Definition namespace_after : list (string * pyval Q) :=
  [ ("checkpoints_path", PyStr "./experiments"); ("autobatch", PyBool false);
    ("autobatch_max", PyNone); ("num_workers", PyInt 4);
    ("workers_per_gpu", PyInt 4); ("fast_dev_run", PyBool false);
    ("env", PyNone); ("version", PyNone); ("onnx", PyNone) ].

(** The two groups every parser starts with. *)
Definition default_groups : list (string * list string) :=
  [ ("positional arguments", []);
    ("options",
     ["help"; "checkpoints_path"; "autobatch"; "autobatch_max"; "num_workers";
      "workers_per_gpu"; "fast_dev_run"; "env"; "gpus"; "version"; "onnx"]) ].

End Cases.

(** * Properties *)

(** ** Lists read through their indices *)

Lemma omap_seq_ext {A} (f g : nat → option A) (s n : nat) :
  (∀ k, s ≤ k < s + n → f k = g k) → omap f (seq s n) = omap g (seq s n).
Proof.
  revert s. induction n as [|n IH]; intros s Hfg; [done|].
  cbn [seq omap list_omap]. rewrite (Hfg s) by lia.
  rewrite (IH (S s)); [done|]. intros k Hk. apply Hfg. lia.
Qed.

Lemma omap_Some_map {A B} (g : A → B) (l : list A) :
  omap (λ k, Some (g k)) l = map g l.
Proof. induction l as [|x l IH]; [done|]. cbn. by rewrite IH. Qed.

Lemma omap_map {A B C} (f : B → option C) (g : A → B) (l : list A) :
  omap f (map g l) = omap (λ x, f (g x)) l.
Proof.
  induction l as [|x l IH]; [done|]. cbn. rewrite IH. done.
Qed.

(** A table written row after row is read back at [o * inner + i]. *)
Lemma lookup_rows {B} (g : nat → nat → B) (inner outer s o i : nat) :
  o < outer → i < inner →
  concat (map (λ o, map (g o) (seq 0 inner)) (seq s outer)) !! (o * inner + i)
  = Some (g (s + o) i).
Proof.
  revert s o. induction outer as [|outer IH]; intros s o Ho Hi; [lia|].
  cbn [seq map concat]. destruct o as [|o].
  - rewrite lookup_app_l by (rewrite length_map, length_seq; lia).
    rewrite list_lookup_fmap, lookup_seq_lt by done. cbn.
    by rewrite Nat.add_0_r.
  - rewrite lookup_app_r by (rewrite length_map, length_seq; lia).
    rewrite length_map, length_seq.
    replace (S o * inner + i - inner) with (o * inner + i) by lia.
    rewrite IH by lia. f_equal. f_equal. lia.
Qed.

Lemma length_rows {B} (g : nat → nat → B) (inner outer s : nat) :
  length (concat (map (λ o, map (g o) (seq 0 inner)) (seq s outer)))
  = outer * inner.
Proof.
  revert s. induction outer as [|outer IH]; intros s; [done|].
  cbn [seq map concat]. rewrite length_app, length_map, length_seq, IH. lia.
Qed.

(** Consecutive entries of a list are a slice of it. *)
Lemma omap_lookup_slice {A} (l : list A) (s n : nat) :
  s + n ≤ length l →
  omap (λ k, l !! (s + k)) (seq 0 n) = take n (drop s l).
Proof.
  revert s l. induction n as [|n IH]; intros s l Hlen; [by rewrite take_0|].
  destruct (drop s l) as [|x t] eqn:Hd.
  { apply (f_equal length) in Hd. rewrite length_drop in Hd. cbn in Hd. lia. }
  cbn [seq omap list_omap take firstn].
  assert (l !! s = Some x) as Hx.
  { pose proof (lookup_drop l s 0) as Hl. rewrite Hd, Nat.add_0_r in Hl. done. }
  rewrite Nat.add_0_r, Hx. cbn. f_equal.
  assert (t = drop (S s) l) as ->.
  { replace (S s) with (s + 1) by lia. rewrite <- drop_drop, Hd. done. }
  rewrite <- IH by lia. rewrite <- (fmap_S_seq 0 n).
  change (omap (λ k, l !! (s + k)) (S <$> seq 0 n)) with
    (omap (λ k, l !! (s + k)) (map S (seq 0 n))).
  rewrite omap_map. apply omap_seq_ext. intros k _. f_equal. lia.
Qed.

(** ** Reductions along a dimension *)

Section reduce.
Context {A B : Type} (f : list A → B).

Lemma reduce_dim_lookup (dim : nat) (keepdim : bool) (t : tensor A) (o i : nat) :
  o < numel (take dim (shape t)) →
  i < numel (drop (S dim) (shape t)) →
  data (reduce_dim f dim keepdim t)
    !! (o * numel (drop (S dim) (shape t)) + i)
  = Some (f (lane t (default 1 (shape t !! dim))
                    (numel (drop (S dim) (shape t))) o i)).
Proof.
  intros Ho Hi. unfold reduce_dim. cbn [data].
  by rewrite (lookup_rows (λ o i, f (lane t _ _ o i))) by done.
Qed.

Lemma reduce_dim_length (dim : nat) (keepdim : bool) (t : tensor A) :
  length (data (reduce_dim f dim keepdim t))
  = numel (take dim (shape t)) * numel (drop (S dim) (shape t)).
Proof.
  unfold reduce_dim. cbn [data].
  apply (length_rows (λ o i, f (lane t _ _ o i))).
Qed.
End reduce.

(** ** Soft and hard voting *)

Lemma numel_cons (d : nat) (sh : list nat) : numel (d :: sh) = d * numel sh.
Proof. done. Qed.

Lemma numel_nil : numel [] = 1.
Proof. done. Qed.

Lemma row_in_range (N M C n m : nat) :
  n < N → m < M → (n * M + m) * C + C ≤ N * (M * (C * 1)).
Proof.
  intros Hn Hm. assert (n * M + m + 1 ≤ N * M) as Hrow by nia.
  apply (Nat.mul_le_mono_r _ _ C) in Hrow. lia.
Qed.

Lemma cell_in_range (N M n m : nat) : n < N → m < M → n * M + m < N * M.
Proof. intros Hn Hm. nia. Qed.

Section voting.
Context {F : Type} `{FloatOps F}.

Lemma tensor_get3 (scores : tensor F) (N M C n m c : nat) :
  shape scores = [N; M; C] → n < N → m < M → c < C →
  tensor_get scores [n; m; c] = data scores !! ((n * M + m) * C + c).
Proof.
  intros Hsh Hn Hm Hc. unfold tensor_get. rewrite Hsh. cbn [offset].
  destruct (Nat.ltb_spec n N); [|lia].
  destruct (Nat.ltb_spec m M); [|lia].
  destruct (Nat.ltb_spec c C); [|lia].
  done.
Qed.

(** The probabilities of one model for one sample are a slice of the data. *)
Lemma class_probs_slice (scores : tensor F) (N M C n m : nat) :
  shape scores = [N; M; C] → well_formed scores → n < N → m < M →
  class_probs scores n m = take C (drop ((n * M + m) * C) (data scores)).
Proof.
  intros Hsh Hwf Hn Hm. unfold class_probs. rewrite Hsh. cbn [lookup list_lookup default from_option id].
  rewrite <- omap_lookup_slice.
  - apply omap_seq_ext. intros c Hc. apply tensor_get3 with (N := N); [done..|lia].
  - red in Hwf. rewrite Hwf, Hsh, !numel_cons, numel_nil. by apply row_in_range.
Qed.

Lemma class_probs_lookup (scores : tensor F) (N M C n m c : nat) :
  shape scores = [N; M; C] → well_formed scores → n < N → m < M → c < C →
  class_probs scores n m !! c = data scores !! ((n * M + m) * C + c).
Proof.
  intros Hsh Hwf Hn Hm Hc. rewrite (class_probs_slice scores N M C) by done.
  rewrite lookup_take_lt, lookup_drop by done. done.
Qed.

Lemma mean_probs_lanes (scores : tensor F) (N M C m : nat) :
  shape scores = [N; M; C] → well_formed scores → m < M →
  mean_probs scores m =
  map (λ c, mean (omap (λ n, data scores !! ((n * M + m) * C + c)) (seq 0 N)))
      (seq 0 C).
Proof.
  intros Hsh Hwf Hm. unfold mean_probs, mean_vectors. rewrite Hsh.
  cbn [lookup list_lookup default from_option id].
  apply map_ext_in. intros c Hc%in_seq. f_equal.
  rewrite omap_map. apply omap_seq_ext. intros n Hn.
  apply (class_probs_lookup scores N M C); [done..|lia|done|lia].
Qed.
End voting.

Section soft.
Context {F : Type} `{FloatOps F}.

(** The averaged scores: shape [(1, M, C)], entry [(m, c)] the mean over the
    models. *)
Lemma averaged_scores_spec (N M C : nat) (scores : tensor F) :
  shape scores = [N; M; C] →
  torch_mean 0 true scores = Ok (reduce_dim mean 0 true scores) ∧
  shape (reduce_dim mean 0 true scores) = [1; M; C] ∧
  length (data (reduce_dim mean 0 true scores)) = M * C ∧
  ∀ m c, m < M → c < C →
    data (reduce_dim mean 0 true scores) !! (m * C + c)
    = Some (mean (omap (λ n, data scores !! ((n * M + m) * C + c)) (seq 0 N))).
Proof.
  intros Hsh. split; [|split; [|split]].
  - unfold torch_mean. by rewrite Hsh.
  - unfold reduce_dim. cbn [shape]. by rewrite Hsh.
  - rewrite reduce_dim_length, Hsh. cbn [take drop]. rewrite !numel_cons, numel_nil. lia.
  - intros m c Hm Hc.
    pose proof (reduce_dim_lookup mean 0 true scores 0 (m * C + c)) as Hl.
    rewrite Hsh in Hl. cbn [take drop lookup list_lookup default] in Hl.
    rewrite !numel_cons, numel_nil in Hl. cbn [id] in Hl.
    rewrite Nat.mul_0_l, Nat.add_0_l in Hl. rewrite Hl; [|lia|nia].
    do 2 f_equal. apply omap_seq_ext. intros n _. f_equal. lia.
Qed.

(** The class predicted from a tensor of shape [(K, M, C)], sample by
    sample: shape [(K, M, 1)], entry [(k, m)] the arg-max of row [(k, m)]. *)
Lemma argmax_classes_spec (K M C : nat) (t : tensor F) :
  shape t = [K; M; C] → 0 < C →
  torch_argmax 2 true t = Ok (reduce_dim (λ l, Z.of_nat (argmax l)) 2 true t) ∧
  shape (reduce_dim (λ l, Z.of_nat (argmax l)) 2 true t) = [K; M; 1] ∧
  length (data (reduce_dim (λ l, Z.of_nat (argmax l)) 2 true t)) = K * M ∧
  ∀ o, o < K * M →
    data (reduce_dim (λ l, Z.of_nat (argmax l)) 2 true t) !! o
    = Some (Z.of_nat (argmax (omap (λ c, data t !! (o * C + c)) (seq 0 C)))).
Proof.
  intros Hsh HC. split; [|split; [|split]].
  - unfold torch_argmax. rewrite Hsh. cbn [lookup list_lookup].
    destruct C; [lia|done].
  - unfold reduce_dim. cbn [shape]. by rewrite Hsh.
  - rewrite reduce_dim_length, Hsh. cbn [take drop].
    rewrite !numel_cons, numel_nil. lia.
  - intros o Ho.
    pose proof (reduce_dim_lookup (λ l, Z.of_nat (argmax l)) 2 true t o 0) as Hl.
    rewrite Hsh in Hl. cbn [take drop lookup list_lookup default] in Hl.
    rewrite !numel_cons, numel_nil in Hl. cbn [id] in Hl.
    replace (o * 1 + 0) with o in Hl by lia. rewrite Hl; [|lia..].
    do 3 f_equal. apply omap_seq_ext. intros c _. f_equal. lia.
Qed.
End soft.

Section soft_voting.
Context {F : Type} `{FloatOps F}.

Lemma squeeze_column (M : nat) :
  filter (λ d, d ≠ 1) [1; M; 1] = filter (λ d, d ≠ 1) [M].
Proof.
  rewrite filter_cons_False by (intros ?; done).
  rewrite !(filter_cons (λ d, d ≠ 1) M).
  rewrite (filter_cons_False (λ d, d ≠ 1) 1 []) by (intros ?; done). done.
Qed.

(** C1. Soft voting: for every stacked score tensor of shape (N, M, C),
    the prediction for sample [m] is the arg-max class of the mean, over
    the N models, of their class-probability vectors for that sample. The
    predictions come as a tensor of M entries, of shape (M) (of no
    dimension when M = 1, since the squeeze removes it). It holds for all
    scores, so in particular for rows that are softmax outputs. *)
Theorem softvoting_argmax_of_mean (N M C : nat) (scores : tensor F) :
  shape scores = [N; M; C] → well_formed scores → 0 < C →
  ∃ averaged soft,
    Evaluation.softvoting scores = Ok (averaged, soft) ∧
    shape soft = filter (λ d, d ≠ 1) [M] ∧
    length (data soft) = M ∧
    ∀ m, m < M →
      data soft !! m = Some (Z.of_nat (argmax (mean_probs scores m))).
Proof.
  intros Hsh Hwf HC.
  destruct (averaged_scores_spec N M C scores Hsh) as (Hmean & Hash & Halen & Hadata).
  destruct (argmax_classes_spec 1 M C _ Hash HC) as (Harg & Hssh & Hslen & Hsdata).
  eexists _, _. split; [|split; [|split]].
  - unfold Evaluation.softvoting. rewrite Hmean. cbn [mbind result_bind].
    rewrite Harg. done.
  - cbn [torch_squeeze shape]. rewrite Hssh. apply squeeze_column.
  - cbn [torch_squeeze data]. rewrite Hslen. lia.
  - intros m Hm. cbn [torch_squeeze data]. rewrite Hsdata by lia.
    do 3 f_equal. rewrite (mean_probs_lanes scores N M C) by done.
    rewrite <- omap_Some_map. apply omap_seq_ext. intros c Hc.
    apply Hadata; lia.
Qed.
End soft_voting.

(** ** The mode *)

Lemma occurrences_not_in (z : Z) (l : list Z) : z ∉ l → occurrences z l = 0.
Proof.
  intros Hz. unfold occurrences. induction l as [|y l IH]; [done|].
  apply not_elem_of_cons in Hz as [Hne Hz].
  rewrite filter_cons_False by congruence. auto.
Qed.

Lemma occurrences_in (z : Z) (l : list Z) : z ∈ l → 0 < occurrences z l.
Proof.
  unfold occurrences. induction 1 as [y l|y x l _ IH].
  - rewrite filter_cons_True by done. cbn. lia.
  - destruct (decide (x = y)) as [->|Hne].
    + rewrite filter_cons_True by done. cbn. lia.
    + rewrite filter_cons_False by done. done.
Qed.

(** The scan keeps the current mode when no candidate beats it, and
    otherwise ends on the first candidate with the greatest count. *)
Lemma mode_scan_spec (cands votes : list Z) (mode_v : Z) (max_freq : nat) :
  StronglySorted Z.le cands →
  (mode_scan cands votes mode_v max_freq = mode_v ∧
   Forall (λ c, occurrences c votes ≤ max_freq) cands) ∨
  (mode_scan cands votes mode_v max_freq ∈ cands ∧
   max_freq < occurrences (mode_scan cands votes mode_v max_freq) votes ∧
   Forall (λ c,
      occurrences c votes ≤ occurrences (mode_scan cands votes mode_v max_freq) votes ∧
      (occurrences c votes = occurrences (mode_scan cands votes mode_v max_freq) votes →
       (mode_scan cands votes mode_v max_freq ≤ c)%Z)) cands).
Proof.
  revert mode_v max_freq.
  induction cands as [|c cands IH]; intros mode_v max_freq Hsorted.
  { left. by split. }
  apply StronglySorted_inv in Hsorted as [Hsorted Hle].
  cbn [mode_scan]. destruct (Nat.ltb_spec max_freq (occurrences c votes)) as [Hlt|Hge].
  - right.
    destruct (IH c (occurrences c votes) Hsorted) as [[-> Hall]|(Hin & Hgt & Hall)].
    + split; [by left|]. split; [done|]. constructor; [split; [done|lia]|].
      rewrite Forall_forall in Hall, Hle |- *.
      intros x Hx. split; [by apply Hall|]. intros _. by apply Hle.
    + split; [by right|]. split; [lia|]. constructor; [split; lia|done].
  - destruct (IH mode_v max_freq Hsorted) as [[-> Hall]|(Hin & Hgt & Hall)].
    + left. split; [done|]. by constructor.
    + right. split; [by right|]. split; [done|]. constructor; [split; lia|done].
Qed.

(** The mode occurs in the list, and nothing occurs more often; of the
    values that occur as often, it is the smallest. *)
Lemma mode_of_spec (votes : list Z) :
  votes ≠ [] →
  mode_of votes ∈ votes ∧
  ∀ z, occurrences z votes ≤ occurrences (mode_of votes) votes ∧
       (z ∈ votes → occurrences z votes = occurrences (mode_of votes) votes →
        (mode_of votes ≤ z)%Z).
Proof.
  intros Hne. unfold mode_of.
  pose proof (merge_sort_Permutation Z.le votes) as Hperm.
  assert (StronglySorted Z.le (merge_sort Z.le votes)) as Hsorted.
  { apply StronglySorted_merge_sort; [apply _|]. intros x y. lia. }
  destruct (mode_scan_spec _ votes 0%Z 0 Hsorted) as [[_ Hall]|(Hin & _ & Hall)].
  - destruct votes as [|v votes]; [done|].
    rewrite Forall_forall in Hall.
    assert (v ∈ v :: votes) as Hv by left.
    pose proof (occurrences_in _ _ Hv).
    apply (elem_of_Permutation_proper _ _ _ Hperm) in Hv. apply Hall in Hv. lia.
  - apply (elem_of_Permutation_proper _ _ _ Hperm) in Hin. split; [done|].
    rewrite Forall_forall in Hall. intros z.
    destruct (decide (z ∈ votes)) as [Hz|Hz].
    + pose proof Hz as Hz'. apply (elem_of_Permutation_proper _ _ _ Hperm) in Hz'.
      destruct (Hall z Hz') as [? ?]. by split.
    + rewrite (occurrences_not_in z votes Hz). split; [lia|done].
Qed.

Section hard_voting.
Context {F : Type} `{FloatOps F}.

Lemma class_probs_lane (scores : tensor F) (N M C n m : nat) :
  shape scores = [N; M; C] → n < N → m < M →
  class_probs scores n m =
  omap (λ c, data scores !! ((n * M + m) * C + c)) (seq 0 C).
Proof.
  intros Hsh Hn Hm. unfold class_probs. rewrite Hsh.
  cbn [lookup list_lookup default from_option id]. apply omap_seq_ext.
  intros c Hc. apply tensor_get3 with (N := N); [done..|lia].
Qed.

(** The mode over the models of a tensor of shape [(N, M, 1)]. *)
Lemma mode_classes_spec (N M : nat) (t : tensor Z) :
  shape t = [N; M; 1] → 0 < N →
  torch_mode 0 true t = Ok (reduce_dim mode_of 0 true t) ∧
  shape (reduce_dim mode_of 0 true t) = [1; M; 1] ∧
  length (data (reduce_dim mode_of 0 true t)) = M ∧
  ∀ m, m < M →
    data (reduce_dim mode_of 0 true t) !! m
    = Some (mode_of (omap (λ n, data t !! (n * M + m)) (seq 0 N))).
Proof.
  intros Hsh HN. split; [|split; [|split]].
  - unfold torch_mode. rewrite Hsh. cbn [lookup list_lookup].
    destruct N; [lia|done].
  - unfold reduce_dim. cbn [shape]. by rewrite Hsh.
  - rewrite reduce_dim_length, Hsh. cbn [take drop].
    rewrite !numel_cons, numel_nil. lia.
  - intros m Hm.
    pose proof (reduce_dim_lookup mode_of 0 true t 0 m) as Hl.
    rewrite Hsh in Hl. cbn [take drop lookup list_lookup default] in Hl.
    rewrite !numel_cons, numel_nil in Hl. cbn [id] in Hl.
    rewrite Nat.mul_0_l, Nat.add_0_l in Hl. rewrite Hl; [|lia..].
    do 2 f_equal. apply omap_seq_ext. intros n _. f_equal. lia.
Qed.

(** C2. Hard voting: for every stacked score tensor of shape (N, M, C),
    each model's class for sample [m] is first taken as the arg-max of its
    own class probabilities, and the prediction for [m] is the mode of
    those N classes: one of them, none of the others occurring more
    often. *)
Theorem hardvoting_mode_of_argmax (N M C : nat) (scores : tensor F) :
  shape scores = [N; M; C] → 0 < N → 0 < C →
  ∃ hard,
    Evaluation.hardvoting scores = Ok hard ∧
    shape hard = filter (λ d, d ≠ 1) [M] ∧
    length (data hard) = M ∧
    ∀ m, m < M →
      length (votes scores m) = N ∧
      data hard !! m = Some (mode_of (votes scores m)) ∧
      mode_of (votes scores m) ∈ votes scores m ∧
      ∀ z, occurrences z (votes scores m)
           ≤ occurrences (mode_of (votes scores m)) (votes scores m).
Proof.
  intros Hsh HN HC.
  destruct (argmax_classes_spec N M C scores Hsh HC) as (Harg & Hash & Halen & Hadata).
  destruct (mode_classes_spec N M _ Hash HN) as (Hmode & Hmsh & Hmlen & Hmdata).
  eexists. split; [|split; [|split]].
  - unfold Evaluation.hardvoting. rewrite Harg. cbn [mbind result_bind].
    rewrite Hmode. done.
  - cbn [torch_squeeze shape]. rewrite Hmsh. apply squeeze_column.
  - cbn [torch_squeeze data]. done.
  - intros m Hm.
    assert (length (votes scores m) = N) as Hlen.
    { unfold votes. rewrite Hsh. cbn [lookup list_lookup default from_option id].
      by rewrite length_map, length_seq. }
    assert (omap (λ n, data (reduce_dim (λ l, Z.of_nat (argmax l)) 2 true scores)
                         !! (n * M + m)) (seq 0 N) = votes scores m) as Hvotes.
    { unfold votes. rewrite Hsh. cbn [lookup list_lookup default from_option id].
      rewrite <- omap_Some_map. apply omap_seq_ext. intros n Hn.
      rewrite Hadata by (apply (cell_in_range N M n m); lia). do 3 f_equal. symmetry.
      apply (class_probs_lane scores N M C); [done|lia|done]. }
    split; [done|]. split.
    { cbn [torch_squeeze data]. rewrite Hmdata by done. by rewrite Hvotes. }
    assert (votes scores m ≠ []) as Hne.
    { intros Hnil. rewrite Hnil in Hlen. cbn in Hlen. lia. }
    destruct (mode_of_spec _ Hne) as [Hin Hmax]. split; [done|].
    intros z. apply Hmax.
Qed.
End hard_voting.

(** ** Computations and their traces *)

Section traces.
Context {F : Type}.

Lemma bind_Ok_inv {A B} (c : M F A) (k : A → M F B) (b : B) (tr : list (event F)) :
  c ≫= k = (Ok b, tr) →
  ∃ a t1 t2, c = (Ok a, t1) ∧ k a = (Ok b, t2) ∧ tr = t1 ++ t2.
Proof.
  unfold mbind, M_bind, bind. destruct c as [[a|e] t1]; cbn; [|done].
  destruct (k a) as [r t2] eqn:Hk. cbn. intros [= -> <-]. by exists a, t1, t2.
Qed.

Lemma bind_Ok {A B} (c : M F A) (k : A → M F B) (a : A) (t1 : list (event F)) :
  c = (Ok a, t1) → c ≫= k = ((k a).1, t1 ++ (k a).2).
Proof. intros ->. done. Qed.

Lemma bind_Raise {A B} (c : M F A) (k : A → M F B) (e : exn) (t1 : list (event F)) :
  c = (Raise e, t1) → c ≫= k = (Raise e, t1).
Proof. intros ->. done. Qed.

Lemma lift_Ok_inv {A} (r : result A) (a : A) (tr : list (event F)) :
  lift r = (Ok a, tr) → r = Ok a ∧ tr = [].
Proof. unfold lift. by intros [= -> <-]. Qed.

Lemma emit_inv (e : event F) (u : unit) (tr : list (event F)) :
  emit e = (Ok u, tr) → tr = [e].
Proof. unfold emit. by intros [= <-]. Qed.

(** A computation none of whose events satisfies [P]. *)
Definition silent (P : event F → bool) {A} (c : M F A) : Prop :=
  Forall (λ e, P e = false) c.2.

Section silent.
Variable P : event F → bool.

Lemma silent_ret {A} (a : A) : silent P (mret a : M F A).
Proof. constructor. Qed.

Lemma silent_raise {A} (e : exn) : silent P (raise e : M F A).
Proof. constructor. Qed.

Lemma silent_lift {A} (r : result A) : silent P (lift r : M F A).
Proof. constructor. Qed.

Lemma silent_emit (e : event F) : P e = false → silent P (emit e).
Proof. intros He. by repeat constructor. Qed.

Lemma silent_bind {A B} (c : M F A) (k : A → M F B) :
  silent P c → (∀ a, silent P (k a)) → silent P (c ≫= k).
Proof.
  unfold silent, mbind, M_bind, bind. intros Hc Hk.
  destruct c as [[a|e] t1]; cbn in *; [|done].
  apply Forall_app. split; [done|apply Hk].
Qed.

Lemma silent_when (b : bool) (body : M F unit) :
  silent P body → silent P (when b body).
Proof. destruct b; [done|]. intros _. apply silent_ret. Qed.

Lemma silent_for_each {A S} (xs : list A) (acc : S) (body : S → A → M F S) :
  (∀ s x, silent P (body s x)) → silent P (for_each xs acc body).
Proof.
  intros Hbody. revert acc. induction xs as [|x xs IH]; intros acc.
  - apply silent_ret.
  - cbn [for_each]. apply silent_bind; [apply Hbody|apply IH].
Qed.

Lemma silent_getitem {V} (d : gmap string V) (key : string) :
  silent P (getitem d key : M F V).
Proof. unfold getitem. destruct (d !! key); constructor. Qed.

Lemma silent_dict_pop {V} (d : gmap string V) (key : string) :
  silent P (dict_pop key d : M F _).
Proof. unfold dict_pop. destruct (d !! key); constructor. Qed.

Lemma silent_omap {A B} (c : M F A) (f : event F → option B) :
  (∀ e, P e = false → f e = None) → silent P c → omap f c.2 = [].
Proof.
  intros Hf Hc. red in Hc. induction Hc as [|e tr He _ IH]; [done|].
  cbn. by rewrite (Hf e He).
Qed.
End silent.
End traces.

Ltac silent_step :=
  match goal with
  | |- silent _ (mret _) => apply silent_ret
  | |- silent _ (raise _) => apply silent_raise
  | |- silent _ (lift _) => apply silent_lift
  | |- silent _ (emit _) => apply silent_emit; reflexivity
  | |- silent _ (mbind _ _) => apply silent_bind; [|intros ?]
  | |- silent _ (when _ _) => apply silent_when
  | |- silent _ (for_each _ _ _) => apply silent_for_each; intros ? ?
  | |- silent _ (getitem _ _) => apply silent_getitem
  | |- silent _ (dict_pop _ _) => apply silent_dict_pop
  | |- silent _ (if ?b then _ else _) => destruct b
  | |- silent _ (match ?x with _ => _ end) => destruct x
  | |- silent _ ((match ?x with _ => _ end) _) => destruct x
  end.

Section quiet_parts.
Context {F : Type} `{FloatOps F} `{World F}.

Lemma setup_aimlogger_no_report environ a post pre :
  silent (F:=F) is_report (Train.setup_aimlogger environ a post pre).
Proof. unfold Train.setup_aimlogger. repeat silent_step. Qed.

Lemma setup_aimlogger_no_fit environ a post pre :
  silent (F:=F) is_fit_or_test (Train.setup_aimlogger environ a post pre).
Proof. unfold Train.setup_aimlogger. repeat silent_step. Qed.

Lemma assert_logger_silent P l : silent (F:=F) P (Train.assert_logger l).
Proof. unfold Train.assert_logger. repeat silent_step. Qed.

Lemma load_model_no_report d : silent (F:=F) is_report (Evaluation.load_model d).
Proof.
  unfold Evaluation.load_model, Evaluation.legacy_hyper_parameters.
  repeat silent_step.
Qed.

Lemma main_inference_no_report a : silent (F:=F) is_report (Evaluation.main_inference a).
Proof.
  unfold Evaluation.main_inference.
  repeat first [silent_step | apply load_model_no_report].
Qed.

Lemma setup_model_no_fit a :
  silent (F:=F) is_fit_or_test (Train.setup_model_and_datamodule a).
Proof. unfold Train.setup_model_and_datamodule. repeat silent_step. Qed.
End quiet_parts.

Section metrics_block.
Context {F : Type} `{FloatOps F} `{World F}.

Lemma main_metrics_two_loggers al el cl pc avg soft lab :
  (Evaluation.main_metrics (TwoLoggers al el) cl pc avg soft lab).1
  = Raise (AttributeError "'list' object has no attribute 'experiment'").
Proof. vm_compute. reflexivity. Qed.

(** Every metric computed has received one update: the squeezed averaged
    scores for the sixteen statistics, the soft-voting classes for the
    confusion matrix. *)
Lemma main_metrics_computed l cl pc avg soft lab :
  computed (Evaluation.main_metrics (OneLogger l) cl pc avg soft lab).2
  = (mode ← Evaluation.averaging_modes;
     '(stat, cls) ← Evaluation.stat_classes;
     [((stat +:+ "_" +:+ default "perclass" mode +:+ "_SOFT")%string,
       Metric cls "multiclass" (length cl) mode
         [(Scores (torch_squeeze avg), lab)])])
    ++ [("confusion_matrix_SOFT",
         Metric "ConfusionMatrix" "multiclass" (length cl) None
           [(Classes soft, lab)])].
Proof. vm_compute. reflexivity. Qed.

Lemma main_metrics_tracked l cl pc avg soft lab :
  tracked (Evaluation.main_metrics (OneLogger l) cl pc avg soft lab).2
  = (mode ← ["weighted"; "micro"; "macro"];
     stat ← ["f1"; "recall"; "accuracy"; "precision"];
     [(stat, Some mode, Some "soft")]).
Proof. vm_compute. reflexivity. Qed.

Lemma main_metrics_figures l cl pc avg soft lab :
  figures (Evaluation.main_metrics (OneLogger l) cl pc avg soft lab).2
  = [("f1_perclass", Some "soft"); ("confusion_matrix", Some "soft")].
Proof. vm_compute. reflexivity. Qed.

(** A run of [main] that returns: one logger, a trace that reports nothing
    before the metrics block, and the values the votes were computed
    from. *)
Lemma main_Ok_inv environ a o tr :
  Evaluation.main environ a = (Ok o, tr) →
  ∃ l cl pc scores labels pre post,
    tr = pre ++ post ∧
    Forall (λ e, is_report e = false) pre ∧
    torch_stack scores = Ok (Evaluation.scores_per_model o) ∧
    Evaluation.check_labels labels = Ok (Evaluation.true_labels o) ∧
    Evaluation.softvoting (Evaluation.scores_per_model o)
      = Ok (Evaluation.averaged_scores o, Evaluation.softvoting_classes o) ∧
    Evaluation.hardvoting (Evaluation.scores_per_model o)
      = Ok (Evaluation.hardvoting_classes o) ∧
    Evaluation.main_metrics (OneLogger l) cl pc (Evaluation.averaged_scores o)
      (Evaluation.softvoting_classes o) (Evaluation.true_labels o)
      = (Ok (Evaluation.metrics o), post).
Proof.
  unfold Evaluation.main. intros Hmain.
  apply bind_Ok_inv in Hmain as (lg & t1 & t2 & Hlog & Hmain & ->).
  apply bind_Ok_inv in Hmain as (logger & t3 & t4 & Hassert & Hmain & ->).
  apply bind_Ok_inv in Hmain as ([[scores labels] dm] & t5 & t6 & Hinf & Hmain & ->).
  apply bind_Ok_inv in Hmain as (stacked & t7 & t8 & [Hstack ->]%lift_Ok_inv & Hmain & ->).
  apply bind_Ok_inv in Hmain as (lab & t9 & t10 & [Hlab ->]%lift_Ok_inv & Hmain & ->).
  apply bind_Ok_inv in Hmain as ([avg soft] & t11 & t12 & [Hsoft ->]%lift_Ok_inv & Hmain & ->).
  apply bind_Ok_inv in Hmain as (hard & t13 & t14 & [Hhard ->]%lift_Ok_inv & Hmain & ->).
  apply bind_Ok_inv in Hmain as (ms & t15 & t16 & Hmetrics & Hret & ->).
  injection Hret as <- <-. cbn [Evaluation.scores_per_model Evaluation.true_labels
    Evaluation.averaged_scores Evaluation.softvoting_classes
    Evaluation.hardvoting_classes Evaluation.metrics].
  destruct logger as [l|al el].
  2: { pose proof (main_metrics_two_loggers al el
         (classes_of (dm_classlist dm))
         (count_perclass (val_src dm) (dm_classlist dm)) avg soft lab) as Hno.
       rewrite Hmetrics in Hno. done. }
  exists l, (classes_of (dm_classlist dm)),
    (count_perclass (val_src dm) (dm_classlist dm)), scores, labels,
    (t1 ++ t3 ++ t5), t15.
  split; [by rewrite !app_nil_l, !app_nil_r, !app_assoc|].
  split; [|repeat split; assumption].
  pose proof (setup_aimlogger_no_report (F:=F) environ (Evaluation.aim a)
                (Some Evaluation.contexts_eval) None) as Hq1.
  pose proof (assert_logger_silent (F:=F) is_report lg) as Hq2.
  pose proof (main_inference_no_report a) as Hq3.
  unfold silent in Hq1, Hq2, Hq3. rewrite Hlog in Hq1. rewrite Hassert in Hq2.
  rewrite Hinf in Hq3. cbn [snd] in Hq1, Hq2, Hq3.
  rewrite !Forall_app. repeat split; assumption.
Qed.
End metrics_block.

Section soft_consistency.
Context {F : Type} `{FloatOps F}.

Lemma squeeze_matrix (M C : nat) :
  M ≠ 1 → C ≠ 1 → filter (λ d, d ≠ 1) [1; M; C] = [M; C].
Proof.
  intros HM HC. rewrite filter_cons_False by (intros ?; done).
  rewrite filter_cons_True by done. by rewrite filter_cons_True by done.
Qed.

(** What the two families of soft metrics receive, compared on a stacked
    score tensor. *)
Lemma softvoting_rows (N M C : nat) (scores averaged : tensor F) (soft : tensor Z) :
  shape scores = [N; M; C] →
  Evaluation.softvoting scores = Ok (averaged, soft) →
  (∀ m, m < M →
     data soft !! m
     = Some (Z.of_nat (argmax (sample_row (torch_squeeze averaged) C m)))) ∧
  (M ≠ 1 → C ≠ 1 → torch_argmax 1 false (torch_squeeze averaged) = Ok soft).
Proof.
  intros Hsh Hsoft.
  destruct (averaged_scores_spec N M C scores Hsh) as (Hmean & Hash & Halen & _).
  unfold Evaluation.softvoting in Hsoft. rewrite Hmean in Hsoft.
  cbn [mbind result_bind] in Hsoft.
  assert (0 < C) as HC.
  { destruct C; [|lia]. unfold torch_argmax in Hsoft. by rewrite Hash in Hsoft. }
  destruct (argmax_classes_spec 1 M C _ Hash HC) as (Harg & Hssh & Hslen & Hsdata).
  rewrite Harg in Hsoft. injection Hsoft as <- <-. split.
  - intros m Hm. cbn [torch_squeeze data]. rewrite Hsdata by lia.
    do 3 f_equal. unfold sample_row. cbn [torch_squeeze data].
    apply omap_lookup_slice. rewrite Halen.
    pose proof (Nat.mul_le_mono_r (S m) M C). lia.
  - intros HM HC1. set (avg := reduce_dim mean 0 true scores) in *.
    clearbody avg. unfold torch_argmax. cbn [torch_squeeze shape].
    rewrite Hash, squeeze_matrix by done. cbn [lookup list_lookup].
    destruct C as [|C']; [lia|]. f_equal.
    unfold torch_squeeze, reduce_dim. cbn [shape data]. rewrite Hash.
    rewrite squeeze_matrix by done.
    cbn [take drop lookup list_lookup default from_option id app].
    f_equal.
    + rewrite filter_cons_False by (intros ?; done).
      rewrite filter_cons_True by done.
      by rewrite filter_cons_False by (intros ?; done).
    + rewrite !numel_cons, numel_nil, Nat.mul_1_l. done.
Qed.
End soft_consistency.

Section reports.
Context {F : Type} `{FloatOps F} `{World F}.

(** C4. In every run of the evaluation script that returns, the metrics
    computed are F1, recall, accuracy and precision, each with weighted,
    micro and macro averaging and per class (no averaging), and then a
    confusion matrix: seventeen multiclass metrics, every one computed from
    a single update with the ensemble's soft vote and the true labels. *)
Theorem metrics_computed environ a o tr :
  Evaluation.main environ a = (Ok o, tr) →
  map (λ km, (mt_class km.2, mt_average km.2)) (computed tr)
  = (mode ← [Some "weighted"; Some "micro"; Some "macro"; None];
     cls ← ["F1Score"; "Recall"; "Accuracy"; "Precision"];
     [(cls, mode)]) ++ [("ConfusionMatrix", None)] ∧
  Forall (λ km,
    mt_task km.2 = "multiclass" ∧
    (mt_updates km.2 = [(Scores (torch_squeeze (Evaluation.averaged_scores o)),
                         Evaluation.true_labels o)] ∨
     mt_updates km.2 = [(Classes (Evaluation.softvoting_classes o),
                         Evaluation.true_labels o)])) (computed tr).
Proof.
  intros (l & cl & pc & scores & labels & pre & post & -> & Hpre & _ & _ & _ & _ & Hm)%main_Ok_inv.
  unfold computed. rewrite omap_app.
  rewrite (silent_omap is_report (Ok tt, pre)); [|by intros []|exact Hpre].
  rewrite app_nil_l.
  pose proof (main_metrics_computed l cl pc (Evaluation.averaged_scores o)
                (Evaluation.softvoting_classes o) (Evaluation.true_labels o)) as Hc.
  rewrite Hm in Hc. unfold computed in Hc. cbn [snd] in Hc. rewrite Hc.
  split; [reflexivity|].
  repeat (constructor; [split; [reflexivity|auto]|]). constructor.
Qed.
End reports.

Section reports_soft.
Context {F : Type} `{FloatOps F} `{World F}.

Lemma main_metrics_soft_only l cl pc avg soft lab :
  forallb (names_soft_or_nothing (F:=F))
    (Evaluation.main_metrics (OneLogger l) cl pc avg soft lab).2 = true.
Proof. vm_compute. reflexivity. Qed.

Lemma no_report_no_voting (e : event F) :
  is_report e = false → names_soft_or_nothing e = true.
Proof. by destruct e. Qed.

Lemma main_metrics_tracked_values l cl pc avg soft lab :
  tracked_values (Evaluation.main_metrics (OneLogger l) cl pc avg soft lab).2
  = (mode ← ["weighted"; "micro"; "macro"];
     '(stat, cls) ← Evaluation.stat_classes;
     [(stat, Some mode,
       metric_compute
         (Metric cls "multiclass" (length cl) (Some mode)
            [(Scores (torch_squeeze avg), lab)]))]).
Proof. vm_compute. reflexivity. Qed.

Lemma main_metrics_plotted l cl pc avg soft lab :
  match (Evaluation.main_metrics (OneLogger l) cl pc avg soft lab).1 with
  | Ok ms =>
      plotted (Evaluation.main_metrics (OneLogger l) cl pc avg soft lab).2
      = [("f1_perclass",
          BarPlot
            (metric_compute
               (Metric "F1Score" "multiclass" (length cl) None
                  [(Scores (torch_squeeze avg), lab)]))
            cl pc "F1 Perclass (SOFT)" "f1");
         ("confusion_matrix",
          ConfusionPlot
            (confusion_compute
               (Metric "ConfusionMatrix" "multiclass" (length cl) None
                  [(Classes soft, lab)]))
            cl pc true "Normalized Ensemble Confusion Matrix (HARD)" ms)]
  | Raise _ => False
  end.
Proof. vm_compute. reflexivity. Qed.

(** What a loop keeps, it keeps to the end. *)
Lemma for_each_keeps {A St} (P : St → Prop) (xs : list A) (acc acc' : St)
    (body : St → A → M F St) (t : list (event F)) :
  (∀ s x s' t', P s → body s x = (Ok s', t') → P s') → P acc →
  for_each xs acc body = (Ok acc', t) → P acc'.
Proof.
  intros Hbody. revert acc t. induction xs as [|x xs IH]; intros acc t Hacc Hrun.
  - by injection Hrun as <- _.
  - cbn [for_each] in Hrun.
    apply bind_Ok_inv in Hrun as (s1 & t1 & t2 & Hx & Hrun & _).
    eapply IH; [|exact Hrun]. by eapply Hbody.
Qed.

(** The datamodule of the evaluation reads the lists of the arguments,
    whatever the models. *)
Lemma main_inference_datamodule a scores labels dm t :
  Evaluation.main_inference a = (Ok (scores, labels, dm), t) →
  dm_classlist dm = Evaluation.classlist a ∧ val_src dm = Evaluation.vallist a.
Proof.
  unfold Evaluation.main_inference. intros Hrun.
  apply bind_Ok_inv in Hrun as (? & ? & ? & _ & Hrun & _).
  apply (for_each_keeps
           (λ s : list (tensor F) * list (tensor Z) * datamodule F,
              dm_classlist s.2 = Evaluation.classlist a ∧
              val_src s.2 = Evaluation.vallist a)) in Hrun;
    [exact Hrun| |by split].
  intros [[s l] d] md s' t' Hd Hbody. cbn [snd] in Hd.
  apply bind_Ok_inv in Hbody as ([m tf] & ? & ? & _ & Hbody & _).
  apply bind_Ok_inv in Hbody as (? & ? & ? & _ & Hbody & _).
  apply bind_Ok_inv in Hbody as ([mp tl] & ? & ? & _ & Hbody & _).
  apply bind_Ok_inv in Hbody as (? & ? & ? & _ & Hbody & _).
  apply bind_Ok_inv in Hbody as (? & ? & ? & _ & Hbody & _).
  injection Hbody as <- _. exact Hd.
Qed.

(** A run of [main] that returns, with what it collected from the models:
    the metrics block ran with one logger, on the classes and the counts
    of the lists of the arguments. *)
Lemma main_Ok_collected environ a o tr :
  Evaluation.main environ a = (Ok o, tr) →
  ∃ l scores labels dm t pre post,
    Evaluation.main_inference a = (Ok (scores, labels, dm), t) ∧
    tr = pre ++ post ∧
    Forall (λ e, is_report e = false) pre ∧
    torch_stack scores = Ok (Evaluation.scores_per_model o) ∧
    Evaluation.check_labels labels = Ok (Evaluation.true_labels o) ∧
    Evaluation.softvoting (Evaluation.scores_per_model o)
      = Ok (Evaluation.averaged_scores o, Evaluation.softvoting_classes o) ∧
    Evaluation.main_metrics (OneLogger l)
      (classes_of (Evaluation.classlist a))
      (count_perclass (Evaluation.vallist a) (Evaluation.classlist a))
      (Evaluation.averaged_scores o) (Evaluation.softvoting_classes o)
      (Evaluation.true_labels o)
      = (Ok (Evaluation.metrics o), post).
Proof.
  unfold Evaluation.main. intros Hmain.
  apply bind_Ok_inv in Hmain as (lg & t1 & t2 & Hlog & Hmain & ->).
  apply bind_Ok_inv in Hmain as (logger & t3 & t4 & Hassert & Hmain & ->).
  apply bind_Ok_inv in Hmain as ([[scores labels] dm] & t5 & t6 & Hinf & Hmain & ->).
  apply bind_Ok_inv in Hmain as (stacked & t7 & t8 & [Hstack ->]%lift_Ok_inv & Hmain & ->).
  apply bind_Ok_inv in Hmain as (lab & t9 & t10 & [Hlab ->]%lift_Ok_inv & Hmain & ->).
  apply bind_Ok_inv in Hmain as ([avg soft] & t11 & t12 & [Hsoft ->]%lift_Ok_inv & Hmain & ->).
  apply bind_Ok_inv in Hmain as (hard & t13 & t14 & [Hhard ->]%lift_Ok_inv & Hmain & ->).
  apply bind_Ok_inv in Hmain as (ms & t15 & t16 & Hmetrics & Hret & ->).
  injection Hret as <- <-. cbn [Evaluation.scores_per_model Evaluation.true_labels
    Evaluation.averaged_scores Evaluation.softvoting_classes
    Evaluation.hardvoting_classes Evaluation.metrics].
  destruct (main_inference_datamodule a scores labels dm t5 Hinf) as [Hcl Hval].
  rewrite Hcl, Hval in Hmetrics.
  destruct logger as [l|al el].
  2: { pose proof (main_metrics_two_loggers al el
         (classes_of (Evaluation.classlist a))
         (count_perclass (Evaluation.vallist a) (Evaluation.classlist a))
         avg soft lab) as Hno.
       rewrite Hmetrics in Hno. discriminate Hno. }
  exists l, scores, labels, dm, t5, (t1 ++ t3 ++ t5), t15.
  split; [exact Hinf|].
  split; [by rewrite !app_nil_l, !app_nil_r, !app_assoc|].
  split; [|repeat split; assumption].
  pose proof (setup_aimlogger_no_report (F:=F) environ (Evaluation.aim a)
                (Some Evaluation.contexts_eval) None) as Hq1.
  pose proof (assert_logger_silent (F:=F) is_report lg) as Hq2.
  pose proof (main_inference_no_report a) as Hq3.
  unfold silent in Hq1, Hq2, Hq3. rewrite Hlog in Hq1. rewrite Hassert in Hq2.
  rewrite Hinf in Hq3. cbn [snd] in Hq1, Hq2, Hq3.
  rewrite !Forall_app. repeat split; assumption.
Qed.

(** C3, as the code has it. In every run of the evaluation script that
    returns, the soft-voting predictions, and they alone, have metrics
    tracked and figures logged. The twelve values tracked are F1, recall,
    accuracy and precision with weighted, micro and macro averaging, each
    computed by a metric whose one update is the averaged scores of the
    soft vote against the true labels; the two figures are the bar plot of
    the per-class F1 of these same scores and the confusion matrix of the
    soft-voting classes, both over the classes and the counts of the
    lists given; all of it under voting_ensemble = 'soft'. Nothing is
    tracked or logged for hard voting. *)
Theorem soft_vote_logged environ a o tr :
  Evaluation.main environ a = (Ok o, tr) →
  tracked tr
  = (mode ← ["weighted"; "micro"; "macro"];
     stat ← ["f1"; "recall"; "accuracy"; "precision"];
     [(stat, Some mode, Some "soft")]) ∧
  figures tr
  = [("f1_perclass", Some "soft"); ("confusion_matrix", Some "soft")] ∧
  Forall (λ e, voting_of e = None ∨ voting_of e = Some "soft") tr ∧
  Evaluation.softvoting (Evaluation.scores_per_model o)
    = Ok (Evaluation.averaged_scores o, Evaluation.softvoting_classes o) ∧
  let classes := classes_of (Evaluation.classlist a) in
  let counts :=
    count_perclass (Evaluation.vallist a) (Evaluation.classlist a) in
  let of_soft_scores cls mode :=
    Metric cls "multiclass" (length classes) mode
      [(Scores (torch_squeeze (Evaluation.averaged_scores o)),
        Evaluation.true_labels o)] in
  let of_soft_classes :=
    Metric "ConfusionMatrix" "multiclass" (length classes) None
      [(Classes (Evaluation.softvoting_classes o), Evaluation.true_labels o)] in
  tracked_values tr
  = (mode ← ["weighted"; "micro"; "macro"];
     '(stat, cls) ← Evaluation.stat_classes;
     [(stat, Some mode, metric_compute (of_soft_scores cls (Some mode)))]) ∧
  plotted tr
  = [("f1_perclass",
      BarPlot (metric_compute (of_soft_scores "F1Score" None)) classes counts
        "F1 Perclass (SOFT)" "f1");
     ("confusion_matrix",
      ConfusionPlot (confusion_compute of_soft_classes) classes counts true
        "Normalized Ensemble Confusion Matrix (HARD)" (Evaluation.metrics o))].
Proof.
  intros (l & scores & labels & dm & t & pre & post & _ & -> & Hpre & _ & _
          & Hsoft & Hm)%main_Ok_collected.
  set (cl := classes_of (Evaluation.classlist a)) in *.
  set (pc := count_perclass (Evaluation.vallist a) (Evaluation.classlist a)) in *.
  pose proof (main_metrics_tracked l cl pc (Evaluation.averaged_scores o)
                (Evaluation.softvoting_classes o) (Evaluation.true_labels o)) as Ht.
  pose proof (main_metrics_figures l cl pc (Evaluation.averaged_scores o)
                (Evaluation.softvoting_classes o) (Evaluation.true_labels o)) as Hf.
  pose proof (main_metrics_soft_only l cl pc (Evaluation.averaged_scores o)
                (Evaluation.softvoting_classes o) (Evaluation.true_labels o)) as Hs.
  pose proof (main_metrics_tracked_values l cl pc (Evaluation.averaged_scores o)
                (Evaluation.softvoting_classes o) (Evaluation.true_labels o)) as Hv.
  pose proof (main_metrics_plotted l cl pc (Evaluation.averaged_scores o)
                (Evaluation.softvoting_classes o) (Evaluation.true_labels o)) as Hp.
  rewrite Hm in Ht, Hf, Hs, Hv, Hp. cbn [fst snd] in Ht, Hf, Hs, Hv, Hp.
  split; [|split; [|split; [|split; [exact Hsoft|cbv zeta; split]]]].
  - unfold tracked in *. rewrite omap_app, Ht.
    rewrite (silent_omap is_report (Ok tt, pre)); [done|by intros []|exact Hpre].
  - unfold figures in *. rewrite omap_app, Hf.
    rewrite (silent_omap is_report (Ok tt, pre)); [done|by intros []|exact Hpre].
  - assert (∀ e : event F, names_soft_or_nothing e = true →
              voting_of e = None ∨ voting_of e = Some "soft") as Hconv.
    { intros e. unfold names_soft_or_nothing.
      destruct (voting_of e) as [v|]; [|by left].
      intros ->%String.eqb_eq. by right. }
    apply Forall_app. split.
    + eapply Forall_impl; [exact Hpre|]. intros e He.
      by apply Hconv, no_report_no_voting.
    + apply Forall_forall. intros e He. apply Hconv.
      rewrite forallb_forall in Hs. apply Hs. by apply list_elem_of_In.
  - unfold tracked_values in *. rewrite omap_app, Hv.
    rewrite (silent_omap is_report (Ok tt, pre));
      [reflexivity|by intros []|exact Hpre].
  - unfold plotted in *. rewrite omap_app, Hp.
    rewrite (silent_omap is_report (Ok tt, pre));
      [reflexivity|by intros []|exact Hpre].
Qed.

(** C10. In every run of the evaluation script that returns, on a stacked
    score tensor of shape (N, M, C): the sixteen soft statistics are fed
    the squeezed averaged scores and the soft confusion matrix is fed the
    soft-voting classes; and for every sample these classes are the
    arg-max of the sample's row of the squeezed averaged scores. When
    neither M nor C is one, the squeezed scores have shape (M, C) and their
    arg-max over the class dimension is the very tensor the confusion
    matrix receives. *)
Theorem soft_metrics_same_decision environ a o tr (N M C : nat) :
  Evaluation.main environ a = (Ok o, tr) →
  shape (Evaluation.scores_per_model o) = [N; M; C] →
  Forall (λ km,
    mt_updates km.2 =
      if String.eqb km.1 "confusion_matrix_SOFT"
      then [(Classes (Evaluation.softvoting_classes o), Evaluation.true_labels o)]
      else [(Scores (torch_squeeze (Evaluation.averaged_scores o)),
             Evaluation.true_labels o)]) (computed tr) ∧
  (∀ m, m < M →
     data (Evaluation.softvoting_classes o) !! m
     = Some (Z.of_nat (argmax
         (sample_row (torch_squeeze (Evaluation.averaged_scores o)) C m)))) ∧
  (M ≠ 1 → C ≠ 1 →
     torch_argmax 1 false (torch_squeeze (Evaluation.averaged_scores o))
     = Ok (Evaluation.softvoting_classes o)).
Proof.
  intros (l & cl & pc & scores & labels & pre & post & -> & Hpre & _ & _ & Hsoft & _ & Hm)%main_Ok_inv Hsh.
  split; [|by apply (softvoting_rows N M C (Evaluation.scores_per_model o))].
  unfold computed. rewrite omap_app.
  rewrite (silent_omap is_report (Ok tt, pre)); [|by intros []|exact Hpre].
  rewrite app_nil_l.
  pose proof (main_metrics_computed l cl pc (Evaluation.averaged_scores o)
                (Evaluation.softvoting_classes o) (Evaluation.true_labels o)) as Hc.
  rewrite Hm in Hc. unfold computed in Hc. cbn [snd] in Hc. rewrite Hc.
  repeat (constructor; [reflexivity|]). constructor.
Qed.

(** With both [--repo] and [AIM_REPO] set the logger is a list, and the
    metrics block stops at its first [logger.experiment]. *)
Lemma main_needs_one_logger environ a al el o tr :
  (Train.setup_aimlogger (F:=F) environ (Evaluation.aim a)
     (Some Evaluation.contexts_eval) None).1 = Ok (Some (TwoLoggers al el)) →
  Evaluation.main environ a ≠ (Ok o, tr).
Proof.
  intros Htwo Hrun. unfold Evaluation.main in Hrun.
  apply bind_Ok_inv in Hrun as (lg & t1 & t2 & Hlog & Hrun & _).
  rewrite Hlog in Htwo. cbn [fst] in Htwo. injection Htwo as ->.
  apply bind_Ok_inv in Hrun as (logger & t3 & t4 & Hassert & Hrun & _).
  injection Hassert as <- _.
  apply bind_Ok_inv in Hrun as ([[? ?] dm] & ? & ? & _ & Hrun & _).
  apply bind_Ok_inv in Hrun as (? & ? & ? & _ & Hrun & _).
  apply bind_Ok_inv in Hrun as (lab & ? & ? & _ & Hrun & _).
  apply bind_Ok_inv in Hrun as ([avg soft] & ? & ? & _ & Hrun & _).
  apply bind_Ok_inv in Hrun as (? & ? & ? & _ & Hrun & _).
  apply bind_Ok_inv in Hrun as (? & ? & ? & Hmetrics & _ & _).
  pose proof (main_metrics_two_loggers al el (classes_of (dm_classlist dm))
                (count_perclass (val_src dm) (dm_classlist dm)) avg soft lab) as Hno.
  rewrite Hmetrics in Hno. discriminate Hno.
Qed.

(** What [main] returns was computed by the two votes. *)
Lemma main_votes environ a o tr :
  Evaluation.main environ a = (Ok o, tr) →
  Evaluation.softvoting (Evaluation.scores_per_model o)
    = Ok (Evaluation.averaged_scores o, Evaluation.softvoting_classes o) ∧
  Evaluation.hardvoting (Evaluation.scores_per_model o)
    = Ok (Evaluation.hardvoting_classes o) ∧
  ∃ labels_per_model,
    Evaluation.check_labels labels_per_model = Ok (Evaluation.true_labels o).
Proof.
  intros (l & cl & pc & scores & labels & pre & post & -> & Hpre & _ & Hl & Hsoft & Hhard & Hm)%main_Ok_inv.
  split; [done|]. split; [done|]. by exists labels.
Qed.
End reports_soft.

(** ** The training script *)

Section training.
Context {F : Type} `{FloatOps F} `{World F}.

(** [setup_model_and_datamodule] changes the model name, the number of
    classes and the loss weights of the namespace, nothing else. *)
Lemma setup_model_Ok_inv (a : Train.args F) model dm a' tr :
  Train.setup_model_and_datamodule a = (Ok (model, dm, a'), tr) →
  ∃ name n w, a' = Train.set_model_setup a name n w.
Proof.
  unfold Train.setup_model_and_datamodule. intros Hs.
  apply bind_Ok_inv in Hs as (? & ? & ? & _ & Hs & _).
  apply bind_Ok_inv in Hs as (w & ? & ? & _ & Hs & _).
  apply bind_Ok_inv in Hs as (kw & ? & ? & _ & Hs & _).
  apply bind_Ok_inv in Hs as (? & ? & ? & _ & Hs & _).
  injection Hs as _ _ <- _. eauto.
Qed.

Ltac silent_in Hrun :=
  match type of Hrun with
  | ?c = (_, _) =>
      let Hs := fresh "Hs" in
      assert (silent (F:=F) is_fit_or_test c) as Hs
        by (repeat first [ apply setup_aimlogger_no_fit
                         | apply setup_model_no_fit
                         | apply assert_logger_silent
                         | silent_step ]);
      unfold silent in Hs; rewrite Hrun in Hs; cbn [snd] in Hs
  end.

(** C5, as the code has it. In every invocation of the training script's
    [main] that returns, [trainer.fit] is called exactly once, on the
    datamodule and the model that [setup_model_and_datamodule] assembled
    (the model with its hyperparameters saved again when the batch size
    was auto-tuned), and [trainer.test] is called, once and on the same
    two objects, if and only if [args.testlist] is true as Python sees it:
    given and not the empty string. *)
Theorem fit_once_test_if_testlist environ (a : Train.args F) u tr :
  Train.main environ a = (Ok u, tr) →
  ∃ model0 dm a' t0 model,
    Train.setup_model_and_datamodule a = (Ok (model0, dm, a'), t0) ∧
    (opt_truthy (Train.autobatch a) = false → model = model0) ∧
    fits tr = [(model, dm)] ∧
    tests tr = if opt_truthy (Train.testlist a) then [(model, dm)] else [].
Proof.
  unfold Train.main. intros Hmain.
  apply bind_Ok_inv in Hmain as ([[model0 dm] a'] & t1 & ? & Hsetup & Hmain & ->).
  apply bind_Ok_inv in Hmain as (lg & t2 & ? & Hlog & Hmain & ->).
  apply bind_Ok_inv in Hmain as (logger & t3 & ? & Hassert & Hmain & ->).
  apply bind_Ok_inv in Hmain as (frozen & t4 & ? & Hfrozen & Hmain & ->).
  apply bind_Ok_inv in Hmain as (chkpt & t5 & ? & Hchkpt & Hmain & ->).
  apply bind_Ok_inv in Hmain as (? & t6 & ? & Htrainer & Hmain & ->).
  apply bind_Ok_inv in Hmain as ([model a''] & t7 & ? & Hauto & Hmain & ->).
  apply bind_Ok_inv in Hmain as (? & t8 & ? & Hart & Hmain & ->).
  apply bind_Ok_inv in Hmain as (? & t9 & ? & ->%emit_inv & Hmain & ->).
  apply bind_Ok_inv in Hmain as (? & t10 & t11 & Htest & Hcopy & ->).
  destruct (setup_model_Ok_inv a model0 dm a' t1 Hsetup) as (name & n & w & Ha').
  assert (Train.testlist a'' = Train.testlist a ∧
          (opt_truthy (Train.autobatch a) = false → model = model0)) as [Htl Hsame].
  { subst a'. cbn [Train.set_model_setup Train.autobatch Train.batch_size] in Hauto.
    destruct (opt_truthy (Train.autobatch a)).
    - apply bind_Ok_inv in Hauto as (? & ? & ? & _ & Hauto & _).
      apply bind_Ok_inv in Hauto as (? & ? & ? & _ & Hauto & _).
      injection Hauto as _ <- _. done.
    - injection Hauto as <- <- _. done. }
  rewrite Htl in Htest.
  silent_in Hsetup. silent_in Hlog. silent_in Hassert. silent_in Hfrozen.
  silent_in Hchkpt. silent_in Htrainer. silent_in Hauto. silent_in Hart.
  silent_in Hcopy.
  exists model0, dm, a', t1, model. split; [done|]. split; [done|].
  assert (∀ t : list (event F), Forall (λ e, is_fit_or_test e = false) t →
            fits t = [] ∧ tests t = []) as Hquiet.
  { intros t Ht. split.
    - apply (silent_omap is_fit_or_test (Ok tt, t)); [by intros []|exact Ht].
    - apply (silent_omap is_fit_or_test (Ok tt, t)); [by intros []|exact Ht]. }
  unfold fits, tests. rewrite !omap_app.
  repeat match goal with
         | Hq : Forall (λ e, is_fit_or_test e = false) ?t |- _ =>
             destruct (Hquiet t Hq) as [Hf Ht]; unfold fits, tests in Hf, Ht;
             rewrite Hf, Ht; clear Hq Hf Ht
         end.
  destruct (opt_truthy (Train.testlist a)).
  - apply emit_inv in Htest as ->. done.
  - injection Htest as _ <-. done.
Qed.
End training.

Ltac run_script :=
  cbn [mbind M_bind bind mret M_ret ret emit raise lift fst snd app when
       Train.assert_logger].

Section loss.
Context {F : Type} `{FloatOps F} `{World F}.

(** C6, where the code fails it. With [--loss-function FocalLoss] and no
    loss weights configured ([args.loss_weights] left at its default and
    [args.loss_weights_tensor] at [None]), [setup_model_and_datamodule]
    raises a TypeError at [any(args.loss_weights_tensor)]: no loss kwargs
    reach the classifier, which is never constructed. *)
Theorem focal_loss_without_weights_raises (a : Train.args F) :
  Train.loss_function a = "FocalLoss" →
  Train.loss_weights a = None →
  Train.loss_weights_tensor a = PyNone →
  stdin_isfile = false →
  (Train.setup_model_and_datamodule a).1
    = Raise (TypeError "'NoneType' object is not iterable") ∧
  classifiers (Train.setup_model_and_datamodule a).2 = [].
Proof.
  intros Hloss Hweights Htensor Hstdin. unfold Train.setup_model_and_datamodule.
  rewrite Hloss, Hweights, Htensor, Hstdin. done.
Qed.

(** With the default [CrossEntropyLoss] and no loss weights, the classifier
    receives the label smoothing of the command line and nothing else. *)
Lemma cross_entropy_kwargs (a : Train.args F) :
  Train.loss_function a = "CrossEntropyLoss" →
  Train.loss_weights a = None →
  Train.loss_weights_tensor a = PyNone →
  stdin_isfile = false →
  ∃ model dm a' tr,
    Train.setup_model_and_datamodule a = (Ok (model, dm, a'), tr) ∧
    classifiers tr = [hparams model] ∧
    hparams model !! "loss_kwargs"
      = Some (PyDict [("label_smoothing", PyFloat (Train.loss_smoothing a))]).
Proof.
  intros Hloss Hweights Htensor Hstdin. unfold Train.setup_model_and_datamodule.
  rewrite Hloss, Hweights, Htensor, Hstdin. eexists _, _, _, _.
  split; [reflexivity|]. split; [reflexivity|]. cbn [hparams].
  by vm_compute.
Qed.
End loss.

Section logger.
Context {F : Type} `{FloatOps F} `{World F}.

(** The S3 block of [setup_aimlogger], when its credentials are there. *)
Lemma s3_block_runs (environ : gmap string string) :
  s3_config_ok environ = true →
  (if Train.env_truthy environ "AIM_ARTIFACTS_S3_ENDPOINT" then
     endpoint ← getitem environ "AIM_ARTIFACTS_S3_ENDPOINT";
     access ← getitem environ "AIM_ARTIFACTS_S3_ACCESSKEY";
     secret ← getitem environ "AIM_ARTIFACTS_S3_SECRETKEY";
     emit (EvS3ClientConfig endpoint access secret)
   else mret tt) = (Ok tt, s3_configured (F:=F) environ).
Proof.
  unfold s3_config_ok, s3_configured, Train.env_truthy, getitem.
  destruct (environ !! "AIM_ARTIFACTS_S3_ENDPOINT") as [endpoint|]; [|done].
  destruct (str_truthy endpoint).
  - intros [[access ->]%bool_decide_eq_true [secret ->]%bool_decide_eq_true]%andb_true_iff.
    done.
  - intros _. by destruct (environ !! "AIM_ARTIFACTS_S3_ACCESSKEY"),
      (environ !! "AIM_ARTIFACTS_S3_SECRETKEY").
Qed.

Lemma setup_aimlogger_none environ a post pre :
  s3_config_ok environ = true → no_logger environ a = true →
  Train.setup_aimlogger (F:=F) environ a post pre
  = (Ok None, s3_configured environ ++ [EvWarn "NO AIM LOGGERS CREATED"]).
Proof.
  intros Hs3 [Hrepo Henv]%andb_true_iff.
  apply negb_true_iff in Hrepo, Henv.
  unfold Train.setup_aimlogger. rewrite (s3_block_runs environ Hs3), Hrepo, Henv.
  run_script. by rewrite ?app_nil_r.
Qed.

Lemma setup_aimlogger_some environ a post pre :
  s3_config_ok environ = true → no_logger environ a = false →
  ∃ l, (Train.setup_aimlogger (F:=F) environ a post pre).1 = Ok (Some l) ∧
       match l with
       | TwoLoggers al el =>
           opt_truthy (repo a) = true ∧
           Train.env_truthy environ "AIM_REPO" = true ∧
           repo a = Some (al_repo al) ∧
           environ !! "AIM_REPO" = Some (al_repo el)
       | OneLogger l =>
           (opt_truthy (repo a) = true ∧
            Train.env_truthy environ "AIM_REPO" = false ∧
            repo a = Some (al_repo l)) ∨
           (opt_truthy (repo a) = false ∧
            Train.env_truthy environ "AIM_REPO" = true ∧
            environ !! "AIM_REPO" = Some (al_repo l))
       end.
Proof.
  intros Hs3 Hsome. unfold no_logger in Hsome.
  unfold Train.setup_aimlogger. rewrite (s3_block_runs environ Hs3).
  assert (∀ l : aimlogger,
            al_repo (if opt_truthy (note a)
                     then Train.set_description l (note a) else l) = al_repo l)
    as Hnote by (intros l; by destruct (opt_truthy (note a))).
  unfold Train.env_truthy in *. unfold getitem.
  destruct (environ !! "AIM_REPO") as [r|] eqn:Hr;
    [destruct (str_truthy r) eqn:Hrt|];
    (destruct (repo a) as [ra|] eqn:Hra; [destruct (str_truthy ra) eqn:Hrat|]);
    cbn [opt_truthy] in *; rewrite ?Hrat in *; try discriminate Hsome;
    run_script.
  all: try (destruct (environ !! "AIM_ARTIFACTS_URI") as [uri|];
            [destruct (str_truthy uri)|]; run_script).
  all: try (destruct (opt_truthy (artifacts_location a)); run_script).
  all: eexists; (split; [reflexivity|]); cbn beta iota; rewrite ?Hnote; cbn; auto 10.
Qed.

(** C9, as the code has it. Whenever the optional S3 client configuration
    finds its credentials: if neither [--repo] is given a non-empty value
    nor [AIM_REPO] is set to one, [setup_aimlogger] warns and returns
    [None]; the evaluation [main] then stops at its assertion before it
    loads or runs any model; the training [main] stops at the same
    assertion, after [setup_model_and_datamodule] has already constructed
    the datamodule and the classifier, and before any trainer exists.
    Otherwise a logger comes back: a list of the two loggers when both are
    set, the one logger when one is. *)
Theorem aimlogger_required (environ : gmap string string) :
  s3_config_ok environ = true →
  (∀ a post pre, no_logger environ a = true →
     Train.setup_aimlogger (F:=F) environ a post pre
     = (Ok None, s3_configured environ ++ [EvWarn "NO AIM LOGGERS CREATED"])) ∧
  (∀ ea, no_logger environ (Evaluation.aim ea) = true →
     Evaluation.main environ ea
     = (Raise (AssertionError logger_missing),
        s3_configured environ ++ [EvWarn "NO AIM LOGGERS CREATED"])) ∧
  (∀ (ta : Train.args F) model dm ta' t0,
     no_logger environ (Train.aim ta) = true →
     Train.setup_model_and_datamodule ta = (Ok (model, dm, ta'), t0) →
     Train.main environ ta
     = (Raise (AssertionError logger_missing),
        t0 ++ s3_configured environ ++ [EvWarn "NO AIM LOGGERS CREATED"]) ∧
     classifiers t0 = [hparams model]) ∧
  (∀ a post pre, no_logger environ a = false →
     ∃ l, (Train.setup_aimlogger (F:=F) environ a post pre).1 = Ok (Some l) ∧
          match l with
          | TwoLoggers al el =>
              opt_truthy (repo a) = true ∧
              Train.env_truthy environ "AIM_REPO" = true ∧
              repo a = Some (al_repo al) ∧
              environ !! "AIM_REPO" = Some (al_repo el)
          | OneLogger l =>
              (opt_truthy (repo a) = true ∧
               Train.env_truthy environ "AIM_REPO" = false ∧
               repo a = Some (al_repo l)) ∨
              (opt_truthy (repo a) = false ∧
               Train.env_truthy environ "AIM_REPO" = true ∧
               environ !! "AIM_REPO" = Some (al_repo l))
          end).
Proof.
  intros Hs3. split; [|split; [|split]].
  - intros a post pre Hno. by apply setup_aimlogger_none.
  - intros ea Hno. unfold Evaluation.main.
    rewrite (setup_aimlogger_none environ _ _ _ Hs3 Hno). run_script.
    by rewrite ?app_nil_r.
  - intros ta model dm ta' t0 Hno Hsetup.
    destruct (setup_model_Ok_inv ta model dm ta' t0 Hsetup) as (name & n & w & ->).
    split.
    + unfold Train.main. rewrite Hsetup. run_script.
      cbn [Train.set_model_setup Train.aim].
      rewrite (setup_aimlogger_none environ _ _ _ Hs3 Hno). run_script.
      by rewrite ?app_nil_r.
    + unfold Train.setup_model_and_datamodule in Hsetup.
      apply bind_Ok_inv in Hsetup as (? & ? & ? & ->%emit_inv & Hsetup & ->).
      apply bind_Ok_inv in Hsetup as (w' & t1 & ? & Hw & Hsetup & ->).
      apply bind_Ok_inv in Hsetup as (kw & t2 & ? & Hkw & Hsetup & ->).
      apply bind_Ok_inv in Hsetup as (? & ? & ? & ->%emit_inv & Hsetup & ->).
      unfold mret, M_ret, ret in Hsetup. simplify_eq. cbn [hparams].
      assert (classifiers t1 = []) as Ht1.
      { destruct (bool_decide _) in Hw.
        - apply bind_Ok_inv in Hw as (? & ? & ? & ->%emit_inv & Hw & ->).
          by injection Hw as _ <-.
        - destruct (match Train.loss_weights ta with
                    | Some path => os_path_isfile path
                    | None => stdin_isfile
                    end) in Hw; [done|]. by injection Hw as _ <-. }
      assert (classifiers t2 = []) as Ht2.
      { destruct (String.eqb _ _) in Hkw.
        - apply bind_Ok_inv in Hkw as (? & ? & ? & [_ ->]%lift_Ok_inv & Hkw & ->).
          by injection Hkw as _ <-.
        - destruct (String.eqb _ _) in Hkw.
          + apply bind_Ok_inv in Hkw as (? & ? & ? & [_ ->]%lift_Ok_inv & Hkw & ->).
            by injection Hkw as _ <-.
          + by injection Hkw as _ <-. }
      unfold classifiers in *. rewrite !omap_app, Ht1, Ht2. done.
  - intros a post pre Hsome. by apply setup_aimlogger_some.
Qed.
End logger.

(** ** Loading a checkpoint *)

Section checkpoints.
Context {F : Type} `{FloatOps F} `{World F}.

(** Dropping from a dictionary the listed keys that are not expected. *)
Lemma prune_lookup (keys : list string) (hp : gmap string (pyval F)) (k : string) :
  foldl (λ hp key,
      if bool_decide (key ∈ Evaluation.expected_hparams) then hp
      else delete key hp) hp keys !! k
  = if bool_decide (k ∈ keys ∧ k ∉ Evaluation.expected_hparams) then None
    else hp !! k.
Proof.
  revert hp. induction keys as [|key keys IH]; intros hp.
  { cbn [foldl]. rewrite bool_decide_eq_false_2; [done|].
    intros [Hk _]. by apply elem_of_nil in Hk. }
  cbn [foldl]. rewrite IH.
  destruct (decide (k ∈ keys ∧ k ∉ Evaluation.expected_hparams)) as [Hin|Hout].
  - rewrite !bool_decide_eq_true_2; [done| |done].
    destruct Hin. split; [by right|done].
  - rewrite (bool_decide_eq_false_2 _ Hout).
    destruct (decide (key ∈ Evaluation.expected_hparams)) as [Hexp|Hexp].
    + rewrite (bool_decide_eq_true_2 _ Hexp).
      rewrite bool_decide_eq_false_2; [done|].
      intros [[->|Hk]%elem_of_cons Hne]; [done|]. apply Hout. by split.
    + rewrite (bool_decide_eq_false_2 _ Hexp).
      destruct (decide (k = key)) as [->|Hne].
      * rewrite lookup_delete_eq. rewrite bool_decide_eq_true_2; [done|].
        split; [by left|done].
      * rewrite lookup_delete_ne by done.
        rewrite bool_decide_eq_false_2; [done|].
        intros [[->|Hk]%elem_of_cons Hne']; [done|]. apply Hout. by split.
Qed.

Lemma prune_all_keys (hp : gmap string (pyval F)) (k : string) :
  foldl (λ hp key,
      if bool_decide (key ∈ Evaluation.expected_hparams) then hp
      else delete key hp) hp (map_to_list hp).*1 !! k
  = if bool_decide (k ∈ Evaluation.expected_hparams) then hp !! k else None.
Proof.
  rewrite prune_lookup.
  destruct (decide (k ∈ Evaluation.expected_hparams)) as [Hexp|Hexp].
  - rewrite (bool_decide_eq_true_2 _ Hexp).
    rewrite bool_decide_eq_false_2; [done|]. by intros [_ ?].
  - rewrite (bool_decide_eq_false_2 _ Hexp).
    destruct (hp !! k) as [v|] eqn:Hk.
    + rewrite bool_decide_eq_true_2; [done|]. split; [|done].
      apply list_elem_of_fmap. exists (k, v). split; [done|].
      by apply elem_of_map_to_list.
    + by destruct (bool_decide _).
Qed.

(** Lines 120-125 on a checkpoint saved under the old names. *)
Lemma legacy_renamed (hp : gmap string (pyval F)) (m w : pyval F) :
  hp !! "model_name" = None → hp !! "model" = Some m → hp !! "weights" = Some w →
  ∃ hp', Evaluation.legacy_hyper_parameters hp = (Ok hp', []) ∧
    ∀ k, hp' !! k =
      if bool_decide (k ∈ Evaluation.expected_hparams) then
        if String.eqb k "model_name" then Some m
        else if String.eqb k "model_weights" then Some w
        else hp !! k
      else None.
Proof.
  intros Hname Hmodel Hweights. unfold Evaluation.legacy_hyper_parameters, dict_pop.
  rewrite Hname, Hmodel. run_script.
  rewrite lookup_insert_ne, lookup_delete_ne, Hweights by done. run_script.
  eexists. split; [reflexivity|]. intros k. rewrite prune_all_keys.
  destruct (bool_decide (k ∈ Evaluation.expected_hparams)) eqn:Hexp; [|done].
  destruct (String.eqb_spec k "model_weights") as [->|Hw].
  { by rewrite lookup_insert_eq. }
  rewrite lookup_insert_ne by done.
  destruct (String.eqb_spec k "model_name") as [->|Hn].
  { by rewrite lookup_delete_ne, lookup_insert_eq by done. }
  assert (k ≠ "weights" ∧ k ≠ "model") as [Hk1 Hk2].
  { split; intros ->; vm_compute in Hexp; discriminate. }
  by rewrite lookup_delete_ne, lookup_insert_ne, lookup_delete_ne by done.
Qed.

(** A checkpoint with neither 'model_name' nor 'model' stops the fallback. *)
Lemma legacy_missing_model (hp : gmap string (pyval F)) :
  hp !! "model_name" = None → hp !! "model" = None →
  Evaluation.legacy_hyper_parameters hp = (Raise (KeyError "model"), []).
Proof.
  intros Hname Hmodel. unfold Evaluation.legacy_hyper_parameters, dict_pop.
  by rewrite Hname, Hmodel.
Qed.

(** C7, as the code has it. When the framework's [load_from_checkpoint]
    raises for a checkpoint file, [load_model] turns to [torch.load]. If
    that raises too, [load_model] raises its exception. If it returns the
    raw checkpoint, the classifier's constructor is called with the
    checkpoint's hyper_parameters: renamed and pruned only when
    'model_name' is absent (then 'model' becomes 'model_name', 'weights'
    becomes 'model_weights' and every key outside the expected set is
    dropped; both old keys have to be there), and as they are, unexpected
    keys included, when 'model_name' is present. What the constructor or
    [load_state_dict] raises, [load_model] raises; when both accept, the
    module is in evaluation mode, has the state dict of the checkpoint,
    and comes back with the transforms resize (to the size of its model
    name), to-image and to-dtype. *)
Theorem load_model_fallback (d : string) (e : exn) :
  os_path_isfile d && Evaluation.endswith d ".ckpt" = true →
  load_from_checkpoint d = Raise e →
  (∀ e', torch_load d = Raise e' → Evaluation.load_model d = (Raise e', [])) ∧
  (∀ ckpt, torch_load d = Ok ckpt →
     (hyper_parameters ckpt !! "model_name" = None →
      is_Some (hyper_parameters ckpt !! "model") ∧
      is_Some (hyper_parameters ckpt !! "weights")) →
     ∃ hp name,
       hp !! "model_name" = Some name ∧
       match hyper_parameters ckpt !! "model_name" with
       | Some _ => hp = hyper_parameters ckpt
       | None =>
           Some name = hyper_parameters ckpt !! "model" ∧
           hp !! "model_weights" = hyper_parameters ckpt !! "weights" ∧
           ∀ k, hp !! k =
             if bool_decide (k ∈ Evaluation.expected_hparams) then
               if String.eqb k "model_name" then hyper_parameters ckpt !! "model"
               else if String.eqb k "model_weights"
                    then hyper_parameters ckpt !! "weights"
               else hyper_parameters ckpt !! k
             else None
       end ∧
       Evaluation.load_model d
       = match classifier_init hp with
         | Raise e' => (Raise e', [EvClassifier hp])
         | Ok _ =>
             match load_state_dict (Classifier hp true None) (state_dict ckpt) with
             | Raise e' => (Raise e', [EvClassifier hp; EvLoadStateDict])
             | Ok _ =>
                 (Ok (Classifier hp true (Some (state_dict ckpt)),
                      [Resize (get_model_resize name) (get_model_resize name);
                       ToImage; ToDtype "torch.float32" true]),
                  [EvClassifier hp; EvLoadStateDict])
             end
         end).
Proof.
  intros Hfile Hraise. split.
  { intros e' Hload. unfold Evaluation.load_model.
    rewrite Hfile. cbn [from_option]. rewrite Hraise, Hload. by run_script. }
  intros ckpt Hload Hlegacy.
  assert (∀ (hp : gmap string (pyval F)) name,
            Evaluation.legacy_hyper_parameters (hyper_parameters ckpt) = (Ok hp, []) →
            hp !! "model_name" = Some name →
            Evaluation.load_model d
            = match classifier_init hp with
              | Raise e' => (Raise e', [EvClassifier hp])
              | Ok _ =>
                  match load_state_dict (Classifier hp true None) (state_dict ckpt) with
                  | Raise e' => (Raise e', [EvClassifier hp; EvLoadStateDict])
                  | Ok _ =>
                      (Ok (Classifier hp true (Some (state_dict ckpt)),
                           [Resize (get_model_resize name) (get_model_resize name);
                            ToImage; ToDtype "torch.float32" true]),
                       [EvClassifier hp; EvLoadStateDict])
                  end
              end) as Hrest.
  { intros hp name Hhp Hname. unfold Evaluation.load_model.
    rewrite Hfile. cbn [from_option]. rewrite Hraise, Hload. run_script.
    rewrite Hhp. run_script. unfold lift.
    destruct (classifier_init hp) as [[]|e1]; run_script; [|reflexivity].
    cbn [hparams in_eval loaded_state].
    destruct (load_state_dict _ _) as [[]|e2]; run_script; [|reflexivity].
    cbn [hparams in_eval loaded_state]. unfold getitem. rewrite Hname.
    run_script. reflexivity. }
  destruct (hyper_parameters ckpt !! "model_name") as [name|] eqn:Hname.
  - exists (hyper_parameters ckpt), name.
    split; [exact Hname|]. split; [reflexivity|]. apply Hrest; [|exact Hname].
    unfold Evaluation.legacy_hyper_parameters. by rewrite Hname.
  - destruct (Hlegacy eq_refl) as [[m Hm] [w Hw]].
    destruct (legacy_renamed _ m w Hname Hm Hw) as (hp & Hrun & Hhp).
    exists hp, m.
    assert (hp !! "model_name" = Some m) as Hn by (rewrite Hhp; done).
    assert (hp !! "model_weights" = Some w) as Hmw by (rewrite Hhp; done).
    split; [exact Hn|]. rewrite Hm, Hw.
    split; [|by apply Hrest]. split; [done|]. split; [done|]. exact Hhp.
Qed.
End checkpoints.

(** * The theorems at work on the concrete instance *)

(** Soft voting on the concrete scores. *)
Lemma softvoting_argmax_of_mean_witness :
  shape Demo.demo_scores = [3; 2; 3] ∧ well_formed Demo.demo_scores ∧ 0 < 3 ∧
  ∃ averaged soft,
    Evaluation.softvoting Demo.demo_scores = Ok (averaged, soft) ∧
    shape soft = filter (λ d, d ≠ 1) [2] ∧
    length (data soft) = 2 ∧
    ∀ m, m < 2 →
      data soft !! m = Some (Z.of_nat (argmax (mean_probs Demo.demo_scores m))).
Proof.
  split; [reflexivity|]. split; [reflexivity|]. split; [lia|].
  apply (softvoting_argmax_of_mean 3 2 3 Demo.demo_scores); [reflexivity..|lia].
Defined.

(** Hard voting on the concrete scores. *)
Lemma hardvoting_mode_of_argmax_witness :
  shape Demo.demo_scores = [3; 2; 3] ∧ 0 < 3 ∧
  ∃ hard,
    Evaluation.hardvoting Demo.demo_scores = Ok hard ∧
    shape hard = filter (λ d, d ≠ 1) [2] ∧
    length (data hard) = 2 ∧
    ∀ m, m < 2 →
      length (votes Demo.demo_scores m) = 3 ∧
      data hard !! m = Some (mode_of (votes Demo.demo_scores m)) ∧
      mode_of (votes Demo.demo_scores m) ∈ votes Demo.demo_scores m ∧
      ∀ z, occurrences z (votes Demo.demo_scores m)
           ≤ occurrences (mode_of (votes Demo.demo_scores m))
               (votes Demo.demo_scores m).
Proof.
  split; [reflexivity|]. split; [lia|].
  apply (hardvoting_mode_of_argmax 3 2 3 Demo.demo_scores); [reflexivity|lia|lia].
Defined.

(** The two votes on the concrete scores: the models disagree on the first
    sample, where the mean favours class 2 and the mode falls on class 0. *)
Example demo_votes :
  Evaluation.softvoting Demo.demo_scores
    = Ok (Tensor [1; 2; 3] [113 # 462; 103 # 308; 389 # 924;
                            899 # 1890; 94 # 945; 803 # 1890]%Q,
          Tensor [2] [2; 0]%Z) ∧
  Evaluation.hardvoting Demo.demo_scores = Ok (Tensor [2] [0; 0]%Z).
Proof. split; vm_compute; reflexivity. Qed.

(** The concrete evaluation run returns. *)
Lemma demo_evaluation_returns :
  is_ok (Evaluation.main ∅ Demo.eval_args).1 = true.
Proof. vm_compute. reflexivity. Qed.

(** Its stacked scores: three models, two samples, three classes. *)
Lemma demo_evaluation_scores :
  match (Evaluation.main ∅ Demo.eval_args).1 with
  | Ok o => shape (Evaluation.scores_per_model o) = [3; 2; 3]
  | Raise _ => False
  end.
Proof. vm_compute. reflexivity. Qed.

(** What the concrete evaluation run tracks and logs. *)
Lemma soft_vote_logged_witness :
  ∃ o tr,
    Evaluation.main ∅ Demo.eval_args = (Ok o, tr) ∧
    tracked tr
    = (mode ← ["weighted"; "micro"; "macro"];
       stat ← ["f1"; "recall"; "accuracy"; "precision"];
       [(stat, Some mode, Some "soft")]) ∧
    figures tr
    = [("f1_perclass", Some "soft"); ("confusion_matrix", Some "soft")] ∧
    Forall (λ e, voting_of e = None ∨ voting_of e = Some "soft") tr ∧
    Evaluation.softvoting (Evaluation.scores_per_model o)
      = Ok (Evaluation.averaged_scores o, Evaluation.softvoting_classes o) ∧
    let classes := classes_of (Evaluation.classlist Demo.eval_args) in
    let counts :=
      count_perclass (Evaluation.vallist Demo.eval_args)
        (Evaluation.classlist Demo.eval_args) in
    let of_soft_scores cls mode :=
      Metric cls "multiclass" (length classes) mode
        [(Scores (torch_squeeze (Evaluation.averaged_scores o)),
          Evaluation.true_labels o)] in
    let of_soft_classes :=
      Metric "ConfusionMatrix" "multiclass" (length classes) None
        [(Classes (Evaluation.softvoting_classes o), Evaluation.true_labels o)] in
    tracked_values tr
    = (mode ← ["weighted"; "micro"; "macro"];
       '(stat, cls) ← Evaluation.stat_classes;
       [(stat, Some mode, metric_compute (of_soft_scores cls (Some mode)))]) ∧
    plotted tr
    = [("f1_perclass",
        BarPlot (metric_compute (of_soft_scores "F1Score" None)) classes counts
          "F1 Perclass (SOFT)" "f1");
       ("confusion_matrix",
        ConfusionPlot (confusion_compute of_soft_classes) classes counts true
          "Normalized Ensemble Confusion Matrix (HARD)" (Evaluation.metrics o))].
Proof.
  pose proof demo_evaluation_returns as Hok.
  destruct (Evaluation.main ∅ Demo.eval_args) as [[o|e] tr] eqn:Hrun;
    [|discriminate Hok].
  exists o, tr. split; [reflexivity|].
  exact (soft_vote_logged ∅ Demo.eval_args o tr Hrun).
Defined.

(** The metrics of the concrete evaluation run. *)
Lemma metrics_computed_witness :
  ∃ o tr,
    Evaluation.main ∅ Demo.eval_args = (Ok o, tr) ∧
    map (λ km, (mt_class km.2, mt_average km.2)) (computed tr)
    = (mode ← [Some "weighted"; Some "micro"; Some "macro"; None];
       cls ← ["F1Score"; "Recall"; "Accuracy"; "Precision"];
       [(cls, mode)]) ++ [("ConfusionMatrix", None)] ∧
    Forall (λ km,
      mt_task km.2 = "multiclass" ∧
      (mt_updates km.2 = [(Scores (torch_squeeze (Evaluation.averaged_scores o)),
                           Evaluation.true_labels o)] ∨
       mt_updates km.2 = [(Classes (Evaluation.softvoting_classes o),
                           Evaluation.true_labels o)])) (computed tr).
Proof.
  pose proof demo_evaluation_returns as Hok.
  destruct (Evaluation.main ∅ Demo.eval_args) as [[o|e] tr] eqn:Hrun;
    [|discriminate Hok].
  exists o, tr. split; [reflexivity|].
  exact (metrics_computed ∅ Demo.eval_args o tr Hrun).
Defined.

(** The two families of soft metrics in the concrete evaluation run. *)
Lemma soft_metrics_same_decision_witness :
  ∃ o tr,
    Evaluation.main ∅ Demo.eval_args = (Ok o, tr) ∧
    shape (Evaluation.scores_per_model o) = [3; 2; 3] ∧
    (∀ m, m < 2 →
       data (Evaluation.softvoting_classes o) !! m
       = Some (Z.of_nat (argmax
           (sample_row (torch_squeeze (Evaluation.averaged_scores o)) 3 m)))) ∧
    torch_argmax 1 false (torch_squeeze (Evaluation.averaged_scores o))
    = Ok (Evaluation.softvoting_classes o).
Proof.
  pose proof demo_evaluation_returns as Hok.
  pose proof demo_evaluation_scores as Hsh.
  destruct (Evaluation.main ∅ Demo.eval_args) as [[o|e] tr] eqn:Hrun;
    [|discriminate Hok].
  cbn [fst] in Hsh. exists o, tr. split; [reflexivity|]. split; [exact Hsh|].
  destruct (soft_metrics_same_decision ∅ Demo.eval_args o tr 3 2 3 Hrun Hsh)
    as (_ & Hrows & Hsame).
  split; [exact Hrows|]. apply Hsame; lia.
Defined.

(** C3 fails as stated: the run below returns, hard voting has produced its
    predictions, which are not those of soft voting, and no value tracked
    and no figure logged names them. *)
Lemma hard_vote_not_logged :
  (∃ o, (Evaluation.main ∅ Demo.eval_args).1 = Ok o ∧
        Evaluation.hardvoting_classes o = Tensor [2] [0; 0]%Z ∧
        Evaluation.softvoting_classes o = Tensor [2] [2; 0]%Z) ∧
  filter (λ e, voting_of e = Some "hard") (Evaluation.main ∅ Demo.eval_args).2 = [] ∧
  filter (λ v, v.2 = Some "hard") (tracked (Evaluation.main ∅ Demo.eval_args).2) = [] ∧
  filter (λ v, v.2 = Some "hard") (figures (Evaluation.main ∅ Demo.eval_args).2) = [].
Proof.
  split; [|split; [|split]].
  - eexists. split; [|split]; vm_compute; reflexivity.
  - vm_compute. reflexivity.
  - vm_compute. reflexivity.
  - vm_compute. reflexivity.
Qed.

(** The concrete training run returns. *)
Lemma demo_training_returns :
  (Train.main ∅ Demo.train_args).1 = Ok tt.
Proof. vm_compute. reflexivity. Qed.

(** With [--testlist test.txt] the concrete training run fits once and
    tests once. *)
Lemma fit_once_test_if_testlist_witness :
  ∃ tr model dm,
    Train.main ∅ Demo.train_args = (Ok tt, tr) ∧
    fits tr = [(model, dm)] ∧ tests tr = [(model, dm)].
Proof.
  pose proof demo_training_returns as Hok.
  destruct (Train.main ∅ Demo.train_args) as [r tr] eqn:Hrun.
  cbn [fst] in Hok. subst r.
  destruct (fit_once_test_if_testlist ∅ Demo.train_args tt tr Hrun)
    as (model0 & dm & a' & t0 & model & _ & _ & Hfits & Htests).
  exists tr, model, dm. split; [reflexivity|]. split; [exact Hfits|exact Htests].
Defined.

(** C5 fails as stated: [--testlist ''] provides the argument, the run
    returns, [trainer.fit] is called once and [trainer.test] is not. *)
Lemma test_skipped_for_blank_testlist :
  Train.testlist Demo.train_args_blank_testlist = Some "" ∧
  (Train.main ∅ Demo.train_args_blank_testlist).1 = Ok tt ∧
  length (fits (Train.main ∅ Demo.train_args_blank_testlist).2) = 1 ∧
  tests (Train.main ∅ Demo.train_args_blank_testlist).2 = [].
Proof. repeat split; vm_compute; reflexivity. Qed.

(** The failure on concrete arguments. *)
Lemma focal_loss_without_weights_raises_witness :
  Train.loss_function Demo.train_args_focal = "FocalLoss" ∧
  Train.loss_weights Demo.train_args_focal = None ∧
  Train.loss_weights_tensor Demo.train_args_focal = PyNone ∧
  (Train.setup_model_and_datamodule Demo.train_args_focal).1
    = Raise (TypeError "'NoneType' object is not iterable") ∧
  classifiers (Train.setup_model_and_datamodule Demo.train_args_focal).2 = [].
Proof.
  split; [reflexivity|]. split; [reflexivity|]. split; [reflexivity|].
  apply (focal_loss_without_weights_raises Demo.train_args_focal); reflexivity.
Defined.

(** The fallback on a checkpoint saved under the old names: renamed, its
    batch size dropped, and the classifier built. *)
Lemma load_model_fallback_witness :
  ∃ hp name,
    Evaluation.load_model "old.ckpt"
    = (Ok (Classifier hp true (Some []),
           [Resize (get_model_resize name) (get_model_resize name); ToImage;
            ToDtype "torch.float32" true]),
       [EvClassifier hp; EvLoadStateDict]) ∧
    hp !! "model_name" = Some name ∧
    name = PyStr "old.ckpt" ∧
    hp !! "batch_size" = None.
Proof.
  destruct (load_model_fallback "old.ckpt"
              (TypeError "unexpected keyword argument")) as [_ Hok];
    [reflexivity|reflexivity|].
  destruct (Hok (Checkpoint (list_to_map [("model", PyStr "old.ckpt");
                                          ("weights", PyNone);
                                          ("num_classes", PyInt 3);
                                          ("batch_size", PyInt 256)]) []))
    as (hp & name & Hname & Hrest & Hrun).
  - reflexivity.
  - intros _. split; eexists; vm_compute; reflexivity.
  - exists hp, name.
    assert ((list_to_map [("model", PyStr "old.ckpt"); ("weights", PyNone);
                          ("num_classes", PyInt 3); ("batch_size", PyInt 256)]
             : gmap string (pyval Q)) !! "model_name" = None) as Hnone
      by (vm_compute; reflexivity).
    assert ((list_to_map [("model", PyStr "old.ckpt"); ("weights", PyNone);
                          ("num_classes", PyInt 3); ("batch_size", PyInt 256)]
             : gmap string (pyval Q)) !! "model" = Some (PyStr "old.ckpt")) as Hmodel
      by (vm_compute; reflexivity).
    cbn [hyper_parameters state_dict] in Hrest, Hrun. rewrite Hnone in Hrest.
    destruct Hrest as (Hm & _ & Hall). rewrite Hmodel in Hm. injection Hm as ->.
    assert (hp !! "batch_size" = None) as Hbatch by (rewrite Hall; reflexivity).
    assert (classifier_init hp = Ok tt) as Hinit.
    { cbn [classifier_init Demo.demo_world].
      assert (forallb (λ k, bool_decide (k ∈ Evaluation.expected_hparams))
                (map_to_list hp).*1 = true) as ->; [|reflexivity].
      apply forallb_forall. intros k Hk. apply bool_decide_eq_true.
      apply list_elem_of_In, list_elem_of_fmap in Hk as ([k' v] & -> & Hkv).
      apply elem_of_map_to_list in Hkv. cbn [fst]. rewrite Hall in Hkv.
      destruct (decide (k' ∈ Evaluation.expected_hparams)) as [Hin|Hout];
        [exact Hin|].
      rewrite (bool_decide_eq_false_2 _ Hout) in Hkv. discriminate Hkv. }
    rewrite Hinit in Hrun. cbn [load_state_dict Demo.demo_world] in Hrun.
    split; [exact Hrun|]. split; [exact Hname|]. split; [reflexivity|exact Hbatch].
Defined.

(** C7 fails as stated: this checkpoint has 'model_name' and a key outside
    the expected set; the fallback calls the classifier's constructor with
    both, whatever the constructor then makes of them. *)
Lemma fallback_keeps_unexpected_key :
  is_ok (load_from_checkpoint (F:=Q) "odd.ckpt") = false ∧
  (∃ hp, classifiers (Evaluation.load_model "odd.ckpt").2 = [hp] ∧
         hp !! "model_name" = Some (PyStr "odd.ckpt") ∧
         hp !! "batch_size" = Some (PyInt 256)) ∧
  bool_decide ("batch_size" ∈ Evaluation.expected_hparams) = false.
Proof.
  split; [reflexivity|]. split; [|reflexivity].
  eexists. split; [|split]; vm_compute; reflexivity.
Qed.

(** Both scripts without any repo, and the logger of [--repo /aim]. *)
Lemma aimlogger_required_witness :
  s3_config_ok ∅ = true ∧
  Evaluation.main ∅ Demo.eval_args_no_repo
  = (Raise (AssertionError logger_missing), [EvWarn "NO AIM LOGGERS CREATED"]) ∧
  (∃ t0, Train.main ∅ Demo.train_args_no_repo
         = (Raise (AssertionError logger_missing),
            t0 ++ [EvWarn "NO AIM LOGGERS CREATED"]) ∧
         length (classifiers t0) = 1) ∧
  (∃ l, (Train.setup_aimlogger (F:=Q) ∅ Demo.demo_aim None None).1
        = Ok (Some (OneLogger l)) ∧ al_repo l = "/aim").
Proof.
  assert (s3_config_ok ∅ = true) as Hs3 by (vm_compute; reflexivity).
  assert (no_logger ∅ Demo.demo_aim_no_repo = true) as Hno
    by (vm_compute; reflexivity).
  assert (no_logger ∅ Demo.demo_aim = false) as Hrepo
    by (vm_compute; reflexivity).
  destruct (aimlogger_required (F:=Q) ∅ Hs3) as (_ & Heval & Htrain & Hsome).
  split; [exact Hs3|]. split; [|split].
  - apply (Heval Demo.eval_args_no_repo). exact Hno.
  - destruct (Train.setup_model_and_datamodule Demo.train_args_no_repo)
      as [[[[model dm] ta']|e] t0] eqn:Hsetup; [|vm_compute in Hsetup; discriminate Hsetup].
    destruct (Htrain Demo.train_args_no_repo model dm ta' t0 Hno Hsetup)
      as [Hrun Hcls].
    exists t0. split; [exact Hrun|]. by rewrite Hcls.
  - destruct (Hsome Demo.demo_aim None None Hrepo) as ([l|al el] & Hl & Hcase).
    + exists l. split; [exact Hl|].
      destruct Hcase as [(_ & _ & Hr)|(Hr & _)]; [|discriminate Hr].
      cbn in Hr. by injection Hr.
    + destruct Hcase as (_ & Henv & _). discriminate Henv.
Defined.

(** C9 fails as stated for the training script: without any repo its [main]
    stops at the assertion, but by then the classifier has been
    constructed. *)
Lemma classifier_built_before_logger_check :
  no_logger ∅ (Train.aim Demo.train_args_no_repo) = true ∧
  (Train.main ∅ Demo.train_args_no_repo).1
    = Raise (AssertionError logger_missing) ∧
  length (classifiers (Train.main ∅ Demo.train_args_no_repo).2) = 1.
Proof. repeat split; vm_compute; reflexivity. Qed.

(** * Further properties *)

(** ** The two votes *)

Section argmax_facts.
Context {F : Type} `{FloatOps F}.

Lemma argmax_from_bound (best_i : nat) (best : F) (i : nat) (l : list F) :
  best_i < i → argmax_from best_i best i l < i + length l.
Proof.
  revert best_i best i. induction l as [|x l IH]; intros best_i best i Hlt.
  - cbn. lia.
  - cbn [argmax_from length]. destruct (flt best x).
    + specialize (IH i x (S i)). lia.
    + specialize (IH best_i best (S i)). lia.
Qed.

(** The arg-max of a list of at most [C] entries is a class below [C]. *)
Lemma argmax_below (C : nat) (l : list F) :
  0 < C → length l ≤ C → argmax l < C.
Proof.
  intros HC Hlen. destruct l as [|x l]; [done|].
  cbn [argmax]. pose proof (argmax_from_bound 0 x 1 l). cbn in Hlen. lia.
Qed.

Lemma length_omap_seq {A} (f : nat → option A) (s n : nat) :
  length (omap f (seq s n)) ≤ n.
Proof.
  revert s. induction n as [|n IH]; intros s; [done|].
  cbn [seq omap list_omap]. destruct (f s); cbn; specialize (IH (S s));
    fold (omap f (seq (S s) n)) in *; lia.
Qed.

(** What the soft vote holds for every sample, read off the data. *)
Lemma softvoting_data (N M C : nat) (scores : tensor F) :
  shape scores = [N; M; C] → 0 < C →
  ∃ averaged soft,
    Evaluation.softvoting scores = Ok (averaged, soft) ∧
    ∀ m, m < M →
      data soft !! m
      = Some (Z.of_nat (argmax
          (omap (λ c, data averaged !! (m * C + c)) (seq 0 C)))).
Proof.
  intros Hsh HC.
  destruct (averaged_scores_spec N M C scores Hsh) as (Hmean & Hash & _ & _).
  destruct (argmax_classes_spec 1 M C _ Hash HC) as (Harg & _ & _ & Hsdata).
  eexists _, _. split.
  - unfold Evaluation.softvoting. rewrite Hmean. cbn [mbind result_bind].
    rewrite Harg. reflexivity.
  - intros m Hm. cbn [torch_squeeze data]. apply Hsdata. lia.
Qed.

(** What the hard vote holds for every sample. *)
Lemma hardvoting_data (N M C : nat) (scores : tensor F) :
  shape scores = [N; M; C] → 0 < N → 0 < C →
  ∃ hard,
    Evaluation.hardvoting scores = Ok hard ∧
    ∀ m, m < M → data hard !! m = Some (mode_of (votes scores m)).
Proof.
  intros Hsh HN HC.
  destruct (argmax_classes_spec N M C scores Hsh HC) as (Harg & Hash & _ & Hadata).
  destruct (mode_classes_spec N M _ Hash HN) as (Hmode & _ & _ & Hmdata).
  eexists. split.
  - unfold Evaluation.hardvoting. rewrite Harg. cbn [mbind result_bind].
    rewrite Hmode. reflexivity.
  - intros m Hm. cbn [torch_squeeze data]. rewrite Hmdata by done.
    do 2 f_equal. unfold votes. rewrite Hsh.
    cbn [lookup list_lookup default from_option id].
    rewrite <- omap_Some_map. apply omap_seq_ext. intros n Hn.
    rewrite Hadata by (apply (cell_in_range N M n m); lia).
    do 3 f_equal. symmetry.
    apply (class_probs_lane scores N M C); [done|lia|done].
Qed.

Lemma votes_below (N M C : nat) (scores : tensor F) (m : nat) (z : Z) :
  shape scores = [N; M; C] → 0 < C → z ∈ votes scores m →
  (0 ≤ z < Z.of_nat C)%Z.
Proof.
  intros Hsh HC. unfold votes. rewrite Hsh.
  cbn [lookup list_lookup default from_option id].
  intros (n & -> & _)%list_elem_of_fmap.
  assert (argmax (class_probs scores n m) < C); [|lia].
  apply argmax_below; [done|]. unfold class_probs. rewrite Hsh.
  cbn [lookup list_lookup default from_option id]. apply length_omap_seq.
Qed.

Lemma votes_length (N M C : nat) (scores : tensor F) (m : nat) :
  shape scores = [N; M; C] → length (votes scores m) = N.
Proof.
  intros Hsh. unfold votes. rewrite Hsh.
  cbn [lookup list_lookup default from_option id].
  by rewrite length_map, length_seq.
Qed.

(** X1. Both votes predict classes: on a stacked score tensor of shape
    (N, M, C), every entry of the soft-voting and of the hard-voting
    result is an index from 0 to C - 1. *)
Theorem predictions_are_classes (N M C : nat) (scores : tensor F) :
  shape scores = [N; M; C] → 0 < N → 0 < C →
  ∃ averaged soft hard,
    Evaluation.softvoting scores = Ok (averaged, soft) ∧
    Evaluation.hardvoting scores = Ok hard ∧
    ∀ m, m < M →
      ∃ s h, data soft !! m = Some s ∧ data hard !! m = Some h ∧
             (0 ≤ s < Z.of_nat C)%Z ∧ (0 ≤ h < Z.of_nat C)%Z.
Proof.
  intros Hsh HN HC.
  destruct (softvoting_data N M C scores Hsh HC) as (averaged & soft & Hsoft & Hs).
  destruct (hardvoting_data N M C scores Hsh HN HC) as (hard & Hhard & Hh).
  exists averaged, soft, hard. split; [exact Hsoft|]. split; [exact Hhard|].
  intros m Hm. eexists _, _. split; [by apply Hs|]. split; [by apply Hh|].
  split.
  - assert (argmax (omap (λ c, data averaged !! (m * C + c)) (seq 0 C)) < C); [|lia].
    apply argmax_below; [done|apply length_omap_seq].
  - apply (votes_below N M C scores m); [done..|].
    apply mode_of_spec. intros Hnil.
    pose proof (votes_length N M C scores m Hsh) as Hlen.
    rewrite Hnil in Hlen. cbn in Hlen. lia.
Qed.
End argmax_facts.

(** Two different values cannot both fill more than half of a list. *)
Lemma occurrences_two (c d : Z) (l : list Z) :
  c ≠ d → occurrences c l + occurrences d l ≤ length l.
Proof.
  intros Hne. unfold occurrences. induction l as [|y l IH]; [done|].
  destruct (decide (y = c)) as [->|Hc].
  - rewrite filter_cons_True by done. rewrite (filter_cons_False _ c) by done.
    cbn. lia.
  - rewrite filter_cons_False by done. destruct (decide (y = d)) as [->|Hd].
    + rewrite filter_cons_True by done. cbn. lia.
    + rewrite filter_cons_False by done. cbn. lia.
Qed.

Lemma mode_of_majority (c : Z) (l : list Z) :
  length l < 2 * occurrences c l → mode_of l = c.
Proof.
  intros Hmaj. assert (l ≠ []) as Hne.
  { intros ->. change (occurrences c []) with 0 in Hmaj. cbn in Hmaj. lia. }
  destruct (mode_of_spec l Hne) as [_ Hmax].
  destruct (decide (mode_of l = c)) as [|Hne']; [done|].
  destruct (Hmax c) as [Hle _].
  pose proof (occurrences_two c (mode_of l) l ltac:(congruence)). lia.
Qed.

Lemma occurrences_all (c : Z) (l : list Z) :
  Forall (λ z, z = c) l → occurrences c l = length l.
Proof.
  unfold occurrences. induction 1 as [|z l -> _ IH]; [done|].
  rewrite filter_cons_True by done. cbn. by rewrite IH.
Qed.

Section hard_vote_facts.
Context {F : Type} `{FloatOps F}.

(** X2. Hard voting follows a strict majority: when more than half of
    the N models predict class [c] for a sample, [c] is the hard-voting
    class of that sample. *)
Theorem hardvoting_majority (N M C : nat) (scores : tensor F) (m : nat) (c : Z) :
  shape scores = [N; M; C] → 0 < C → m < M →
  N < 2 * occurrences c (votes scores m) →
  ∃ hard, Evaluation.hardvoting scores = Ok hard ∧ data hard !! m = Some c.
Proof.
  intros Hsh HC Hm Hmaj.
  assert (0 < N) as HN.
  { pose proof (length_filter (λ y, y = c) (votes scores m)) as Hle.
    rewrite (votes_length N M C) in Hle by done.
    unfold occurrences in Hmaj. lia. }
  destruct (hardvoting_data N M C scores Hsh HN HC) as (hard & Hhard & Hh).
  exists hard. split; [exact Hhard|]. rewrite Hh by done. f_equal.
  apply mode_of_majority. by rewrite (votes_length N M C).
Qed.

(** X3. Hard voting keeps a unanimous prediction: when all the models
    (one model included) predict the same class for a sample, that class
    is the hard-voting class. *)
Theorem hardvoting_unanimous (N M C : nat) (scores : tensor F) (m : nat) (c : Z) :
  shape scores = [N; M; C] → 0 < N → 0 < C → m < M →
  (∀ n, n < N → Z.of_nat (argmax (class_probs scores n m)) = c) →
  ∃ hard, Evaluation.hardvoting scores = Ok hard ∧ data hard !! m = Some c.
Proof.
  intros Hsh HN HC Hm Hall.
  destruct (hardvoting_data N M C scores Hsh HN HC) as (hard & Hhard & Hh).
  exists hard. split; [exact Hhard|]. rewrite Hh by done. f_equal.
  apply mode_of_majority. rewrite occurrences_all.
  - rewrite (votes_length N M C) by done. lia.
  - unfold votes. rewrite Hsh. cbn [lookup list_lookup default from_option id].
    apply Forall_forall. intros z (n & -> & Hn%elem_of_seq)%list_elem_of_fmap.
    apply Hall. lia.
Qed.
End hard_vote_facts.

Section soft_vote_maximal.
Context {F : Type} `{FloatOps F}.

(** The comparison of floats without NaN is a strict weak order. *)
Hypothesis flt_asym : ∀ x y : F, flt x y = true → flt y x = false.
Hypothesis flt_negtrans :
  ∀ x y z : F, flt x y = false → flt y z = false → flt x z = false.

Lemma argmax_from_spec (pre : list F) (best_i : nat) (best : F) (l : list F) :
  pre !! best_i = Some best →
  (∀ j y, pre !! j = Some y →
     flt best y = false ∧ (j < best_i → flt y best = true)) →
  ∃ x, (pre ++ l) !! argmax_from best_i best (length pre) l = Some x ∧
       ∀ j y, (pre ++ l) !! j = Some y →
         flt x y = false ∧
         (j < argmax_from best_i best (length pre) l → flt y x = true).
Proof.
  revert pre best_i best. induction l as [|x l IH]; intros pre best_i best Hbest Hinv.
  { cbn [argmax_from]. rewrite app_nil_r. by exists best. }
  cbn [argmax_from].
  assert (best_i < length pre) as Hlt by (by apply lookup_lt_Some in Hbest).
  replace (pre ++ x :: l) with ((pre ++ [x]) ++ l) by (by rewrite <- app_assoc).
  replace (S (length pre)) with (length (pre ++ [x]))
    by (rewrite length_app; cbn; lia).
  destruct (flt best x) eqn:Hcmp.
  - apply IH.
    + rewrite lookup_app_r by lia. by rewrite Nat.sub_diag.
    + intros j y Hy. destruct (decide (j < length pre)) as [Hj|Hj].
      * rewrite lookup_app_l in Hy by done.
        destruct (Hinv j y Hy) as [Hge _]. split.
        -- apply (flt_negtrans x best y); [by apply flt_asym|done].
        -- intros _. destruct (flt y x) eqn:Hyx; [done|].
           by rewrite (flt_negtrans best y x Hge Hyx) in Hcmp.
      * rewrite lookup_app_r in Hy by lia.
        destruct (j - length pre) as [|k] eqn:Hk; [|by destruct k].
        injection Hy as <-. split; [|lia].
        destruct (flt x x) eqn:Hxx; [|done]. by rewrite (flt_asym x x Hxx) in Hxx.
  - apply IH.
    + by rewrite lookup_app_l.
    + intros j y Hy. destruct (decide (j < length pre)) as [Hj|Hj].
      * rewrite lookup_app_l in Hy by done. by apply Hinv.
      * rewrite lookup_app_r in Hy by lia.
        destruct (j - length pre) as [|k] eqn:Hk; [|by destruct k].
        injection Hy as <-. split; [done|lia].
Qed.

(** The arg-max of a list is the first of its greatest elements. *)
Lemma argmax_spec (l : list F) :
  l ≠ [] →
  ∃ x, l !! argmax l = Some x ∧
       ∀ j y, l !! j = Some y →
         flt x y = false ∧ (j < argmax l → flt y x = true).
Proof.
  destruct l as [|x l]; [done|]. intros _. cbn [argmax].
  apply (argmax_from_spec [x] 0 x l); [done|].
  intros [|j] y Hy; [|done]. injection Hy as <-. split; [|lia].
  destruct (flt x x) eqn:Hxx; [|done]. by rewrite (flt_asym x x Hxx) in Hxx.
Qed.

Lemma softvoting_mean (N M C : nat) (scores : tensor F) :
  shape scores = [N; M; C] → well_formed scores → 0 < C →
  ∃ averaged soft,
    Evaluation.softvoting scores = Ok (averaged, soft) ∧
    ∀ m, m < M →
      data soft !! m = Some (Z.of_nat (argmax (mean_probs scores m))).
Proof.
  intros Hsh Hwf HC.
  destruct (averaged_scores_spec N M C scores Hsh) as (Hmean & Hash & _ & Hadata).
  destruct (argmax_classes_spec 1 M C _ Hash HC) as (Harg & _ & _ & Hsdata).
  eexists _, _. split.
  - unfold Evaluation.softvoting. rewrite Hmean. cbn [mbind result_bind].
    rewrite Harg. reflexivity.
  - intros m Hm. cbn [torch_squeeze data]. rewrite Hsdata by lia.
    do 3 f_equal. rewrite (mean_probs_lanes scores N M C) by done.
    rewrite <- omap_Some_map. apply omap_seq_ext. intros c Hc.
    apply Hadata; lia.
Qed.

(** X4. The soft-voting class has the greatest mean probability: on a
    stacked score tensor of shape (N, M, C), and with a comparison of
    floats that is a strict weak order (no NaN), the class predicted for a
    sample is one whose mean probability over the models no class exceeds,
    and the first such class. *)
Theorem softvoting_greatest_mean (N M C : nat) (scores : tensor F) :
  shape scores = [N; M; C] → well_formed scores → 0 < C →
  ∃ averaged soft,
    Evaluation.softvoting scores = Ok (averaged, soft) ∧
    ∀ m, m < M →
      ∃ p x, data soft !! m = Some (Z.of_nat p) ∧
             mean_probs scores m !! p = Some x ∧
             ∀ c y, mean_probs scores m !! c = Some y →
               flt x y = false ∧ (c < p → flt y x = true).
Proof.
  intros Hsh Hwf HC.
  destruct (softvoting_mean N M C scores Hsh Hwf HC) as (averaged & soft & Hsoft & Hs).
  exists averaged, soft. split; [exact Hsoft|]. intros m Hm.
  assert (mean_probs scores m ≠ []) as Hne.
  { rewrite (mean_probs_lanes scores N M C) by done.
    destruct C; [lia|done]. }
  destruct (argmax_spec _ Hne) as (x & Hx & Hmax).
  exists (argmax (mean_probs scores m)), x. split; [by apply Hs|]. by split.
Qed.
End soft_vote_maximal.

(** ** The evaluation run, stage by stage *)

Section stages.
Context {F : Type} `{FloatOps F} `{World F}.

Lemma staged_bind {A B} (Q : result B → list (event F) → Prop)
    (c : M F A) (k : A → M F B) :
  silent is_report c →
  (∀ e, Q (Raise e) []) →
  (∀ a t, c = (Ok a, t) →
     ∃ pre post, (k a).2 = pre ++ post ∧
       Forall (λ e, is_report e = false) pre ∧ Q (k a).1 post) →
  ∃ pre post, (c ≫= k).2 = pre ++ post ∧
    Forall (λ e, is_report e = false) pre ∧ Q (c ≫= k).1 post.
Proof.
  unfold silent. destruct c as [[a|e] t]; cbn [snd]; intros Hc Hraise Hk.
  - destruct (Hk a t eq_refl) as (pre & post & Hpre & Hquiet & HQ).
    exists (t ++ pre), post. unfold mbind, M_bind, bind. cbn [fst snd].
    rewrite Hpre, app_assoc. split; [reflexivity|].
    split; [apply Forall_app; by split|exact HQ].
  - exists t, []. unfold mbind, M_bind, bind. cbn [fst snd].
    rewrite app_nil_r. split; [reflexivity|]. split; [exact Hc|apply Hraise].
Qed.

(** Every run of [main] splits in two: events that report nothing, and
    then either nothing, the run having stopped before the metrics, or the
    events of the metrics block. *)
Lemma main_stages environ a :
  ∃ pre post,
    (Evaluation.main environ a).2 = pre ++ post ∧
    Forall (λ e, is_report e = false) pre ∧
    ((post = [] ∧ is_ok (Evaluation.main environ a).1 = false) ∨
     reaches_metrics environ a (Evaluation.main environ a).1 post).
Proof.
  unfold Evaluation.main.
  set (Q := λ (r : result (Evaluation.outcome F)) post,
         (post = [] ∧ is_ok r = false) ∨ reaches_metrics environ a r post).
  assert (∀ e, Q (Raise e) []) as Hraise by (intros e; by left).
  apply (staged_bind Q); [apply setup_aimlogger_no_report|exact Hraise|].
  intros lg t1 Hlog.
  apply (staged_bind Q); [apply assert_logger_silent|exact Hraise|].
  intros logger t2 Hassert.
  assert (lg = Some logger) as ->.
  { destruct lg; [|discriminate Hassert]. by injection Hassert as ->. }
  apply (staged_bind Q); [apply main_inference_no_report|exact Hraise|].
  intros [[scores labels] dm] t3 Hinf.
  apply (staged_bind Q); [apply silent_lift|exact Hraise|].
  intros stacked t4 [Hstack _]%lift_Ok_inv.
  apply (staged_bind Q); [apply silent_lift|exact Hraise|].
  intros lab t5 [Hlab _]%lift_Ok_inv.
  apply (staged_bind Q); [apply silent_lift|exact Hraise|].
  intros [avg soft] t6 [Hsoft _]%lift_Ok_inv.
  apply (staged_bind Q); [apply silent_lift|exact Hraise|].
  intros hard t7 [Hhard _]%lift_Ok_inv.
  exists [].
  exists (Evaluation.main_metrics logger (classes_of (dm_classlist dm))
            (count_perclass (val_src dm) (dm_classlist dm)) avg soft lab).2.
  split; [|split; [constructor|]].
  - unfold mbind, M_bind, bind.
    destruct (Evaluation.main_metrics _ _ _ _ _ _) as [[ms|e] tm]; cbn [fst snd];
      by rewrite ?app_nil_r.
  - right. exists logger, scores, labels, dm, t3, stacked, lab, avg, soft, hard.
    rewrite Hlog. repeat (split; [first [reflexivity|assumption]|]).
    unfold mbind, M_bind, bind.
    destruct (Evaluation.main_metrics _ _ _ _ _ _) as [[ms|e] tm]; reflexivity.
Qed.

Lemma quiet_no_reports (tr : list (event F)) :
  Forall (λ e, is_report e = false) tr →
  computed tr = [] ∧ tracked tr = [] ∧ figures tr = [].
Proof.
  intros Hq. repeat split;
    apply (silent_omap is_report (Ok tt, tr)); (exact Hq || by intros []).
Qed.

Lemma main_metrics_two_loggers_trace al el cl pc avg soft lab :
  tracked (Evaluation.main_metrics (TwoLoggers al el) cl pc avg soft lab).2 = [] ∧
  figures (Evaluation.main_metrics (TwoLoggers al el) cl pc avg soft lab).2 = [] ∧
  map fst (computed
    (Evaluation.main_metrics (TwoLoggers al el) cl pc avg soft lab).2)
  = ["f1_weighted_SOFT"].
Proof. repeat split; vm_compute; reflexivity. Qed.

(** X5. With both [--repo] and [AIM_REPO] set the evaluation script
    cannot finish: the logger is then a list of two loggers, and [main]
    raises, at the latest at its first [logger.experiment.track], before
    any value is tracked or any figure logged. *)
Theorem evaluation_fails_with_two_loggers environ a al el :
  (Train.setup_aimlogger (F:=F) environ (Evaluation.aim a)
     (Some Evaluation.contexts_eval) None).1 = Ok (Some (TwoLoggers al el)) →
  is_ok (Evaluation.main environ a).1 = false ∧
  tracked (Evaluation.main environ a).2 = [] ∧
  figures (Evaluation.main environ a).2 = [].
Proof.
  intros Htwo.
  destruct (main_stages environ a) as (pre & post & -> & Hq & [[-> Hfail]|Hreach]).
  - split; [exact Hfail|]. rewrite app_nil_r.
    by destruct (quiet_no_reports pre Hq) as (_ & ? & ?).
  - destruct Hreach as (logger & scores & labels & dm & t & stacked & lab & avg
                        & soft & hard & Hlog & _ & _ & _ & _ & _ & -> & ->).
    rewrite Htwo in Hlog. injection Hlog as <-.
    destruct (main_metrics_two_loggers_trace al el (classes_of (dm_classlist dm))
                (count_perclass (val_src dm) (dm_classlist dm)) avg soft lab)
      as (Ht & Hf & _).
    destruct (quiet_no_reports pre Hq) as (_ & Hpt & Hpf).
    rewrite main_metrics_two_loggers. split; [reflexivity|].
    unfold tracked, figures in *. rewrite !omap_app, Ht, Hf, Hpt, Hpf. by split.
Qed.

(** X6. Nothing is reported before every check has passed: if a run of
    the evaluation script computes a metric, tracks a value or logs a
    figure, then every listed model was loaded and run, the score tensors
    of the models stacked, the label check passed, and both votes were
    computed. *)
Theorem reports_follow_checks environ a e :
  e ∈ (Evaluation.main environ a).2 → is_report e = true →
  ∃ scores labels dm t stacked lab,
    Evaluation.main_inference a = (Ok (scores, labels, dm), t) ∧
    torch_stack scores = Ok stacked ∧
    Evaluation.check_labels labels = Ok lab ∧
    is_ok (Evaluation.softvoting stacked) = true ∧
    is_ok (Evaluation.hardvoting stacked) = true.
Proof.
  intros He Hrep.
  destruct (main_stages environ a) as (pre & post & Htr & Hq & [[-> _]|Hreach]).
  - rewrite Htr, app_nil_r in He. rewrite Forall_forall in Hq.
    rewrite (Hq e He) in Hrep. discriminate Hrep.
  - destruct Hreach as (logger & scores & labels & dm & t & stacked & lab & avg
                        & soft & hard & _ & Hinf & Hstack & Hlab & Hsoft & Hhard & _).
    exists scores, labels, dm, t, stacked, lab.
    rewrite Hsoft, Hhard. repeat (split; [first [reflexivity|assumption]|]).
    reflexivity.
Qed.
End stages.

Section inference.
Context {F : Type} `{FloatOps F} `{World F}.

(** A loop whose body makes the accumulator one larger makes it larger by
    the number of items. *)
Lemma for_each_grows {A St} (size : St → nat) (xs : list A) (acc acc' : St)
    (body : St → A → M F St) (t : list (event F)) :
  (∀ s x s' t', body s x = (Ok s', t') → size s' = S (size s)) →
  for_each xs acc body = (Ok acc', t) →
  size acc' = size acc + length xs.
Proof.
  intros Hbody. revert acc t. induction xs as [|x xs IH]; intros acc t Hrun.
  - injection Hrun as <- _. cbn. lia.
  - cbn [for_each] in Hrun.
    apply bind_Ok_inv in Hrun as (s1 & t1 & t2 & Hx & Hrun & _).
    apply IH in Hrun. apply Hbody in Hx. cbn [length]. lia.
Qed.

(** One score tensor and one label tensor per listed model. *)
Lemma main_inference_lengths a scores labels dm t :
  Evaluation.main_inference a = (Ok (scores, labels, dm), t) →
  length scores = length (Evaluation.models a) ∧
  length labels = length (Evaluation.models a).
Proof.
  unfold Evaluation.main_inference. intros Hrun.
  apply bind_Ok_inv in Hrun as (? & ? & ? & _ & Hrun & _).
  split.
  - apply (for_each_grows (λ s : list (tensor F) * list (tensor Z) * datamodule F,
                             length s.1.1)) in Hrun; [exact Hrun|].
    intros [[s l] d] md s' t' Hbody.
    apply bind_Ok_inv in Hbody as ([m tf] & ? & ? & _ & Hbody & _).
    apply bind_Ok_inv in Hbody as (? & ? & ? & _ & Hbody & _).
    apply bind_Ok_inv in Hbody as ([mp tl] & ? & ? & _ & Hbody & _).
    apply bind_Ok_inv in Hbody as (? & ? & ? & _ & Hbody & _).
    apply bind_Ok_inv in Hbody as (? & ? & ? & _ & Hbody & _).
    injection Hbody as <- _. cbn [fst]. rewrite length_app. cbn. lia.
  - apply (for_each_grows (λ s : list (tensor F) * list (tensor Z) * datamodule F,
                             length s.1.2)) in Hrun; [exact Hrun|].
    intros [[s l] d] md s' t' Hbody.
    apply bind_Ok_inv in Hbody as ([m tf] & ? & ? & _ & Hbody & _).
    apply bind_Ok_inv in Hbody as (? & ? & ? & _ & Hbody & _).
    apply bind_Ok_inv in Hbody as ([mp tl] & ? & ? & _ & Hbody & _).
    apply bind_Ok_inv in Hbody as (? & ? & ? & _ & Hbody & _).
    apply bind_Ok_inv in Hbody as (? & ? & ? & _ & Hbody & _).
    injection Hbody as <- _. cbn [fst snd]. rewrite length_app. cbn. lia.
Qed.

Lemma torch_stack_shape {A} (ts : list (tensor A)) (stacked : tensor A) :
  torch_stack ts = Ok stacked →
  ∃ t0, head ts = Some t0 ∧ shape stacked = length ts :: shape t0 ∧
        Forall (λ t, shape t = shape t0) ts ∧
        data stacked = concat (map data ts).
Proof.
  unfold torch_stack. destruct ts as [|t0 ts]; [done|].
  destruct (forallb _ _) eqn:Hall; [|done]. intros [= <-].
  exists t0. split; [done|]. split; [done|]. split; [|done].
  apply Forall_forall. intros t Ht. rewrite forallb_forall in Hall.
  apply list_elem_of_In, Hall in Ht. by apply bool_decide_eq_true in Ht.
Qed.

(** A run of [main] that returns went through the metrics block. *)
Lemma main_Ok_reaches environ a o tr :
  Evaluation.main environ a = (Ok o, tr) →
  ∃ post, reaches_metrics environ a (Ok o) post.
Proof.
  intros Hrun.
  destruct (main_stages environ a) as (pre & post & _ & _ & [[_ Hfail]|Hreach]).
  - rewrite Hrun in Hfail. discriminate Hfail.
  - rewrite Hrun in Hreach. by exists post.
Qed.

(** X7. The stacked scores have one slice per listed model: when the
    evaluation script returns, the list of models is not empty, every
    model produced a score tensor of the same shape, and the leading
    dimension of [scores_per_model] is the number of models listed. *)
Theorem one_slice_per_model environ a o tr :
  Evaluation.main environ a = (Ok o, tr) →
  Evaluation.models a ≠ [] ∧
  ∃ scores labels dm t sh,
    Evaluation.main_inference a = (Ok (scores, labels, dm), t) ∧
    Forall (λ s, shape s = sh) scores ∧
    shape (Evaluation.scores_per_model o)
      = length (Evaluation.models a) :: sh ∧
    data (Evaluation.scores_per_model o) = concat (map data scores).
Proof.
  intros (post & logger & scores & labels & dm & t & stacked & lab & avg
          & soft & hard & _ & Hinf & Hstack & _ & _ & _ & _ & Ho)%main_Ok_reaches.
  destruct (Evaluation.main_metrics _ _ _ _ _ _).1 as [ms|e]; [|discriminate Ho].
  injection Ho as ->. cbn [Evaluation.scores_per_model].
  destruct (main_inference_lengths a scores labels dm t Hinf) as [Hlen _].
  destruct (torch_stack_shape scores stacked Hstack) as (t0 & Hhead & Hsh & Hall & Hdata).
  split.
  - intros Hnil. rewrite Hnil in Hlen. destruct scores; [done|discriminate Hlen].
  - exists scores, labels, dm, t, (shape t0).
    split; [exact Hinf|]. split; [exact Hall|]. split; [|exact Hdata].
    by rewrite Hsh, Hlen.
Qed.

(** X8. An empty list of models stops the evaluation at [torch.stack]:
    with a logger set up and no model listed, [main] raises the
    RuntimeError of stacking an empty list, after it has created the
    datamodule and before it loads, computes or reports anything. *)
Theorem evaluation_of_no_model environ a logger t :
  Train.setup_aimlogger (F:=F) environ (Evaluation.aim a)
    (Some Evaluation.contexts_eval) None = (Ok (Some logger), t) →
  Evaluation.models a = [] →
  Evaluation.main environ a
  = (Raise (RuntimeError "stack expects a non-empty TensorList"),
     t ++ [EvDatamodule
             (Datamodule None (Evaluation.vallist a) (Evaluation.classlist a)
                [] [] 100 (Evaluation.num_workers a))]).
Proof.
  intros Hlog Hnil. unfold Evaluation.main, Evaluation.main_inference.
  rewrite Hlog, Hnil. run_script. cbn [for_each]. run_script.
  by rewrite ?app_nil_r.
Qed.

Lemma main_metrics_hard l cl pc avg soft lab :
  match (Evaluation.main_metrics (OneLogger l) cl pc avg soft lab).1 with
  | Ok ms =>
      size ms = 33 ∧
      (mode ← Evaluation.averaging_modes; sc ← Evaluation.stat_classes;
       [(mode, sc,
         ms !! (sc.1 +:+ "_" +:+ default "perclass" mode +:+ "_HARD")%string)])
      = (mode ← Evaluation.averaging_modes; sc ← Evaluation.stat_classes;
         [(mode, sc, Some (Metric sc.2 "multiclass" (length cl) mode []))])
  | Raise _ => False
  end.
Proof. vm_compute. split; reflexivity. Qed.

(** X9. The hard-voting metrics are created and never fed: when the
    evaluation script returns, its dictionary of metrics holds 33 objects,
    and for each of F1, recall, accuracy and precision and each averaging
    mode the entry '<stat>_<mode>_HARD' is a metric without any update. *)
Theorem hard_metrics_never_updated environ a o tr :
  Evaluation.main environ a = (Ok o, tr) →
  size (Evaluation.metrics o) = 33 ∧
  ∃ num_classes, ∀ mode stat cls,
    mode ∈ Evaluation.averaging_modes →
    (stat, cls) ∈ Evaluation.stat_classes →
    Evaluation.metrics o
      !! (stat +:+ "_" +:+ default "perclass" mode +:+ "_HARD")%string
    = Some (Metric cls "multiclass" num_classes mode []).
Proof.
  intros (l & cl & pc & scores & labels & pre & post & _ & _ & _ & _ & _ & _ & Hm)%main_Ok_inv.
  pose proof (main_metrics_hard l cl pc (Evaluation.averaged_scores o)
                (Evaluation.softvoting_classes o) (Evaluation.true_labels o))
    as Hhard.
  rewrite Hm in Hhard. cbn [fst] in Hhard. destruct Hhard as [Hsize Hhard].
  split; [exact Hsize|]. exists (length cl). intros mode stat cls Hmode Hsc.
  assert ((mode, (stat, cls),
           Evaluation.metrics o
             !! (stat +:+ "_" +:+ default "perclass" mode +:+ "_HARD")%string)
          ∈ (mode ← Evaluation.averaging_modes; sc ← Evaluation.stat_classes;
             [(mode, sc, Some (Metric sc.2 "multiclass" (length cl) mode []))]))
    as Hin.
  { rewrite <- Hhard. apply list_elem_of_bind. exists mode. split; [|exact Hmode].
    apply list_elem_of_bind. exists (stat, cls). split; [|exact Hsc].
    apply list_elem_of_singleton. reflexivity. }
  apply list_elem_of_bind in Hin as (mode' & Hin & _).
  apply list_elem_of_bind in Hin as (sc' & Hin & _).
  apply list_elem_of_singleton in Hin. by injection Hin as <- <- ->.
Qed.
End inference.

(** ** Loading a checkpoint, further *)

Section load_model_facts.
Context {F : Type} `{FloatOps F} `{World F}.

(** X10. When the framework loads the checkpoint, [load_model] hands the
    module back as it was loaded: it does not call [eval()], loads no
    state dict and constructs nothing, and the transforms resize to the
    size of the module's 'model_name'. A module without 'model_name' in
    its hyperparameters makes it raise a KeyError. *)
Theorem load_model_direct (d : string) (c : classifier F) :
  os_path_isfile d && Evaluation.endswith d ".ckpt" = true →
  load_from_checkpoint d = Ok c →
  Evaluation.load_model d
  = match hparams c !! "model_name" with
    | Some name =>
        (Ok (c, [Resize (get_model_resize name) (get_model_resize name);
                 ToImage; ToDtype "torch.float32" true]), [])
    | None => (Raise (KeyError "model_name"), [])
    end.
Proof.
  intros Hfile Hload. unfold Evaluation.load_model.
  rewrite Hfile. cbn [from_option]. rewrite Hload. run_script.
  unfold getitem. by destruct (hparams c !! "model_name").
Qed.

(** X11. Whatever the way a model was loaded, [load_model] returns
    exactly three transforms with it: a resize to the square of the size
    that belongs to the model's 'model_name', to-image, and to-dtype
    float32 with scaling. *)
Theorem load_model_transforms (d : string) (m : classifier F)
    (transforms : list (transform F)) (tr : list (event F)) :
  Evaluation.load_model d = (Ok (m, transforms), tr) →
  ∃ name,
    hparams m !! "model_name" = Some name ∧
    transforms = [Resize (get_model_resize name) (get_model_resize name);
                  ToImage; ToDtype "torch.float32" true].
Proof.
  unfold Evaluation.load_model. intros Hrun.
  apply bind_Ok_inv in Hrun as (c & t1 & t2 & _ & Hrun & _).
  apply bind_Ok_inv in Hrun as (name & t3 & t4 & Hname & Hrun & _).
  unfold getitem in Hname.
  destruct (hparams c !! "model_name") as [v|] eqn:Hv; [|discriminate Hname].
  injection Hname as -> _. injection Hrun as <- <- _. by exists name.
Qed.

(** X12. A designator that is not an existing file whose name ends in
    '.ckpt' is never loaded: the download branch leaves the path an
    Ellipsis, on which both loaders raise, so [load_model] raises and
    constructs nothing. *)
Theorem load_model_needs_ckpt_file (d : string) :
  os_path_isfile d && Evaluation.endswith d ".ckpt" = false →
  ∃ e, Evaluation.load_model d = (Raise e, []).
Proof.
  intros Hfile. unfold Evaluation.load_model. rewrite Hfile.
  cbn [from_option]. run_script. by eexists.
Qed.

(** X13. The fallback does not report the first failure: when both
    [load_from_checkpoint] and [torch.load] raise, [load_model] raises the
    exception of [torch.load], and constructs nothing. *)
Theorem load_model_second_failure (d : string) (e1 e2 : exn) :
  os_path_isfile d && Evaluation.endswith d ".ckpt" = true →
  load_from_checkpoint d = Raise e1 →
  torch_load d = Raise e2 →
  Evaluation.load_model d = (Raise e2, []).
Proof.
  intros Hfile Hfirst Hsecond. unfold Evaluation.load_model.
  rewrite Hfile. cbn [from_option]. rewrite Hfirst, Hsecond. by run_script.
Qed.

(** X14. An old checkpoint has to carry both old names: in the fallback,
    hyper_parameters without 'model_name' and without 'model' raise
    KeyError 'model', and with 'model' but without 'weights' KeyError
    'weights'; in both cases no classifier is constructed. *)
Theorem load_model_missing_old_name (d : string) (e : exn) (ckpt : checkpoint F) :
  os_path_isfile d && Evaluation.endswith d ".ckpt" = true →
  load_from_checkpoint d = Raise e →
  torch_load d = Ok ckpt →
  hyper_parameters ckpt !! "model_name" = None →
  hyper_parameters ckpt !! "model" = None ∨
  hyper_parameters ckpt !! "weights" = None →
  Evaluation.load_model d
  = (Raise (KeyError match hyper_parameters ckpt !! "model" with
                     | Some _ => "weights"
                     | None => "model"
                     end), []).
Proof.
  intros Hfile Hraise Hload Hname Hmissing. unfold Evaluation.load_model.
  rewrite Hfile. cbn [from_option]. rewrite Hraise, Hload. run_script.
  unfold Evaluation.legacy_hyper_parameters, dict_pop. rewrite Hname.
  destruct (hyper_parameters ckpt !! "model") as [m|] eqn:Hm.
  - destruct Hmissing as [|Hw]; [done|]. run_script.
    rewrite lookup_insert_ne, lookup_delete_ne, Hw by done. by run_script.
  - by run_script.
Qed.

(** The renaming is done once: hyper_parameters that went through the
    fallback pass it again unchanged. *)
Lemma legacy_has_model_name (hp hp' : gmap string (pyval F)) (tr : list (event F)) :
  Evaluation.legacy_hyper_parameters hp = (Ok hp', tr) →
  is_Some (hp' !! "model_name") ∧ tr = [].
Proof.
  unfold Evaluation.legacy_hyper_parameters, dict_pop.
  destruct (hp !! "model_name") as [v|] eqn:Hname.
  { intros [= <- <-]. by rewrite Hname. }
  destruct (hp !! "model") as [m|] eqn:Hm; [|done]. run_script.
  rewrite lookup_insert_ne, lookup_delete_ne by done.
  destruct (hp !! "weights") as [w|] eqn:Hw; [|done]. run_script.
  intros [= <- <-]. split; [|done]. rewrite prune_all_keys.
  rewrite bool_decide_eq_true_2 by (by vm_compute; left).
  rewrite lookup_insert_ne, lookup_delete_ne, lookup_insert_eq by done. done.
Qed.

(** X15. The repair of old hyper_parameters is idempotent: what lines
    120-125 return has 'model_name', and running them on it again changes
    nothing. *)
Theorem legacy_idempotent (hp hp' : gmap string (pyval F)) (tr : list (event F)) :
  Evaluation.legacy_hyper_parameters hp = (Ok hp', tr) →
  is_Some (hp' !! "model_name") ∧
  Evaluation.legacy_hyper_parameters hp' = (Ok hp', []).
Proof.
  intros [[v Hv] _]%legacy_has_model_name. split; [by exists v|].
  unfold Evaluation.legacy_hyper_parameters. by rewrite Hv.
Qed.
End load_model_facts.

(** ** Setting up the model, further *)

Section setup_facts.
Context {F : Type} `{FloatOps F} `{World F}.

(** What [setup_model_and_datamodule] returns when it returns: the
    datamodule of the three list files, and a classifier, neither in
    evaluation mode nor with a state dict, built from eight
    hyperparameters. *)
Lemma setup_model_Ok (a : Train.args F) model dm a' tr :
  Train.setup_model_and_datamodule a = (Ok (model, dm, a'), tr) →
  ∃ loss_kwargs,
    model = Classifier
      (list_to_map [
         ("model_name", PyStr (check_model_name (Train.model a)));
         ("num_classes", PyInt (Z.of_nat (length (classes_of (Train.classlist a)))));
         ("model_weights", pyopt PyStr (Train.weights a));
         ("model_freeze", Train.freeze a);
         ("loss_function", PyStr (Train.loss_function a));
         ("loss_kwargs", PyDict loss_kwargs);
         ("optimizer", PyStr (Train.optimizer a));
         ("optimizer_kwargs", PyDict [("lr", PyFloat (Train.lr a))])])
      false None ∧
    dm = Datamodule (Some (Train.trainlist a)) (Train.vallist a)
           (Train.classlist a)
           (get_model_base_transforms (check_model_name (Train.model a)))
           (Train.parse_training_transforms a) (Train.batch_size a)
           (Train.num_workers a) ∧
    classifiers tr = [hparams model].
Proof.
  unfold Train.setup_model_and_datamodule. intros Hsetup.
  apply bind_Ok_inv in Hsetup as (? & ? & ? & ->%emit_inv & Hsetup & ->).
  apply bind_Ok_inv in Hsetup as (w' & t1 & ? & Hw & Hsetup & ->).
  apply bind_Ok_inv in Hsetup as (kw & t2 & ? & Hkw & Hsetup & ->).
  apply bind_Ok_inv in Hsetup as (? & ? & ? & ->%emit_inv & Hsetup & ->).
  unfold mret, M_ret, ret in Hsetup. simplify_eq. exists kw.
  split; [reflexivity|]. split; [reflexivity|]. cbn [hparams].
  assert (classifiers t1 = []) as Ht1.
  { destruct (bool_decide _) in Hw.
    - apply bind_Ok_inv in Hw as (? & ? & ? & ->%emit_inv & Hw & ->).
      by injection Hw as _ <-.
    - destruct (match Train.loss_weights a with
                | Some path => os_path_isfile path
                | None => stdin_isfile
                end) in Hw; [done|]. by injection Hw as _ <-. }
  assert (classifiers t2 = []) as Ht2.
  { destruct (String.eqb _ _) in Hkw.
    - apply bind_Ok_inv in Hkw as (? & ? & ? & [_ ->]%lift_Ok_inv & Hkw & ->).
      by injection Hkw as _ <-.
    - destruct (String.eqb _ _) in Hkw.
      + apply bind_Ok_inv in Hkw as (? & ? & ? & [_ ->]%lift_Ok_inv & Hkw & ->).
        by injection Hkw as _ <-.
      + by injection Hkw as _ <-. }
  unfold classifiers in *. rewrite !omap_app, Ht1, Ht2. reflexivity.
Qed.

(** X16. What the training script builds, the evaluation script accepts
    as it is: the classifier of [setup_model_and_datamodule] has exactly
    the eight hyperparameters that [load_model] expects, 'model_name'
    among them, so the repair of old checkpoints leaves them untouched. *)
Theorem trained_hparams_are_expected (a : Train.args F) model dm a' tr :
  Train.setup_model_and_datamodule a = (Ok (model, dm, a'), tr) →
  (∀ k, is_Some (hparams model !! k) ↔ k ∈ Evaluation.expected_hparams) ∧
  hparams model !! "model_name"
    = Some (PyStr (check_model_name (Train.model a))) ∧
  Evaluation.legacy_hyper_parameters (hparams model) = (Ok (hparams model), []).
Proof.
  intros (kw & -> & _ & _)%setup_model_Ok. cbn [hparams].
  assert (∀ hp : gmap string (pyval F),
            hp !! "model_name" = Some (PyStr (check_model_name (Train.model a))) →
            Evaluation.legacy_hyper_parameters hp = (Ok hp, [])) as Hsame.
  { intros hp Hhp. unfold Evaluation.legacy_hyper_parameters. by rewrite Hhp. }
  split; [|split; [reflexivity|by apply Hsame]].
  intros k. rewrite <- elem_of_dom, dom_list_to_map_L.
  rewrite elem_of_list_to_set. reflexivity.
Qed.

(** X17. A file of loss weights cannot be used: when [--loss-weights]
    names an existing file, [setup_model_and_datamodule] raises an
    AttributeError, the file being opened through the misspelt attribute
    [args.loss_weight], and no classifier is constructed. *)
Theorem loss_weights_file_raises (a : Train.args F) (path : string) :
  Train.loss_weights a = Some path → path ≠ "normalize" →
  os_path_isfile path = true →
  (Train.setup_model_and_datamodule a).1
    = Raise (AttributeError "'Namespace' object has no attribute 'loss_weight'") ∧
  classifiers (Train.setup_model_and_datamodule a).2 = [].
Proof.
  intros Hpath Hne Hfile. unfold Train.setup_model_and_datamodule.
  rewrite Hpath, Hfile. rewrite bool_decide_eq_false_2 by congruence.
  by run_script.
Qed.

Lemma le_greatest (l : list nat) (c : nat) : c ∈ l → c ≤ foldr Nat.max 0 l.
Proof. induction 1; cbn [foldr]; lia. Qed.

Lemma bincount_length (l : list nat) (c : nat) :
  c ∈ l → c < length (Train.bincount l).
Proof.
  intros Hc. pose proof (le_greatest l c Hc) as Hle. unfold Train.bincount.
  destruct l as [|x l]; [by apply elem_of_nil in Hc|].
  rewrite length_map, length_seq. lia.
Qed.

(** X18. Normalised loss weights break the default loss: with
    [--loss-weights normalize], [CrossEntropyLoss] and a class index of 1
    or more among the targets, the weights are a tensor of several values
    and [if args.loss_weights_tensor:] raises the RuntimeError of an
    ambiguous truth value; no classifier is constructed. *)
Theorem normalized_cross_entropy_raises (a : Train.args F) (c : nat) :
  Train.loss_weights a = Some "normalize" →
  Train.loss_function a = "CrossEntropyLoss" →
  c ∈ targets_of (Train.trainlist a) ++ targets_of (Train.vallist a) → 0 < c →
  (Train.setup_model_and_datamodule a).1
    = Raise (RuntimeError
        "Boolean value of Tensor with more than one value is ambiguous") ∧
  classifiers (Train.setup_model_and_datamodule a).2 = [].
Proof.
  intros Hnorm Hloss Hc Hpos. unfold Train.setup_model_and_datamodule.
  rewrite Hnorm, Hloss. run_script.
  unfold py_bool, Train.normalized_class_weights. cbn [data].
  pose proof (bincount_length _ c Hc) as Hlen.
  destruct (Train.bincount _) as [|n0 [|n1 counts]]; cbn in Hlen; [lia..|].
  cbn [map]. by run_script.
Qed.

(** X19. Normalised loss weights are what the focal loss needs: with
    [--loss-weights normalize], [FocalLoss] and at least one target, the
    setup returns, and the classifier receives gamma from [--loss-gamma]
    and, when some weight is not zero, the normalised class weights as
    alpha. *)
Theorem normalized_focal_loss (a : Train.args F) (c : nat) :
  Train.loss_weights a = Some "normalize" →
  Train.loss_function a = "FocalLoss" →
  c ∈ targets_of (Train.trainlist a) ++ targets_of (Train.vallist a) →
  ∃ model dm a' tr,
    Train.setup_model_and_datamodule a = (Ok (model, dm, a'), tr) ∧
    Train.loss_weights_tensor a'
      = PyTensor (Train.normalized_class_weights
          (targets_of (Train.trainlist a) ++ targets_of (Train.vallist a))) ∧
    hparams model !! "loss_kwargs"
      = Some (PyDict
          (("gamma", PyFloat (Train.loss_gamma a)) ::
           if existsb (λ x, negb (fis_zero x))
                (data (Train.normalized_class_weights
                   (targets_of (Train.trainlist a) ++ targets_of (Train.vallist a))))
           then [("alpha", Train.loss_weights_tensor a')]
           else [])).
Proof.
  intros Hnorm Hloss Hc. unfold Train.setup_model_and_datamodule.
  rewrite Hnorm, Hloss. rewrite bool_decide_eq_true_2 by reflexivity.
  change ("FocalLoss" =? "CrossEntropyLoss")%string with false.
  change ("FocalLoss" =? "FocalLoss")%string with true. run_script.
  set (w := Train.normalized_class_weights _).
  assert (py_any (PyTensor w)
          = Ok (existsb (λ x, negb (fis_zero x)) (data w))) as Hany.
  { unfold py_any, w, Train.normalized_class_weights. cbn [shape data].
    pose proof (bincount_length _ c Hc) as Hlen.
    destruct (length (Train.bincount _)) as [|n]; [lia|]. reflexivity. }
  rewrite Hany. run_script. eexists _, _, _, _.
  split; [reflexivity|]. split; [reflexivity|]. cbn [hparams].
  cbn [Train.set_model_setup Train.loss_weights_tensor].
  destruct (existsb _ _); by vm_compute.
Qed.
End setup_facts.

(** ** The training run, step by step *)

Section training_steps.
Context {F : Type} `{FloatOps F} `{World F}.

Lemma setup_model_no_step a :
  silent (F:=F) is_trainer_step (Train.setup_model_and_datamodule a).
Proof. unfold Train.setup_model_and_datamodule. repeat silent_step. Qed.

Lemma setup_aimlogger_no_step environ a post pre :
  silent (F:=F) is_trainer_step (Train.setup_aimlogger environ a post pre).
Proof. unfold Train.setup_aimlogger. repeat silent_step. Qed.

Lemma quiet_no_steps (t : list (event F)) :
  Forall (λ e, is_trainer_step e = false) t →
  trainers t = [] ∧ artifacts t = [] ∧ saved_hyperparameters t = [] ∧
  fits t = [] ∧ tests t = [].
Proof.
  intros Ht.
  repeat split; apply (silent_omap is_trainer_step (Ok tt, t));
    try exact Ht; by intros [].
Qed.

(** [setup_model_and_datamodule] leaves the arguments that [main] reads
    afterwards as they were, the model name apart. *)
Lemma setup_model_keeps (a : Train.args F) model dm a' tr :
  Train.setup_model_and_datamodule a = (Ok (model, dm, a'), tr) →
  Train.aim a' = Train.aim a ∧ Train.freeze a' = Train.freeze a ∧
  Train.epoch_stop a' = Train.epoch_stop a ∧
  Train.checkpoints_path a' = Train.checkpoints_path a ∧
  Train.swa a' = Train.swa a ∧ Train.swa_lr a' = Train.swa_lr a ∧
  Train.swa_annealing a' = Train.swa_annealing a ∧
  Train.epoch_max a' = Train.epoch_max a ∧
  Train.epoch_min a' = Train.epoch_min a ∧
  Train.fast_dev_run a' = Train.fast_dev_run a ∧
  Train.autobatch a' = Train.autobatch a ∧
  Train.autobatch_max a' = Train.autobatch_max a ∧
  Train.batch_size a' = Train.batch_size a ∧
  Train.classlist a' = Train.classlist a ∧
  Train.trainlist a' = Train.trainlist a ∧
  Train.vallist a' = Train.vallist a ∧
  Train.testlist a' = Train.testlist a.
Proof.
  intros (name & n & w & ->)%setup_model_Ok_inv. repeat split.
Qed.

(** Once the model and a logger are set up and the experiment and the run
    have a name, [main] returns; what it does from the trainer on: the
    trainer and its callbacks, the model that is fitted, the
    hyperparameters saved after auto-tuning (the batch size found, capped
    by [--autobatch-max] when that is given and not zero) and the
    artifacts uploaded. *)
Lemma train_main_from_trainer environ (a : Train.args F)
    model0 dm a' t0 lg t1 frozen e r :
  Train.setup_model_and_datamodule a = (Ok (model0, dm, a'), t0) →
  Train.setup_aimlogger environ (Train.aim a) (Some Train.contexts_train) None
    = (Ok (Some lg), t1) →
  py_bool (Train.freeze a) = Ok frozen →
  experiment (Train.aim a) = Some e → run (Train.aim a) = Some r →
  ∃ trainer model t2,
    Train.main environ a = (Ok tt, t0 ++ t1 ++ t2) ∧
    trainers t2 = [trainer] ∧
    fits t2 = [(model, dm)] ∧
    tr_logger trainer = lg ∧
    tr_callbacks trainer
      = [LogNormalizedLoss; BarPlotMetricAim "f1_perclass" "f1_perclass";
         PlotConfusionMetricAim "classes" true;
         PlotConfusionMetricAim "f1_perclass" true; PlotPerclassDropdownAim]
        ++ (if int_truthy (Train.epoch_stop a)
            then [EarlyStopping "val_loss" "min" (Train.epoch_stop a)] else [])
        ++ (if frozen then [ModelSummaryWithGradCallback 2] else [])
        ++ [ModelCheckpoint (os_path_join3 (Train.checkpoints_path a) e r)
              "loss-{val_normloss:3.3f}_ep-{epoch:03.0f}" "val_loss" "min"
              "link" 3 false]
        ++ match Train.swa a with
           | Some start =>
               if int_truthy start
               then [StochasticWeightAveraging (Train.swa_lr a) start
                       (Train.swa_annealing a)]
               else []
           | None => []
           end ∧
    (if opt_truthy (Train.autobatch a)
     then
       let found := scale_batch_size model0 dm (default "" (Train.autobatch a))
                      (Train.batch_size a) in
       let limit := match Train.autobatch_max a with
                    | Some m => if int_truthy m then Z.min found m else found
                    | None => found
                    end in
       let a'' := Train.set_batch_sizes a' (Train.batch_size a) limit in
       saved_hyperparameters t2 = [Train.just_hparams a''] ∧
       hparams model = list_to_map (Train.just_hparams a'') ∪ hparams model0
     else saved_hyperparameters t2 = [] ∧ model = model0) ∧
    artifacts t2
      = if opt_truthy (al_artifacts_uri (Train.trainer_logger lg))
        then (if os_path_isfile (Train.classlist a)
              then [(Train.classlist a, os_path_basename (Train.classlist a))]
              else [])
             ++ (if os_path_isfile (Train.vallist a)
                 then [(Train.trainlist a, os_path_basename (Train.vallist a))]
                 else [])
             ++ (if os_path_isfile (Train.trainlist a)
                 then [(Train.trainlist a, os_path_basename (Train.trainlist a))]
                 else [])
             ++ [(best_model_path trainer,
                  os_path_basename (best_model_path trainer))]
        else [].
Proof.
  intros Hsetup Hlog Hfrozen He Hr.
  destruct (setup_model_Ok_inv a model0 dm a' t0 Hsetup) as (name & n & w & Ha').
  unfold Train.main. rewrite Hsetup. run_script.
  subst a'.
  cbn [Train.set_model_setup Train.set_batch_sizes Train.aim Train.freeze
       Train.epoch_stop Train.checkpoints_path Train.swa Train.swa_lr
       Train.swa_annealing Train.epoch_max Train.epoch_min Train.fast_dev_run
       Train.autobatch Train.autobatch_max Train.batch_size Train.classlist
       Train.trainlist Train.vallist Train.testlist].
  rewrite Hlog. run_script. rewrite Hfrozen, He, Hr. run_script.
  match goal with
  | |- context [Trainer lg ?cbs _ _ _] =>
      assert (cbs
        = [LogNormalizedLoss; BarPlotMetricAim "f1_perclass" "f1_perclass";
           PlotConfusionMetricAim "classes" true;
           PlotConfusionMetricAim "f1_perclass" true; PlotPerclassDropdownAim]
          ++ (if int_truthy (Train.epoch_stop a)
              then [EarlyStopping "val_loss" "min" (Train.epoch_stop a)] else [])
          ++ (if frozen then [ModelSummaryWithGradCallback 2] else [])
          ++ [ModelCheckpoint (os_path_join3 (Train.checkpoints_path a) e r)
                "loss-{val_normloss:3.3f}_ep-{epoch:03.0f}" "val_loss" "min"
                "link" 3 false]
          ++ match Train.swa a with
             | Some start =>
                 if int_truthy start
                 then [StochasticWeightAveraging (Train.swa_lr a) start
                         (Train.swa_annealing a)]
                 else []
             | None => []
             end) as Hcbs
        by (destruct (int_truthy (Train.epoch_stop a)), frozen,
              (Train.swa a) as [start|]; try destruct (int_truthy start);
            reflexivity);
      set (cbs0 := cbs) in *; clearbody cbs0
  end.
  cbn [tr_logger].
  destruct (opt_truthy (Train.autobatch a)); run_script;
    cbn [Train.set_model_setup Train.set_batch_sizes Train.classlist
         Train.trainlist Train.vallist Train.testlist];
    destruct (opt_truthy (al_artifacts_uri (Train.trainer_logger lg)));
    run_script;
    destruct (os_path_isfile (Train.classlist a));
    destruct (os_path_isfile (Train.vallist a));
    destruct (os_path_isfile (Train.trainlist a));
    destruct (opt_truthy (Train.testlist a));
    run_script; rewrite ?app_nil_r;
    (eexists _, _, _; split; [reflexivity|]);
    (split; [reflexivity|]); (split; [reflexivity|]);
    (split; [reflexivity|]);
    (split; [exact Hcbs|]);
    repeat split; reflexivity.
Qed.

(** What a run of [main] that returns went through. *)
Lemma train_main_Ok_pre environ (a : Train.args F) u tr :
  Train.main environ a = (Ok u, tr) →
  ∃ model0 dm a' t0 lg t1 frozen e r,
    Train.setup_model_and_datamodule a = (Ok (model0, dm, a'), t0) ∧
    Train.setup_aimlogger (F:=F) environ (Train.aim a)
      (Some Train.contexts_train) None = (Ok (Some lg), t1) ∧
    py_bool (Train.freeze a) = Ok frozen ∧
    experiment (Train.aim a) = Some e ∧ run (Train.aim a) = Some r.
Proof.
  unfold Train.main. intros Hmain.
  apply bind_Ok_inv in Hmain as ([[model0 dm] a'] & t1 & ? & Hsetup & Hmain & ->).
  apply bind_Ok_inv in Hmain as (lg & t2 & ? & Hlog & Hmain & ->).
  apply bind_Ok_inv in Hmain as (logger & t3 & ? & Hassert & Hmain & ->).
  apply bind_Ok_inv in Hmain as (frozen & t4 & ? & Hfrozen & Hmain & ->).
  apply bind_Ok_inv in Hmain as (chkpt & t5 & ? & Hchkpt & _ & ->).
  destruct (setup_model_keeps a model0 dm a' t1 Hsetup) as (Haim & Hfreeze & _).
  rewrite Haim in *. rewrite Hfreeze in Hfrozen.
  apply lift_Ok_inv in Hfrozen as [Hfrozen _].
  destruct lg as [lg|]; [|discriminate Hassert].
  destruct (experiment (Train.aim a)) as [e|]; [|discriminate Hchkpt].
  destruct (run (Train.aim a)) as [r|]; [|discriminate Hchkpt].
  exists model0, dm, a', t1, lg, t2, frozen, e, r.
  repeat split; assumption.
Qed.

(** A run of [main] that returns, in full. *)
Lemma train_main_Ok environ (a : Train.args F) u tr :
  Train.main environ a = (Ok u, tr) →
  ∃ model0 dm a' t0 lg t1 frozen e r t2,
    Train.setup_model_and_datamodule a = (Ok (model0, dm, a'), t0) ∧
    Train.setup_aimlogger (F:=F) environ (Train.aim a)
      (Some Train.contexts_train) None = (Ok (Some lg), t1) ∧
    py_bool (Train.freeze a) = Ok frozen ∧
    experiment (Train.aim a) = Some e ∧ run (Train.aim a) = Some r ∧
    tr = t0 ++ t1 ++ t2 ∧
    trainers tr = trainers t2 ∧ fits tr = fits t2 ∧
    saved_hyperparameters tr = saved_hyperparameters t2 ∧
    artifacts tr = artifacts t2 ∧
    Train.main environ a = (Ok tt, t0 ++ t1 ++ t2).
Proof.
  intros Hmain.
  destruct (train_main_Ok_pre environ a u tr Hmain)
    as (model0 & dm & a' & t0 & lg & t1 & frozen & e & r &
        Hsetup & Hlog & Hfrozen & He & Hr).
  destruct (train_main_from_trainer environ a model0 dm a' t0 lg t1 frozen e r
              Hsetup Hlog Hfrozen He Hr)
    as (trainer & model & t2 & Hrun & _).
  exists model0, dm, a', t0, lg, t1, frozen, e, r, t2.
  assert (tr = t0 ++ t1 ++ t2) as -> by congruence.
  pose proof (setup_model_no_step a) as Hq0.
  pose proof (setup_aimlogger_no_step environ (Train.aim a)
                (Some Train.contexts_train) None) as Hq1.
  unfold silent in Hq0, Hq1. rewrite Hsetup in Hq0. rewrite Hlog in Hq1.
  cbn [snd] in Hq0, Hq1.
  destruct (quiet_no_steps t0 Hq0) as (Ht0 & Ha0 & Hs0 & Hf0 & _).
  destruct (quiet_no_steps t1 Hq1) as (Ht1 & Ha1 & Hs1 & Hf1 & _).
  unfold trainers, fits, saved_hyperparameters, artifacts in *.
  rewrite !omap_app, Ht0, Ha0, Hs0, Hf0, Ht1, Ha1, Hs1, Hf1.
  repeat split; try assumption; reflexivity.
Qed.

Lemma int_truthy_ne (z : Z) : int_truthy z = true ↔ z ≠ 0%Z.
Proof. unfold int_truthy. rewrite negb_true_iff, Z.eqb_neq. reflexivity. Qed.


Ltac training_run Hmain :=
  destruct (train_main_Ok _ _ _ _ Hmain)
    as (model0 & dm & a' & t0 & lg & t1 & frozen & e & r & t2 &
        Hsetup & Hlog & Hfrozen & He & Hr & -> &
        Htrainers & Hfits & Hsaved & Harts & Hrun0);
  destruct (train_main_from_trainer _ _ _ _ _ _ _ _ _ _ _
              Hsetup Hlog Hfrozen He Hr)
    as (trainer & model & t2' & Hrun & Ht & Hf & Hlg & Hcbs & Hauto & Hart);
  rewrite Hrun0 in Hrun; injection Hrun as Hrun;
  do 2 apply app_inv_head in Hrun; subst t2'.

(** X20. Training needs [--experiment]: when the model and a logger are
    set up but the experiment (or the run) has no name, [main] raises a
    TypeError at the checkpoint path, having done what the two setups do
    and nothing more; no trainer is created and nothing is fitted. *)
Theorem training_needs_experiment environ (a : Train.args F)
    model0 dm a' t0 lg t1 frozen :
  Train.setup_model_and_datamodule a = (Ok (model0, dm, a'), t0) →
  Train.setup_aimlogger environ (Train.aim a) (Some Train.contexts_train) None
    = (Ok (Some lg), t1) →
  py_bool (Train.freeze a) = Ok frozen →
  experiment (Train.aim a) = None ∨ run (Train.aim a) = None →
  (∃ msg, (Train.main environ a).1 = Raise (TypeError msg)) ∧
  (Train.main environ a).2 = t0 ++ t1 ∧
  trainers (Train.main environ a).2 = [] ∧
  fits (Train.main environ a).2 = [].
Proof.
  intros Hsetup Hlog Hfrozen Hnone.
  destruct (setup_model_keeps a model0 dm a' t0 Hsetup) as (Haim & Hfreeze & _).
  pose proof (setup_model_no_step a) as Hq0.
  pose proof (setup_aimlogger_no_step environ (Train.aim a)
                (Some Train.contexts_train) None) as Hq1.
  unfold silent in Hq0, Hq1. rewrite Hsetup in Hq0. rewrite Hlog in Hq1.
  cbn [snd] in Hq0, Hq1.
  destruct (quiet_no_steps t0 Hq0) as (Ht0 & _ & _ & Hf0 & _).
  destruct (quiet_no_steps t1 Hq1) as (Ht1 & _ & _ & Hf1 & _).
  assert (∃ msg, Train.main environ a = (Raise (TypeError msg), t0 ++ t1))
    as [msg Hrun].
  { unfold Train.main. rewrite Hsetup. run_script.
    rewrite Haim, Hfreeze, Hlog. run_script. rewrite Hfrozen. run_script.
    destruct Hnone as [-> | ->]; [|destruct (experiment (Train.aim a))];
      run_script; rewrite ?app_nil_r; eexists; reflexivity. }
  rewrite Hrun. cbn [fst snd]. split; [by exists msg|]. split; [reflexivity|].
  unfold trainers, fits in *. rewrite !omap_app, Ht0, Ht1, Hf0, Hf1.
  split; reflexivity.
Qed.

(** X21. What a returning training run needed: if [main] returns, then
    the model setup returned, a logger was created, [args.freeze] has a
    truth value, and the experiment and the run both have a name. *)
Theorem training_returns_only_if environ (a : Train.args F) u tr :
  Train.main environ a = (Ok u, tr) →
  is_ok (Train.setup_model_and_datamodule a).1 = true ∧
  (∃ lg, (Train.setup_aimlogger (F:=F) environ (Train.aim a)
            (Some Train.contexts_train) None).1 = Ok (Some lg)) ∧
  is_ok (py_bool (Train.freeze a)) = true ∧
  is_Some (experiment (Train.aim a)) ∧ is_Some (run (Train.aim a)).
Proof.
  intros Hmain.
  destruct (train_main_Ok_pre environ a u tr Hmain)
    as (model0 & dm & a' & t0 & lg & t1 & frozen & e & r &
        Hsetup & Hlog & Hfrozen & He & Hr).
  rewrite Hsetup, Hlog, Hfrozen, He, Hr. cbn [fst is_ok].
  split; [reflexivity|]. split; [by exists lg|]. split; [reflexivity|].
  split; eexists; reflexivity.
Qed.


(** X23. The validation list is never stored: whatever a run of [main]
    that returns uploads is the class list, the training list or the best
    checkpoint; and whenever it uploads anything and the validation list
    is a file, the training list is what it uploads under the validation
    list's name. *)
Theorem training_list_stored_as_validation_list environ (a : Train.args F) u tr :
  Train.main environ a = (Ok u, tr) →
  ∃ t, trainers tr = [t] ∧
    (∀ path name, (path, name) ∈ artifacts tr →
       path = Train.classlist a ∨ path = Train.trainlist a ∨
       path = best_model_path t) ∧
    (artifacts tr ≠ [] → os_path_isfile (Train.vallist a) = true →
     (Train.trainlist a, os_path_basename (Train.vallist a)) ∈ artifacts tr).
Proof.
  intros Hmain. training_run Hmain. exists trainer.
  rewrite Htrainers, Harts, Hart. split; [exact Ht|]. clear.
  destruct (opt_truthy (al_artifacts_uri (Train.trainer_logger lg)));
    [|split; [by intros ? ? ?%elem_of_nil|done]].
  split.
  - intros path name.
    destruct (os_path_isfile (Train.classlist a)),
      (os_path_isfile (Train.vallist a)), (os_path_isfile (Train.trainlist a));
      cbn [app]; rewrite ?elem_of_cons, elem_of_nil; intros Hin;
      repeat destruct Hin as [Hin|Hin]; try (destruct Hin; fail);
      injection Hin as -> _; auto.
  - intros _ ->. destruct (os_path_isfile (Train.classlist a)); cbn [app];
      rewrite ?elem_of_cons; auto.
Qed.

(** X24. Uploads follow the trainer's first logger: a run of [main] that
    returns uploads nothing at all, the best checkpoint included, when the
    first logger of its trainer has no artifacts location; when it has
    one, the best checkpoint is uploaded, last and under its own name. *)
Theorem uploads_need_artifacts_uri environ (a : Train.args F) u tr :
  Train.main environ a = (Ok u, tr) →
  ∃ t, trainers tr = [t] ∧
    if opt_truthy (al_artifacts_uri (Train.trainer_logger (tr_logger t)))
    then last (artifacts tr)
         = Some (best_model_path t, os_path_basename (best_model_path t))
    else artifacts tr = [].
Proof.
  intros Hmain. training_run Hmain. exists trainer.
  rewrite Htrainers, Harts, Hart, Hlg. split; [exact Ht|]. clear.
  destruct (opt_truthy (al_artifacts_uri (Train.trainer_logger lg)));
    [|reflexivity].
  rewrite !app_assoc. apply last_snoc.
Qed.

(** The logger made from [--repo] is the trainer's first logger, and its
    artifacts location is the one of [--artifacts-location]. *)
Lemma args_logger_first environ (g : aim_group) post pre lg t :
  Train.setup_aimlogger (F:=F) environ g post pre = (Ok (Some lg), t) →
  opt_truthy (repo g) = true →
  al_artifacts_uri (Train.trainer_logger lg)
  = if opt_truthy (artifacts_location g) then artifacts_location g else None.
Proof.
  unfold Train.setup_aimlogger. intros Hrun Hrepo.
  apply bind_Ok_inv in Hrun as (? & ? & ? & _ & Hrun & _).
  apply bind_Ok_inv in Hrun as (el & ? & ? & _ & Hrun & _).
  apply bind_Ok_inv in Hrun as (al & ? & ? & Hargs & Hrun & _).
  rewrite Hrepo in Hargs. revert Hargs. run_script. intros [= <- _].
  assert (∀ l : aimlogger,
            al_artifacts_uri (if opt_truthy (note g)
                              then Train.set_description l (note g) else l)
            = al_artifacts_uri l) as Hnote
    by (intros l; by destruct (opt_truthy (note g))).
  destruct el as [el|]; injection Hrun as <- _;
    cbn [Train.trainer_logger]; rewrite Hnote;
    destruct (artifacts_location g) as [loc|]; cbn [opt_truthy];
    try destruct (str_truthy loc); reflexivity.
Qed.

(** X25. With [--repo], uploads depend on [--artifacts-location] alone:
    a run of [main] that returns uploads something exactly when
    [--artifacts-location] is given and not empty, whether or not the
    environment sets [AIM_ARTIFACTS_URI]. *)
Theorem uploads_with_repo environ (a : Train.args F) u tr :
  Train.main environ a = (Ok u, tr) →
  opt_truthy (repo (Train.aim a)) = true →
  artifacts tr ≠ [] ↔ opt_truthy (artifacts_location (Train.aim a)) = true.
Proof.
  intros Hmain Hrepo. training_run Hmain.
  pose proof (args_logger_first _ _ _ _ _ _ Hlog Hrepo) as Huri.
  rewrite Harts, Hart, Huri. clear.
  destruct (artifacts_location (Train.aim a)) as [loc|] eqn:Hloc;
    cbn [opt_truthy]; [destruct (str_truthy loc) eqn:Htruthy|].
  - cbn [opt_truthy]. rewrite Htruthy, !app_assoc. split; [done|].
    intros _ Hnil. by apply app_nil in Hnil as [_ ?].
  - cbn [opt_truthy]. split; [by intros []|done].
  - split; [by intros []|done].
Qed.

(** X26. Auto-tuning caps the batch size: in a run of [main] that returns
    with [--autobatch] and a non-zero [--autobatch-max], the model that is
    fitted has the hyperparameters of the classifier that was set up,
    with those of the model and epoch arguments saved over them; its
    batch size is the smaller of the size the tuner found and the
    maximum, and the initial batch size is not among them. *)
Theorem autobatch_caps_batch_size environ (a : Train.args F) u tr (m : Z) :
  Train.main environ a = (Ok u, tr) →
  opt_truthy (Train.autobatch a) = true →
  Train.autobatch_max a = Some m → m ≠ 0%Z →
  ∃ model0 dm a' model hp,
    (Train.setup_model_and_datamodule a).1 = Ok (model0, dm, a') ∧
    fits tr = [(model, dm)] ∧
    saved_hyperparameters tr = [hp] ∧
    hparams model = list_to_map hp ∪ hparams model0 ∧
    hparams model !! "batch_size"
      = Some (PyInt (Z.min (scale_batch_size model0 dm
                              (default "" (Train.autobatch a))
                              (Train.batch_size a)) m)) ∧
    hparams model !! "batch_size_init" = None ∧
    hparams model !! "model_name" = hparams model0 !! "model_name".
Proof.
  intros Hmain Hauto' Hmax Hm. training_run Hmain.
  rewrite Hauto', Hmax in Hauto. apply int_truthy_ne in Hm.
  rewrite Hm in Hauto. cbv zeta in Hauto. destruct Hauto as [Hhp Hmodel].
  destruct (setup_model_Ok a model0 dm a' t0 Hsetup) as (kw & Hm0 & _).
  destruct (setup_model_Ok_inv a model0 dm a' t0 Hsetup) as (name & n & w & Ha').
  eexists model0, dm, a', model, _. rewrite Hsetup, Hfits, Hsaved.
  split; [reflexivity|]. split; [exact Hf|]. split; [exact Hhp|].
  split; [exact Hmodel|]. rewrite Hmodel. subst model0 a'. cbn [hparams].
  split; [|split].
  - apply lookup_union_Some_l. vm_compute. reflexivity.
  - apply lookup_union_None. split; vm_compute; reflexivity.
  - rewrite lookup_union_r; [reflexivity|]. vm_compute. reflexivity.
Qed.
End training_steps.

(** ** The logger and the S3 client *)

Section s3_client.
Context {F : Type} `{FloatOps F} `{World F}.

Lemma setup_aimlogger_s3_raises environ (g : aim_group) post pre :
  Train.env_truthy environ "AIM_ARTIFACTS_S3_ENDPOINT" = true →
  environ !! "AIM_ARTIFACTS_S3_ACCESSKEY" = None ∨
  environ !! "AIM_ARTIFACTS_S3_SECRETKEY" = None →
  Train.setup_aimlogger (F:=F) environ g post pre
  = (Raise (KeyError match environ !! "AIM_ARTIFACTS_S3_ACCESSKEY" with
                     | Some _ => "AIM_ARTIFACTS_S3_SECRETKEY"
                     | None => "AIM_ARTIFACTS_S3_ACCESSKEY"
                     end), []).
Proof.
  intros Hs3 Hmissing. unfold Train.setup_aimlogger. rewrite Hs3.
  unfold Train.env_truthy in Hs3. unfold getitem.
  destruct (environ !! "AIM_ARTIFACTS_S3_ENDPOINT") as [endpoint|];
    [|discriminate Hs3].
  destruct (environ !! "AIM_ARTIFACTS_S3_ACCESSKEY") as [access|].
  - destruct Hmissing as [Hm | ->]; [discriminate Hm|]. reflexivity.
  - reflexivity.
Qed.

(** X28. An S3 endpoint needs both credentials: when
    [AIM_ARTIFACTS_S3_ENDPOINT] is set and not empty and the access key or
    the secret key is not in the environment, [setup_aimlogger] raises the
    KeyError of the first one missing, whatever [--repo] and [AIM_REPO]
    say; the evaluation script stops there having done nothing, and the
    training script having set up its model and no logger. *)
Theorem s3_endpoint_needs_credentials environ (g : aim_group) post pre
    (ea : Evaluation.args) (ta : Train.args F) :
  Train.env_truthy environ "AIM_ARTIFACTS_S3_ENDPOINT" = true →
  environ !! "AIM_ARTIFACTS_S3_ACCESSKEY" = None ∨
  environ !! "AIM_ARTIFACTS_S3_SECRETKEY" = None →
  ∃ key,
    key ∈ ["AIM_ARTIFACTS_S3_ACCESSKEY"; "AIM_ARTIFACTS_S3_SECRETKEY"] ∧
    environ !! key = None ∧
    Train.setup_aimlogger (F:=F) environ g post pre = (Raise (KeyError key), []) ∧
    Evaluation.main (F:=F) environ ea = (Raise (KeyError key), []) ∧
    (is_ok (Train.setup_model_and_datamodule ta).1 = true →
     (Train.main environ ta).1 = Raise (KeyError key) ∧
     (Train.main environ ta).2 = (Train.setup_model_and_datamodule ta).2 ∧
     loggers_created (Train.main environ ta).2 = []).
Proof.
  intros Hs3 Hmissing.
  pose proof (λ g post pre, setup_aimlogger_s3_raises environ g post pre
                              Hs3 Hmissing) as Hraise.
  set (key := match environ !! "AIM_ARTIFACTS_S3_ACCESSKEY" with
              | Some _ => "AIM_ARTIFACTS_S3_SECRETKEY"
              | None => "AIM_ARTIFACTS_S3_ACCESSKEY"
              end) in *.
  exists key. split; [|split; [|split; [apply Hraise|split]]].
  - unfold key. destruct (environ !! "AIM_ARTIFACTS_S3_ACCESSKEY");
      rewrite !elem_of_cons; auto.
  - unfold key. destruct (environ !! "AIM_ARTIFACTS_S3_ACCESSKEY") eqn:Ha;
      [|exact Ha]. by destruct Hmissing.
  - unfold Evaluation.main. rewrite Hraise. reflexivity.
  - intros Hsetup.
    destruct (Train.setup_model_and_datamodule ta)
      as [[[[model dm] a']|?] t0] eqn:Hs; [|discriminate Hsetup].
    assert (loggers_created t0 = []) as Hnone.
    { pose proof (silent_omap (λ e, match e with
                                    | EvAimLogger _ => true
                                    | _ => false
                                    end)
                    (Train.setup_model_and_datamodule ta)
                    (λ e, match e with
                          | EvAimLogger r => Some r
                          | _ => None
                          end)) as Hq.
      rewrite Hs in Hq. apply Hq; [by intros []|]. rewrite <- Hs.
      unfold Train.setup_model_and_datamodule. repeat silent_step. }
    unfold Train.main. rewrite Hs. run_script. rewrite Hraise. run_script.
    rewrite app_nil_r. cbn [fst snd].
    split; [reflexivity|]. split; [reflexivity|exact Hnone].
Qed.
End s3_client.

(** ** The confusion matrix of the ensemble *)

Section confusion_matrix.
Context {F : Type} `{FloatOps F} `{World F}.

Lemma main_metrics_confusion l cl pc avg soft lab :
  confusion_plots (Evaluation.main_metrics (OneLogger l) cl pc avg soft lab).2
  = [(confusion_compute
        (Metric "ConfusionMatrix" "multiclass" (length cl) None
           [(Classes soft, lab)]),
      "Normalized Ensemble Confusion Matrix (HARD)", Some "soft")].
Proof. vm_compute. reflexivity. Qed.

(** X27. The confusion matrix of the soft vote is titled HARD: a run of
    the evaluation script that returns plots one confusion matrix; its
    counts are those of the soft-voting classes against the true labels,
    it is logged as the soft voting ensemble, and the title of the plot
    says '(HARD)'. *)
Theorem soft_confusion_titled_hard environ a o tr :
  Evaluation.main environ a = (Ok o, tr) →
  ∃ num_classes,
    confusion_plots tr
    = [(confusion_compute
          (Metric "ConfusionMatrix" "multiclass" num_classes None
             [(Classes (Evaluation.softvoting_classes o),
               Evaluation.true_labels o)]),
        "Normalized Ensemble Confusion Matrix (HARD)", Some "soft")].
Proof.
  intros (l & cl & pc & scores & labels & pre & post & -> & Hq & _ & _ & _ & _
          & Hm)%main_Ok_inv.
  exists (length cl).
  pose proof (main_metrics_confusion l cl pc (Evaluation.averaged_scores o)
                (Evaluation.softvoting_classes o) (Evaluation.true_labels o))
    as Hplot.
  rewrite Hm in Hplot. cbn [snd] in Hplot.
  assert (confusion_plots pre = []) as Hpre.
  { apply (silent_omap is_report (Ok tt, pre)); [|exact Hq].
    intros []; try done. }
  unfold confusion_plots in *. rewrite omap_app, Hpre, Hplot. reflexivity.
Qed.
End confusion_matrix.

(** ** Subsets of the arguments *)

Section args_subset.
Context {V : Type}.

Lemma args_subset_elem (parser : list (string * list string))
    (args : list (string * V)) arg_names group_titles exclude k v :
  (k, v) ∈ args_subsetter_factory parser args arg_names group_titles exclude ↔
  (k, v) ∈ args ∧
  (k ∈ default [] arg_names ∨
   ∃ title dests, (title, dests) ∈ parser ∧ title ∈ group_titles ∧ k ∈ dests) ∧
  k ∉ exclude.
Proof.
  unfold args_subsetter_factory. rewrite list_elem_of_filter. cbn [fst].
  rewrite elem_of_app.
  assert (k ∈ mjoin (map snd (filter (λ group, group.1 ∈ group_titles) parser)) ↔
          ∃ title dests,
            (title, dests) ∈ parser ∧ title ∈ group_titles ∧ k ∈ dests) as ->.
  { rewrite list_elem_of_join. split.
    - intros (dests & Hk & ([title dests'] & -> & Hg)%list_elem_of_fmap).
      apply list_elem_of_filter in Hg as [Ht Hg]. by exists title, dests'.
    - intros (title & dests & Hg & Ht & Hk). exists dests. split; [exact Hk|].
      apply list_elem_of_fmap. exists (title, dests). split; [reflexivity|].
      apply list_elem_of_filter. by split. }
  destruct arg_names; cbn [default from_option id]; tauto.
Qed.

(** X29. What a subset of the arguments holds: the entries of the
    namespace, in the order of the namespace, whose name is among the
    names asked for or among the arguments of a group whose title is
    asked for, and is not excluded. Exclusion wins over both, and titles
    of no group and names of no argument go unnoticed. *)
Theorem args_subset_spec (parser : list (string * list string))
    (args : list (string * V)) arg_names group_titles exclude :
  sublist (args_subsetter_factory parser args arg_names group_titles exclude)
    args ∧
  ∀ k v,
    (k, v) ∈ args_subsetter_factory parser args arg_names group_titles exclude ↔
    (k, v) ∈ args ∧
    (k ∈ default [] arg_names ∨
     ∃ title dests, (title, dests) ∈ parser ∧ title ∈ group_titles ∧ k ∈ dests) ∧
    k ∉ exclude.
Proof.
  split; [apply sublist_filter|]. intros k v. apply args_subset_elem.
Qed.
End args_subset.

Section hparams_subset.
Context {F : Type} `{FloatOps F} `{World F}.

(** X30. The hyperparameters saved after auto-tuning are the model and
    epoch arguments: on a namespace that holds the entries of
    [just_hparams] between entries of other names, and with the parser of
    [argparse_init] behind whatever groups of other titles, the subset for
    the groups 'Model Parameters' and 'Epoch Parameters' is exactly
    [just_hparams]. *)
Theorem just_hparams_is_the_subset (a : Train.args F)
    (groups : list (string * list string))
    (before after : list (string * pyval F)) :
  Forall (λ g, g.1 ∉ ["Model Parameters"; "Epoch Parameters"]) groups →
  Forall (λ kv, kv.1 ∉ map fst (Train.just_hparams a)) (before ++ after) →
  args_subsetter_factory (groups ++ train_groups)
    (before ++ Train.just_hparams a ++ after) (Some [])
    ["Model Parameters"; "Epoch Parameters"] []
  = Train.just_hparams a.
Proof.
  intros Hgroups [Hbefore Hafter]%Forall_app. unfold args_subsetter_factory.
  rewrite (filter_app _ groups train_groups).
  assert (filter (λ group : string * list string,
                    group.1 ∈ ["Model Parameters"; "Epoch Parameters"]) groups
          = []) as ->.
  { clear -Hgroups. induction Hgroups as [|g groups Hg _ IH]; [done|].
    rewrite filter_cons_False by done. exact IH. }
  assert (filter (λ group : string * list string,
                    group.1 ∈ ["Model Parameters"; "Epoch Parameters"])
            train_groups
          = [("Model Parameters",
              ["model"; "weights"; "seed"; "batch_size"; "num_classes"; "freeze";
               "loss_function"; "loss_weights"; "loss_weights_tensor";
               "loss_smoothing"; "loss_gamma"; "optimizer"; "lr"; "swa";
               "swa_lr"; "swa_annealing"]);
             ("Epoch Parameters", ["epoch_max"; "epoch_min"; "epoch_stop"])])
    as -> by (vm_compute; reflexivity).
  cbn [app map snd mjoin list_join].
  change (map fst (Train.just_hparams a))
    with ["model"; "weights"; "seed"; "batch_size"; "num_classes"; "freeze";
          "loss_function"; "loss_weights"; "loss_weights_tensor";
          "loss_smoothing"; "loss_gamma"; "optimizer"; "lr"; "swa";
          "swa_lr"; "swa_annealing"; "epoch_max"; "epoch_min"; "epoch_stop"]
    in Hbefore, Hafter.
  set (keys := ["model"; "weights"; "seed"; "batch_size"; "num_classes";
                "freeze"; "loss_function"; "loss_weights";
                "loss_weights_tensor"; "loss_smoothing"; "loss_gamma";
                "optimizer"; "lr"; "swa"; "swa_lr"; "swa_annealing";
                "epoch_max"; "epoch_min"; "epoch_stop"]) in *.
  assert (∀ l : list (string * pyval F),
            Forall (λ kv, kv.1 ∉ keys) l →
            filter (λ kv : string * pyval F, kv.1 ∈ keys ∧ kv.1 ∉ []) l = [])
    as Hnone.
  { intros l Hl. induction Hl as [|kv l Hkv _ IH]; [done|].
    rewrite filter_cons_False by tauto. exact IH. }
  rewrite !filter_app, (Hnone before Hbefore), (Hnone after Hafter), app_nil_r.
  cbn [app]. unfold Train.just_hparams.
  repeat (rewrite filter_cons_True;
          [f_equal|split; [by vm_compute; auto 30|by intros ?%elem_of_nil]]).
  reflexivity.
Qed.
End hparams_subset.

(** ** The label check *)

Section label_check.
Context {F : Type} `{FloatOps F} `{World F}.

End label_check.

(** * The further properties at work on concrete inputs *)

(** The comparison of rationals is a strict weak order. *)
Lemma Q_flt_asym (x y : Q) : flt x y = true → flt y x = false.
Proof.
  cbn [flt Demo.Q_float]. intros Hxy%negb_true_iff. apply negb_false_iff.
  apply Qle_bool_iff. apply Qlt_le_weak, Qnot_le_lt. intros Hle.
  apply Qle_bool_iff in Hle. congruence.
Qed.

Lemma Q_flt_negtrans (x y z : Q) :
  flt x y = false → flt y z = false → flt x z = false.
Proof.
  cbn [flt Demo.Q_float]. intros Hxy%negb_false_iff Hyz%negb_false_iff.
  apply negb_false_iff. apply Qle_bool_iff in Hxy, Hyz. apply Qle_bool_iff.
  by apply (Qle_trans _ y).
Qed.

Lemma predictions_are_classes_witness :
  ∃ averaged soft hard,
    Evaluation.softvoting Demo.demo_scores = Ok (averaged, soft) ∧
    Evaluation.hardvoting Demo.demo_scores = Ok hard ∧
    ∀ m, m < 2 →
      ∃ s h, data soft !! m = Some s ∧ data hard !! m = Some h ∧
             (0 ≤ s < Z.of_nat 3)%Z ∧ (0 ≤ h < Z.of_nat 3)%Z.
Proof.
  apply (predictions_are_classes 3 2 3 Demo.demo_scores); [reflexivity|lia|lia].
Defined.

(** Two of the three models predict class 0 for the second sample. *)
Lemma hardvoting_majority_witness :
  ∃ hard,
    Evaluation.hardvoting Demo.demo_scores = Ok hard ∧
    data hard !! 1 = Some 0%Z.
Proof.
  apply (hardvoting_majority 3 2 3 Demo.demo_scores 1 0%Z);
    [reflexivity|lia|lia|vm_compute; lia].
Defined.

Lemma hardvoting_unanimous_witness :
  ∃ hard,
    Evaluation.hardvoting Cases.unanimous_scores = Ok hard ∧
    data hard !! 0 = Some 0%Z.
Proof.
  apply (hardvoting_unanimous 2 1 2 Cases.unanimous_scores 0 0%Z);
    [reflexivity|lia|lia|lia|].
  intros [|[|n]] Hn; [vm_compute; reflexivity..|lia].
Defined.

Lemma softvoting_greatest_mean_witness :
  ∃ averaged soft,
    Evaluation.softvoting Demo.demo_scores = Ok (averaged, soft) ∧
    ∀ m, m < 2 →
      ∃ p x, data soft !! m = Some (Z.of_nat p) ∧
             mean_probs Demo.demo_scores m !! p = Some x ∧
             ∀ c y, mean_probs Demo.demo_scores m !! c = Some y →
               flt x y = false ∧ (c < p → flt y x = true).
Proof.
  apply (softvoting_greatest_mean Q_flt_asym Q_flt_negtrans 3 2 3
           Demo.demo_scores); [reflexivity|reflexivity|lia].
Defined.

(** [--repo /aim] and [AIM_REPO=/env] together. *)
Lemma evaluation_fails_with_two_loggers_witness :
  is_ok (Evaluation.main Cases.environ_repo Demo.eval_args).1 = false ∧
  tracked (Evaluation.main Cases.environ_repo Demo.eval_args).2 = [] ∧
  figures (Evaluation.main Cases.environ_repo Demo.eval_args).2 = [].
Proof.
  apply (evaluation_fails_with_two_loggers Cases.environ_repo Demo.eval_args
           (AimLogger "/aim" (Some "exp") (Some "run")
              (Some Evaluation.contexts_eval) None None None)
           (AimLogger "/env" (Some "exp") (Some "run")
              (Some Evaluation.contexts_eval) None (Some "file:///env") None)).
  vm_compute. reflexivity.
Defined.

(** The last event of the concrete evaluation run is a report. *)
Lemma demo_evaluation_ends_in_report :
  match last (Evaluation.main ∅ Demo.eval_args).2 with
  | Some e => is_report e = true
  | None => False
  end.
Proof. vm_compute. reflexivity. Qed.

Lemma reports_follow_checks_witness :
  ∃ e scores labels dm t stacked lab,
    e ∈ (Evaluation.main ∅ Demo.eval_args).2 ∧ is_report e = true ∧
    Evaluation.main_inference Demo.eval_args = (Ok (scores, labels, dm), t) ∧
    torch_stack scores = Ok stacked ∧
    Evaluation.check_labels labels = Ok lab ∧
    is_ok (Evaluation.softvoting stacked) = true ∧
    is_ok (Evaluation.hardvoting stacked) = true.
Proof.
  pose proof demo_evaluation_ends_in_report as Hlast.
  destruct (last (Evaluation.main ∅ Demo.eval_args).2) as [e|] eqn:He;
    [|destruct Hlast].
  apply last_Some_elem_of in He.
  destruct (reports_follow_checks ∅ Demo.eval_args e He Hlast)
    as (scores & labels & dm & t & stacked & lab & Hrest).
  exists e, scores, labels, dm, t, stacked, lab.
  split; [exact He|]. split; [exact Hlast|exact Hrest].
Defined.

Lemma one_slice_per_model_witness :
  ∃ o tr,
    Evaluation.main ∅ Demo.eval_args = (Ok o, tr) ∧
    Evaluation.models Demo.eval_args ≠ [] ∧
    ∃ scores labels dm t sh,
      Evaluation.main_inference Demo.eval_args = (Ok (scores, labels, dm), t) ∧
      Forall (λ s, shape s = sh) scores ∧
      shape (Evaluation.scores_per_model o)
        = length (Evaluation.models Demo.eval_args) :: sh ∧
      data (Evaluation.scores_per_model o) = concat (map data scores).
Proof.
  pose proof demo_evaluation_returns as Hok.
  destruct (Evaluation.main ∅ Demo.eval_args) as [[o|e] tr] eqn:Hrun;
    [|discriminate Hok].
  exists o, tr. split; [reflexivity|].
  exact (one_slice_per_model ∅ Demo.eval_args o tr Hrun).
Defined.

Lemma evaluation_of_no_model_witness :
  Evaluation.main ∅ Cases.eval_args_no_model
  = (Raise (RuntimeError "stack expects a non-empty TensorList"),
     [EvAimLogger "/aim"]
     ++ [EvDatamodule
           (Datamodule None "val.txt" "classes.txt" [] [] 100 None)]).
Proof.
  apply (evaluation_of_no_model ∅ Cases.eval_args_no_model
           (OneLogger (AimLogger "/aim" (Some "exp") (Some "run")
                         (Some Evaluation.contexts_eval) None None None))
           [EvAimLogger "/aim"]); [vm_compute; reflexivity|reflexivity].
Defined.

Lemma hard_metrics_never_updated_witness :
  ∃ o tr,
    Evaluation.main ∅ Demo.eval_args = (Ok o, tr) ∧
    size (Evaluation.metrics o) = 33 ∧
    ∃ num_classes, ∀ mode stat cls,
      mode ∈ Evaluation.averaging_modes →
      (stat, cls) ∈ Evaluation.stat_classes →
      Evaluation.metrics o
        !! (stat +:+ "_" +:+ default "perclass" mode +:+ "_HARD")%string
      = Some (Metric cls "multiclass" num_classes mode []).
Proof.
  pose proof demo_evaluation_returns as Hok.
  destruct (Evaluation.main ∅ Demo.eval_args) as [[o|e] tr] eqn:Hrun;
    [|discriminate Hok].
  exists o, tr. split; [reflexivity|].
  exact (hard_metrics_never_updated ∅ Demo.eval_args o tr Hrun).
Defined.

Lemma load_model_direct_witness :
  Evaluation.load_model "a.ckpt"
  = match hparams (Classifier {[ "model_name" := PyStr "a.ckpt" ]} false None)
            !! "model_name" with
    | Some name =>
        (Ok (Classifier {[ "model_name" := PyStr "a.ckpt" ]} false None,
             [Resize (get_model_resize name) (get_model_resize name);
              ToImage; ToDtype "torch.float32" true]), [])
    | None => (Raise (KeyError "model_name"), [])
    end.
Proof.
  apply (load_model_direct "a.ckpt"
           (Classifier {[ "model_name" := PyStr "a.ckpt" ]} false None));
    reflexivity.
Defined.

Lemma demo_load_model_returns :
  is_ok (Evaluation.load_model (F:=Q) "old.ckpt").1 = true.
Proof. vm_compute. reflexivity. Qed.

(** The transforms that come with a checkpoint loaded by the fallback. *)
Lemma load_model_transforms_witness :
  ∃ m transforms tr name,
    Evaluation.load_model "old.ckpt" = (Ok (m, transforms), tr) ∧
    hparams m !! "model_name" = Some name ∧
    transforms = [Resize (get_model_resize name) (get_model_resize name);
                  ToImage; ToDtype "torch.float32" true].
Proof.
  pose proof demo_load_model_returns as Hok.
  destruct (Evaluation.load_model "old.ckpt") as [[[m transforms]|e] tr] eqn:Hrun;
    [|discriminate Hok].
  destruct (load_model_transforms "old.ckpt" m transforms tr Hrun)
    as (name & Hname & Htf).
  exists m, transforms, tr, name. split; [reflexivity|]. by split.
Defined.

(** A model name is not a checkpoint file. *)
Lemma load_model_needs_ckpt_file_witness :
  ∃ e, Evaluation.load_model (F:=Q) "resnet18" = (Raise e, []).
Proof. apply (load_model_needs_ckpt_file "resnet18"). reflexivity. Defined.

Lemma load_model_second_failure_witness :
  @Evaluation.load_model Q Cases.unreadable_world "bad.ckpt"
  = (Raise (RuntimeError "invalid magic number"), []).
Proof.
  apply (@load_model_second_failure Q Cases.unreadable_world "bad.ckpt"
           (RuntimeError "not a lightning checkpoint")
           (RuntimeError "invalid magic number")); reflexivity.
Defined.

Lemma load_model_missing_old_name_witness :
  @Evaluation.load_model Q Cases.unreadable_world "bare.ckpt"
  = (Raise (KeyError match hyper_parameters (Checkpoint (F:=Q) ∅ []) !! "model" with
                     | Some _ => "weights"
                     | None => "model"
                     end), []).
Proof.
  apply (@load_model_missing_old_name Q Cases.unreadable_world "bare.ckpt"
           (RuntimeError "not a lightning checkpoint") (Checkpoint ∅ []));
    [reflexivity|reflexivity|reflexivity|vm_compute; reflexivity|].
  left. vm_compute. reflexivity.
Defined.

Lemma demo_legacy_returns :
  is_ok (Evaluation.legacy_hyper_parameters Cases.old_hyper_parameters).1 = true.
Proof. vm_compute. reflexivity. Qed.

Lemma legacy_idempotent_witness :
  ∃ hp' tr,
    Evaluation.legacy_hyper_parameters Cases.old_hyper_parameters = (Ok hp', tr) ∧
    is_Some (hp' !! "model_name") ∧
    Evaluation.legacy_hyper_parameters hp' = (Ok hp', []).
Proof.
  pose proof demo_legacy_returns as Hok.
  destruct (Evaluation.legacy_hyper_parameters Cases.old_hyper_parameters)
    as [[hp'|e] tr] eqn:Hrun; [|discriminate Hok].
  exists hp', tr. split; [reflexivity|].
  exact (legacy_idempotent Cases.old_hyper_parameters hp' tr Hrun).
Defined.

Lemma demo_setup_returns :
  is_ok (Train.setup_model_and_datamodule Demo.train_args).1 = true.
Proof. vm_compute. reflexivity. Qed.

Lemma trained_hparams_are_expected_witness :
  ∃ model dm a' tr,
    Train.setup_model_and_datamodule Demo.train_args = (Ok (model, dm, a'), tr) ∧
    (∀ k, is_Some (hparams model !! k) ↔ k ∈ Evaluation.expected_hparams) ∧
    hparams model !! "model_name"
      = Some (PyStr (check_model_name (Train.model Demo.train_args))) ∧
    Evaluation.legacy_hyper_parameters (hparams model) = (Ok (hparams model), []).
Proof.
  pose proof demo_setup_returns as Hok.
  destruct (Train.setup_model_and_datamodule Demo.train_args)
    as [[[[model dm] a']|e] tr] eqn:Hrun; [|discriminate Hok].
  exists model, dm, a', tr. split; [reflexivity|].
  exact (trained_hparams_are_expected Demo.train_args model dm a' tr Hrun).
Defined.

Lemma loss_weights_file_raises_witness :
  (Train.setup_model_and_datamodule Cases.train_args_weights_file).1
    = Raise (AttributeError "'Namespace' object has no attribute 'loss_weight'") ∧
  classifiers (Train.setup_model_and_datamodule Cases.train_args_weights_file).2
    = [].
Proof.
  apply (loss_weights_file_raises Cases.train_args_weights_file "weights.txt");
    [reflexivity|discriminate|reflexivity].
Defined.

Lemma normalized_cross_entropy_raises_witness :
  (Train.setup_model_and_datamodule
     (Cases.train_args_normalize "CrossEntropyLoss")).1
    = Raise (RuntimeError
        "Boolean value of Tensor with more than one value is ambiguous") ∧
  classifiers (Train.setup_model_and_datamodule
                 (Cases.train_args_normalize "CrossEntropyLoss")).2 = [].
Proof.
  apply (normalized_cross_entropy_raises
           (Cases.train_args_normalize "CrossEntropyLoss") 1);
    [reflexivity|reflexivity| |lia].
  apply list_elem_of_In. vm_compute. auto.
Defined.

Lemma normalized_focal_loss_witness :
  ∃ model dm a' tr,
    Train.setup_model_and_datamodule (Cases.train_args_normalize "FocalLoss")
      = (Ok (model, dm, a'), tr) ∧
    Train.loss_weights_tensor a'
      = PyTensor (Train.normalized_class_weights
          (targets_of "train.txt" ++ targets_of "val.txt")) ∧
    hparams model !! "loss_kwargs"
      = Some (PyDict
          (("gamma", PyFloat 1%Q) ::
           if existsb (λ x, negb (fis_zero x))
                (data (Train.normalized_class_weights
                   (targets_of "train.txt" ++ targets_of "val.txt")))
           then [("alpha", Train.loss_weights_tensor a')]
           else [])).
Proof.
  apply (normalized_focal_loss (Cases.train_args_normalize "FocalLoss") 0);
    [reflexivity|reflexivity|].
  apply list_elem_of_In. vm_compute. auto.
Defined.

Lemma demo_setup_no_experiment :
  is_ok (Train.setup_model_and_datamodule Cases.train_args_no_experiment).1
  = true.
Proof. vm_compute. reflexivity. Qed.

Lemma training_needs_experiment_witness :
  (∃ msg, (Train.main ∅ Cases.train_args_no_experiment).1
          = Raise (TypeError msg)) ∧
  trainers (Train.main ∅ Cases.train_args_no_experiment).2 = [] ∧
  fits (Train.main ∅ Cases.train_args_no_experiment).2 = [].
Proof.
  pose proof demo_setup_no_experiment as Hok.
  destruct (Train.setup_model_and_datamodule Cases.train_args_no_experiment)
    as [[[[model0 dm] a']|e] t0] eqn:Hsetup; [|discriminate Hok].
  destruct (training_needs_experiment ∅ Cases.train_args_no_experiment
              model0 dm a' t0
              (OneLogger (AimLogger "/aim" None (Some "run")
                            (Some Train.contexts_train) None None None))
              [EvAimLogger "/aim"] true Hsetup)
    as (Hraise & _ & Htrainers & Hfits);
    [vm_compute; reflexivity|reflexivity|by left|].
  split; [exact Hraise|]. split; [exact Htrainers|exact Hfits].
Defined.

Lemma demo_autobatch_returns :
  (Train.main ∅ Cases.train_args_autobatch).1 = Ok tt.
Proof. vm_compute. reflexivity. Qed.

Lemma training_returns_only_if_witness :
  is_ok (Train.setup_model_and_datamodule Cases.train_args_autobatch).1 = true ∧
  (∃ lg, (Train.setup_aimlogger (F:=Q) ∅ (Train.aim Cases.train_args_autobatch)
            (Some Train.contexts_train) None).1 = Ok (Some lg)) ∧
  is_ok (py_bool (Train.freeze Cases.train_args_autobatch)) = true ∧
  is_Some (experiment (Train.aim Cases.train_args_autobatch)) ∧
  is_Some (run (Train.aim Cases.train_args_autobatch)).
Proof.
  pose proof demo_autobatch_returns as Hok.
  destruct (Train.main ∅ Cases.train_args_autobatch) as [r tr] eqn:Hrun.
  cbn [fst] in Hok. subst r.
  exact (training_returns_only_if ∅ Cases.train_args_autobatch tt tr Hrun).
Defined.


Lemma training_list_stored_as_validation_list_witness :
  ∃ tr,
    Train.main ∅ Cases.train_args_autobatch = (Ok tt, tr) ∧
    ("train.txt", "val.txt") ∈ artifacts tr ∧
    ∀ name, ("val.txt", name) ∉ artifacts tr.
Proof.
  pose proof demo_autobatch_returns as Hok.
  assert (artifacts (Train.main ∅ Cases.train_args_autobatch).2 ≠ []) as Hsome
    by (vm_compute; discriminate).
  destruct (Train.main ∅ Cases.train_args_autobatch) as [r tr] eqn:Hrun.
  cbn [fst] in Hok. cbn [snd] in Hsome. subst r.
  destruct (training_list_stored_as_validation_list ∅
              Cases.train_args_autobatch tt tr Hrun)
    as (t & _ & Hpaths & Hval).
  exists tr. split; [reflexivity|]. split; [by apply Hval|].
  intros name Hin. by destruct (Hpaths _ _ Hin) as [?|[?|?]].
Defined.

Lemma uploads_need_artifacts_uri_witness :
  ∃ tr t,
    Train.main ∅ Cases.train_args_autobatch = (Ok tt, tr) ∧
    trainers tr = [t] ∧
    if opt_truthy (al_artifacts_uri (Train.trainer_logger (tr_logger t)))
    then last (artifacts tr)
         = Some (best_model_path t, os_path_basename (best_model_path t))
    else artifacts tr = [].
Proof.
  pose proof demo_autobatch_returns as Hok.
  destruct (Train.main ∅ Cases.train_args_autobatch) as [r tr] eqn:Hrun.
  cbn [fst] in Hok. subst r.
  destruct (uploads_need_artifacts_uri ∅ Cases.train_args_autobatch tt tr Hrun)
    as (t & Ht & Hlast).
  exists tr, t. split; [reflexivity|]. by split.
Defined.

Lemma uploads_with_repo_witness :
  ∃ tr,
    Train.main Cases.environ_repo Demo.train_args = (Ok tt, tr) ∧
    (artifacts tr ≠ [] ↔
     opt_truthy (artifacts_location (Train.aim Demo.train_args)) = true).
Proof.
  assert ((Train.main Cases.environ_repo Demo.train_args).1 = Ok tt) as Hok
    by (vm_compute; reflexivity).
  destruct (Train.main Cases.environ_repo Demo.train_args) as [r tr] eqn:Hrun.
  cbn [fst] in Hok. subst r. exists tr. split; [reflexivity|].
  apply (uploads_with_repo Cases.environ_repo Demo.train_args tt tr Hrun).
  reflexivity.
Defined.

Lemma autobatch_caps_batch_size_witness :
  ∃ tr model dm,
    Train.main ∅ Cases.train_args_autobatch = (Ok tt, tr) ∧
    fits tr = [(model, dm)] ∧
    hparams model !! "batch_size" = Some (PyInt 300) ∧
    hparams model !! "batch_size_init" = None.
Proof.
  pose proof demo_autobatch_returns as Hok.
  destruct (Train.main ∅ Cases.train_args_autobatch) as [r tr] eqn:Hrun.
  cbn [fst] in Hok. subst r.
  destruct (autobatch_caps_batch_size ∅ Cases.train_args_autobatch tt tr 300
              Hrun eq_refl eq_refl)
    as (model0 & dm & a' & model & hp & Hsetup & Hfits & _ & _ & Hsize & Hinit & _);
    [discriminate|].
  exists tr, model, dm. split; [reflexivity|]. split; [exact Hfits|].
  split; [|exact Hinit]. rewrite Hsize. reflexivity.
Defined.

Lemma soft_confusion_titled_hard_witness :
  ∃ o tr num_classes,
    Evaluation.main ∅ Demo.eval_args = (Ok o, tr) ∧
    confusion_plots tr
    = [(confusion_compute
          (Metric "ConfusionMatrix" "multiclass" num_classes None
             [(Classes (Evaluation.softvoting_classes o),
               Evaluation.true_labels o)]),
        "Normalized Ensemble Confusion Matrix (HARD)", Some "soft")].
Proof.
  pose proof demo_evaluation_returns as Hok.
  destruct (Evaluation.main ∅ Demo.eval_args) as [[o|e] tr] eqn:Hrun;
    [|discriminate Hok].
  destruct (soft_confusion_titled_hard ∅ Demo.eval_args o tr Hrun) as [n Hplot].
  exists o, tr, n. split; [reflexivity|exact Hplot].
Defined.

(** [--repo /aim] does not help when the S3 credentials are missing. *)
Lemma s3_endpoint_needs_credentials_witness :
  ∃ key,
    Cases.environ_s3 !! key = None ∧
    Evaluation.main (F:=Q) Cases.environ_s3 Demo.eval_args
      = (Raise (KeyError key), []) ∧
    (Train.main Cases.environ_s3 Demo.train_args).1 = Raise (KeyError key) ∧
    loggers_created (Train.main Cases.environ_s3 Demo.train_args).2 = [].
Proof.
  destruct (s3_endpoint_needs_credentials (F:=Q) Cases.environ_s3 Demo.demo_aim
              None None Demo.eval_args Demo.train_args)
    as (key & _ & Hkey & _ & Heval & Htrain);
    [vm_compute; reflexivity|left; vm_compute; reflexivity|].
  destruct (Htrain demo_setup_returns) as (Hraise & _ & Hnone).
  exists key. split; [exact Hkey|]. split; [exact Heval|]. by split.
Defined.

Lemma just_hparams_is_the_subset_witness :
  args_subsetter_factory (Cases.default_groups ++ train_groups)
    (Cases.namespace_before ++ Train.just_hparams Demo.train_args
       ++ Cases.namespace_after)
    (Some []) ["Model Parameters"; "Epoch Parameters"] []
  = Train.just_hparams Demo.train_args.
Proof.
  apply (just_hparams_is_the_subset Demo.train_args Cases.default_groups
           Cases.namespace_before Cases.namespace_after).
  - apply (bool_decide_unpack _). vm_compute. exact I.
  - apply (bool_decide_unpack _). vm_compute. exact I.
Defined.



